(** * mcp-proxy: a shallow embedding of the proxy core

    The development follows the Go sources of the proxy:
    - [config.go]   : the configuration model, the transport inference
                      ([parseMCPClientConfig]) and the loader ([load]);
    - [client.go]   : the backend client, the capability registrar with its
                      paging loops and the tool filter, [addToMCPServer],
                      [newMCPServer];
    - the HTTP file : [chainMiddleware], the three middlewares and the
                      per-backend part of [startHTTPServer].

    Go values are modelled as the code has them: a [string] is a sequence of
    bytes, a nil-able pointer or slice is an [option], a [map] used as a set
    is a [gset], a [map] is a [gmap].  Calls into the MCP library and the
    backend are explicit state passing over an abstract backend state. *)

From Stdlib Require Import ZArith NArith Lia Bool Ascii.
From stdpp Require Import base option list gmap sets strings.

(* ===================================================================== *)
(** * Go runtime and standard library helpers *)
(* ===================================================================== *)

(** [errors.New]: an error is its message. *)
Inductive error := errors_New (msg : string).

(** A Go call either returns or panics. *)
Inductive outcome (A : Type) :=
  | Returns (a : A)
  | Panics (v : string).
Arguments Returns {A} a.
Arguments Panics {A} v.

(** The value the runtime panics with on a nil pointer dereference. *)
Definition nil_dereference : string :=
  "runtime error: invalid memory address or nil pointer dereference".

(** [(value, error)] results. *)
Inductive result (A : Type) :=
  | Ok (a : A)
  | Err (e : error).
Arguments Ok {A} a.
Arguments Err {A} e.

(** [len] of a slice that may be nil. *)
Definition len {A} (s : option (list A)) : nat :=
  match s with
  | None => 0
  | Some l => length l
  end.

(** [optional.Field[T]] of TBXark/optional-go: a value that is present or
    not. *)
Definition Field (T : Type) := option T.
Definition Present {T} (f : Field T) : bool :=
  match f with Some _ => true | None => false end.
Definition OrElse {T} (f : Field T) (d : T) : T :=
  match f with Some v => v | None => d end.

(** [strings.HasPrefix]. *)
Fixpoint HasPrefix (s prefix : string) {struct prefix} : bool :=
  match prefix, s with
  | EmptyString, _ => true
  | String p prefix', String c s' =>
      if decide (p = c) then HasPrefix s' prefix' else false
  | String _ _, EmptyString => false
  end.

(** [strings.HasSuffix]. *)
Definition HasSuffix (s suffix : string) : bool :=
  HasPrefix (String.rev s) (String.rev suffix).

(** [strings.TrimPrefix]: [s] without the leading [prefix], or [s] itself
    when it does not start with [prefix]. *)
Fixpoint cutPrefix (s prefix : string) {struct prefix} : option string :=
  match prefix, s with
  | EmptyString, _ => Some s
  | String p prefix', String c s' =>
      if decide (p = c) then cutPrefix s' prefix' else None
  | String _ _, EmptyString => None
  end.
Definition TrimPrefix (s prefix : string) : string :=
  match cutPrefix s prefix with
  | Some rest => rest
  | None => s
  end.

(** [strings.TrimSpace]: the string without the white space at its start
    and at its end.  White space is what [unicode.IsSpace] says: tab, line
    feed, vertical tab, form feed, carriage return and space, and the code
    points U+0085, U+00A0, U+1680, U+2000 to U+200A, U+2028, U+2029,
    U+202F, U+205F and U+3000, which a string holds as the two or three
    bytes of their UTF-8 encoding.  Bytes that do not decode to one of
    these are not white space. *)
Definition isSpace2 (c1 c2 : ascii) : bool :=
  (* U+0085 is C2 85, U+00A0 is C2 A0 *)
  bool_decide (c1 = "194"%char)
  && (bool_decide (c2 = "133"%char) || bool_decide (c2 = "160"%char)).

Definition isSpace3 (c1 c2 c3 : ascii) : bool :=
  (* U+1680 is E1 9A 80 *)
  bool_decide (c1 = "225"%char) && bool_decide (c2 = "154"%char)
  && bool_decide (c3 = "128"%char)
  (* U+2000 to U+200A are E2 80 80 to E2 80 8A; U+2028, U+2029 and U+202F
     are E2 80 A8, E2 80 A9 and E2 80 AF *)
  || bool_decide (c1 = "226"%char) && bool_decide (c2 = "128"%char)
     && ((128 <=? N_of_ascii c3)%N && (N_of_ascii c3 <=? 138)%N
         || bool_decide (c3 = "168"%char) || bool_decide (c3 = "169"%char)
         || bool_decide (c3 = "175"%char))
  (* U+205F is E2 81 9F *)
  || bool_decide (c1 = "226"%char) && bool_decide (c2 = "129"%char)
     && bool_decide (c3 = "159"%char)
  (* U+3000 is E3 80 80 *)
  || bool_decide (c1 = "227"%char) && bool_decide (c2 = "128"%char)
     && bool_decide (c3 = "128"%char).

(** [TrimLeftFunc(s, unicode.IsSpace)]. *)
Fixpoint trimLeftSpace (s : string) : string :=
  match s with
  | String c1 s1 =>
      if Ascii.is_space c1 then trimLeftSpace s1
      else
        match s1 with
        | String c2 s2 =>
            if isSpace2 c1 c2 then trimLeftSpace s2
            else
              match s2 with
              | String c3 s3 =>
                  if isSpace3 c1 c2 c3 then trimLeftSpace s3 else s
              | EmptyString => s
              end
        | EmptyString => s
        end
  | EmptyString => EmptyString
  end.

(** [TrimRightFunc(s, unicode.IsSpace)], on the reversed string: the
    bytes of a code point come last byte first. *)
Fixpoint trimRightSpace (reversed : string) : string :=
  match reversed with
  | String c1 s1 =>
      if Ascii.is_space c1 then trimRightSpace s1
      else
        match s1 with
        | String c2 s2 =>
            if isSpace2 c2 c1 then trimRightSpace s2
            else
              match s2 with
              | String c3 s3 =>
                  if isSpace3 c3 c2 c1 then trimRightSpace s3 else reversed
              | EmptyString => reversed
              end
        | EmptyString => reversed
        end
  | EmptyString => EmptyString
  end.

Definition TrimSpace (s : string) : string :=
  String.rev (trimRightSpace (String.rev (trimLeftSpace s))).

(* ===================================================================== *)
(** * config.go *)
(* ===================================================================== *)

Record StdioMCPClientConfig := {
  stdio_Command : string;
  stdio_Env : gmap string string;
  stdio_Args : list string;
}.

Record SSEMCPClientConfig := {
  sse_URL : string;
  sse_Headers : gmap string string;
}.

Record StreamableMCPClientConfig := {
  streamable_URL : string;
  streamable_Headers : gmap string string;
  streamable_Timeout : Z;
}.

Definition MCPClientType := string.
Definition MCPClientTypeStdio : MCPClientType := "stdio".
Definition MCPClientTypeSSE : MCPClientType := "sse".
Definition MCPClientTypeStreamable : MCPClientType := "streamable-http".

Definition ToolFilterMode := string.
Definition ToolFilterModeAllow : ToolFilterMode := "allow".
Definition ToolFilterModeBlock : ToolFilterMode := "block".

Record ToolFilterConfig := {
  Mode : ToolFilterMode;
  List : list string;
}.

(** [AuthTokens] is a slice: [None] is the nil slice of an absent (or null)
    JSON field, [Some []] an empty list that is present. *)
Record Options := {
  PanicIfInvalid : Field bool;
  LogEnabled : Field bool;
  AuthTokens : option (list string);
  ToolFilter : option ToolFilterConfig;
}.

(** [&Options{}]. *)
Definition emptyOptions : Options :=
  {| PanicIfInvalid := None; LogEnabled := None;
     AuthTokens := None; ToolFilter := None |}.

Record MCPProxyConfig := {
  BaseURL : string;
  Addr : string;
  Name : string;
  Version : string;
  proxy_Options : option Options;
}.

Record MCPClientConfig := {
  TransportType : MCPClientType;
  Command : string;
  Args : list string;
  Env : gmap string string;
  URL : string;
  Headers : gmap string string;
  Timeout : Z;
  client_Options : option Options;
}.

(** The dynamic type of the [any] that [parseMCPClientConfig] returns. *)
Inductive ClientInfo :=
  | IsStdio (v : StdioMCPClientConfig)
  | IsSSE (v : SSEMCPClientConfig)
  | IsStreamable (v : StreamableMCPClientConfig).

Definition parseMCPClientConfig (conf : MCPClientConfig) : result ClientInfo :=
  if bool_decide (Command conf ≠ "")
     || bool_decide (TransportType conf = MCPClientTypeStdio)
  then
    if bool_decide (Command conf = "")
    then Err (errors_New "command is required for stdio transport")
    else Ok (IsStdio {| stdio_Command := Command conf;
                        stdio_Env := Env conf;
                        stdio_Args := Args conf |})
  else if bool_decide (URL conf ≠ "")
  then
    if bool_decide (TransportType conf = MCPClientTypeStreamable)
    then Ok (IsStreamable {| streamable_URL := URL conf;
                             streamable_Headers := Headers conf;
                             streamable_Timeout := Timeout conf |})
    else Ok (IsSSE {| sse_URL := URL conf; sse_Headers := Headers conf |})
  else Err (errors_New "invalid server type").

(** [McpProxy] and the values of [McpServers] are pointers: [None] is nil
    (a missing [mcpProxy], a [null] entry of [mcpServers]). *)
Record Config := {
  McpProxy : option MCPProxyConfig;
  McpServers : gmap string (option MCPClientConfig);
}.

Definition setProxyOptions (p : MCPProxyConfig) (o : Options) : MCPProxyConfig :=
  {| BaseURL := BaseURL p; Addr := Addr p; Name := Name p;
     Version := Version p; proxy_Options := Some o |}.

Definition setClientOptions (c : MCPClientConfig) (o : Options) : MCPClientConfig :=
  {| TransportType := TransportType c; Command := Command c; Args := Args c;
     Env := Env c; URL := URL c; Headers := Headers c; Timeout := Timeout c;
     client_Options := Some o |}.

(** The body of the [for _, clientConfig := range conf.McpServers] loop of
    [load], on one backend that is not nil; [proxyOptions] is
    [conf.McpProxy.Options] after its default was set. *)
Definition inheritOptions (proxyOptions : Options) (clientConfig : MCPClientConfig)
  : MCPClientConfig :=
  let o0 := match client_Options clientConfig with
            | None => emptyOptions
            | Some o => o
            end in
  let o1 := match AuthTokens o0 with
            | None =>
                {| PanicIfInvalid := PanicIfInvalid o0; LogEnabled := LogEnabled o0;
                   AuthTokens := AuthTokens proxyOptions; ToolFilter := ToolFilter o0 |}
            | Some _ => o0
            end in
  let o2 := if negb (Present (PanicIfInvalid o1))
            then {| PanicIfInvalid := PanicIfInvalid proxyOptions;
                    LogEnabled := LogEnabled o1;
                    AuthTokens := AuthTokens o1; ToolFilter := ToolFilter o1 |}
            else o1 in
  let o3 := if negb (Present (LogEnabled o2))
            then {| PanicIfInvalid := PanicIfInvalid o2;
                    LogEnabled := LogEnabled proxyOptions;
                    AuthTokens := AuthTokens o2; ToolFilter := ToolFilter o2 |}
            else o2 in
  setClientOptions clientConfig o3.

(** [load], from the result of [confstore.Load[Config](path)] on.  Reading
    [clientConfig.Options] of a nil [clientConfig] panics; the loop visits
    every entry, so it panics as soon as one entry is nil. *)
Definition load (loaded : result Config) : outcome (result Config) :=
  match loaded with
  | Err err => Returns (Err err)
  | Ok conf =>
      match McpProxy conf with
      | None => Returns (Err (errors_New "mcpProxy is required"))
      | Some proxy =>
          let proxyOptions := match proxy_Options proxy with
                              | None => emptyOptions
                              | Some o => o
                              end in
          if bool_decide (map_Forall (λ (_ : string) (c : option MCPClientConfig),
                                      is_Some c) (McpServers conf))
          then Returns (Ok {|
                 McpProxy := Some (setProxyOptions proxy proxyOptions);
                 McpServers :=
                   (λ c : option MCPClientConfig, inheritOptions proxyOptions <$> c)
                     <$> McpServers conf |})
          else Panics nil_dereference
      end
  end.

(* ===================================================================== *)
(** * Log lines *)
(* ===================================================================== *)

(** One constructor for each [log.Printf] format of the modelled code, with
    the values it is given. *)
Inductive LogLine :=
  | LogRequest (prefix method path : string)
      (* "<%s> Request [%s] %s" *)
  | LogRecovered (prefix err : string)
      (* "<%s> Recovered from panic: %v" *)
  | LogInitialized (name : string)
      (* "<%s> Successfully initialized MCP client" *)
  | LogNotInAllowList (name toolName : string)
      (* "<%s> Ignoring tool %s as it is not in allow list" *)
  | LogInBlockList (name toolName : string)
      (* "<%s> Ignoring tool %s as it is in block list" *)
  | LogUnknownMode (name mode : string)
      (* "<%s> Unknown tool filter mode: %s, skipping tool filter" *)
  | LogListed (name : string) (n : nat) (family : string)
      (* "<%s> Successfully listed %d tools" (prompts, resources, ...) *)
  | LogAdding (name family item : string)
      (* "<%s> Adding tool %s" (prompt, resource, resource template) *)
  | LogFailedToAdd (name : string) (e : error)
      (* "<%s> Failed to add client to server: %v" *)
  | LogConnected (name : string).
      (* "<%s> Connected" *)

Global Instance error_eq_dec : EqDecision error.
Proof. solve_decision. Defined.
Global Instance LogLine_eq_dec : EqDecision LogLine.
Proof. solve_decision. Defined.

(* ===================================================================== *)
(** * net/http: requests, handlers *)
(* ===================================================================== *)

(** [http.Header] maps a canonical header name to its values. *)
Record Request := {
  Method : string;
  URL_Path : string;
  Header : gmap string (list string);
}.

(** [Header.Get]: the first value of the header, or the empty string. *)
Definition Header_Get (h : gmap string (list string)) (key : string) : string :=
  match h !! key with
  | Some (v :: _) => v
  | _ => ""
  end.

(** What a handler leaves behind: the responses written to the
    [http.ResponseWriter] (status code and body) and the log. *)
Record Exchange := {
  written : list (nat * string);
  logged : list LogLine;
}.

Definition logPrintf (l : LogLine) (x : Exchange) : Exchange :=
  {| written := written x; logged := logged x ++ [l] |}.

(** The line feed. *)
Definition LF : string := String "010"%char EmptyString.

(** [http.Error(w, msg, code)]: the status code, and the message with a
    line feed after it as the body ([fmt.Fprintln]). *)
Definition http_Error (msg : string) (code : nat) (x : Exchange) : Exchange :=
  {| written := written x ++ [(code, msg +:+ LF)]; logged := logged x |}.

Definition StatusUnauthorized : nat := 401.
Definition StatusInternalServerError : nat := 500.

(** How [ServeHTTP] ends: it returns, or it panics with a value. *)
Inductive completion :=
  | Normal
  | Panicked (v : string).

Definition Handler := Request → Exchange → completion * Exchange.

Definition MiddlewareFunc := Handler → Handler.

(** [chainMiddleware] of the proxy: a [for ... range] over the middlewares,
    each one wrapping the handler built so far. *)
Definition chainMiddleware (h : Handler) (middlewares : list MiddlewareFunc)
  : Handler :=
  foldl (λ h mw, mw h) h middlewares.

(** [chainMiddleware] of the adapter's HTTP server: the same helper, with
    the loop running from the last middleware down to the first. *)
Definition adapter_chainMiddleware (handler : Handler)
    (middlewares : list MiddlewareFunc) : Handler :=
  foldr (λ mw handler, mw handler) handler middlewares.

(** The elements a [range] over a slice visits. *)
Definition elems {A} (s : option (list A)) : list A :=
  match s with
  | None => []
  | Some l => l
  end.

Definition newAuthMiddleware (tokens : option (list string)) : MiddlewareFunc :=
  let tokenSet : gset string := list_to_set (elems tokens) in
  λ next r x,
    if negb (len tokens =? 0) then
      let token := Header_Get (Header r) "Authorization" in
      let token := TrimSpace (TrimPrefix token "Bearer ") in
      if bool_decide (token = "") then
        (Normal, http_Error "Unauthorized" StatusUnauthorized x)
      else if negb (bool_decide (token ∈ tokenSet)) then
        (Normal, http_Error "Unauthorized" StatusUnauthorized x)
      else next r x
    else next r x.

(** [newAuthMiddleware] of the adapter's HTTP server. *)
Definition adapter_newAuthMiddleware (tokens : option (list string))
  : MiddlewareFunc :=
  λ next r x,
    if len tokens =? 0 then next r x
    else
      let authHeader := Header_Get (Header r) "Authorization" in
      if bool_decide (authHeader = "") then
        (Normal, http_Error "Authorization header required" StatusUnauthorized x)
      else if negb (HasPrefix authHeader "Bearer ") then
        (Normal, http_Error "Bearer token required" StatusUnauthorized x)
      else
        let token := TrimPrefix authHeader "Bearer " in
        if negb (bool_decide (token ∈ elems tokens)) then
          (Normal, http_Error "Invalid token" StatusUnauthorized x)
        else next r x.

Definition loggerMiddleware (prefix : string) : MiddlewareFunc :=
  λ next r x,
    next r (logPrintf (LogRequest prefix (Method r) (URL_Path r)) x).

(** The deferred function runs when [next.ServeHTTP] panics: it logs and
    answers 500, and the handler returns normally. *)
Definition recoverMiddleware (prefix : string) : MiddlewareFunc :=
  λ next r x,
    match next r x with
    | (Normal, x') => (Normal, x')
    | (Panicked err, x') =>
        (Normal,
         http_Error "Internal Server Error" StatusInternalServerError
           (logPrintf (LogRecovered prefix err) x'))
    end.

(* ===================================================================== *)
(** * path.Join *)
(* ===================================================================== *)

(** Go's [path] package, from the rules of its documentation: [Clean]
    collapses repeated slashes, drops [.] elements, resolves inner [..]
    elements, drops [..] at the start of a rooted path, and returns ["."]
    for the empty result; [Join] joins the elements from the first that is
    not empty on and cleans the result, or returns [""] when all are empty. *)
Fixpoint splitSlash (s : string) : list string :=
  match s with
  | EmptyString => [EmptyString]
  | String c s' =>
      if decide (c = "/"%char) then EmptyString :: splitSlash s'
      else match splitSlash s' with
           | x :: xs => String c x :: xs
           | [] => [String c EmptyString]
           end
  end.

Fixpoint joinSlash (elem : list string) : string :=
  match elem with
  | [] => ""
  | [e] => e
  | e :: rest => e +:+ "/" +:+ joinSlash rest
  end.

Definition cleanElem (rooted : bool) (stack : list string) (e : string)
  : list string :=
  if bool_decide (e = "") || bool_decide (e = ".") then stack
  else if bool_decide (e = "..") then
    match stack with
    | top :: rest => if bool_decide (top = "..") then e :: stack else rest
    | [] => if rooted then [] else [e]
    end
  else e :: stack.

Definition path_Clean (p : string) : string :=
  let rooted := HasPrefix p "/" in
  let body := joinSlash (rev (foldl (cleanElem rooted) [] (splitSlash p))) in
  if rooted then "/" +:+ body
  else if bool_decide (body = "") then "." else body.

Fixpoint dropEmpty (elem : list string) : list string :=
  match elem with
  | e :: rest => if bool_decide (e = "") then dropEmpty rest else elem
  | [] => []
  end.

Definition path_Join (elem : list string) : string :=
  match dropEmpty elem with
  | [] => ""
  | es => path_Clean (joinSlash es)
  end.

(* ===================================================================== *)
(** * The MCP library: capabilities, the per-backend server, the client *)
(* ===================================================================== *)

(** What the registrar reads of an advertised capability is its name; the
    remainder of the library value is carried along unchanged. *)
Record Tool := { tool_Name : string; tool_Rest : string }.
Record Prompt := { prompt_Name : string; prompt_Rest : string }.
Record Resource := { resource_Name : string; resource_Rest : string }.
Record ResourceTemplate := { template_Name : string; template_Rest : string }.

Global Instance Tool_eq_dec : EqDecision Tool.
Proof. solve_decision. Defined.

(** A page of a list call: [tools.Tools] and [tools.NextCursor], and the
    same for the other three families. *)
Record Page (A : Type) := {
  Items : list A;
  NextCursor : string;
}.
Arguments Items {A} p.
Arguments NextCursor {A} p.

(** [mcp.Implementation]. *)
Record Implementation := { impl_Name : string; impl_Version : string }.

(** [server.MCPServer]: its construction options and, in call order, what
    [AddTool], [AddPrompt], [AddResource] and [AddResourceTemplate] were
    given. *)
Record MCPServer := {
  srv_Name : string;
  srv_Version : string;
  srv_Logging : bool;
  srv_Tools : list Tool;
  srv_Prompts : list Prompt;
  srv_Resources : list Resource;
  srv_ResourceTemplates : list ResourceTemplate;
}.

Definition AddTool (t : Tool) (s : MCPServer) : MCPServer :=
  {| srv_Name := srv_Name s; srv_Version := srv_Version s;
     srv_Logging := srv_Logging s;
     srv_Tools := srv_Tools s ++ [t]; srv_Prompts := srv_Prompts s;
     srv_Resources := srv_Resources s;
     srv_ResourceTemplates := srv_ResourceTemplates s |}.

Definition AddPrompt (p : Prompt) (s : MCPServer) : MCPServer :=
  {| srv_Name := srv_Name s; srv_Version := srv_Version s;
     srv_Logging := srv_Logging s;
     srv_Tools := srv_Tools s; srv_Prompts := srv_Prompts s ++ [p];
     srv_Resources := srv_Resources s;
     srv_ResourceTemplates := srv_ResourceTemplates s |}.

Definition AddResource (r : Resource) (s : MCPServer) : MCPServer :=
  {| srv_Name := srv_Name s; srv_Version := srv_Version s;
     srv_Logging := srv_Logging s;
     srv_Tools := srv_Tools s; srv_Prompts := srv_Prompts s;
     srv_Resources := srv_Resources s ++ [r];
     srv_ResourceTemplates := srv_ResourceTemplates s |}.

Definition AddResourceTemplate (r : ResourceTemplate) (s : MCPServer) : MCPServer :=
  {| srv_Name := srv_Name s; srv_Version := srv_Version s;
     srv_Logging := srv_Logging s;
     srv_Tools := srv_Tools s; srv_Prompts := srv_Prompts s;
     srv_Resources := srv_Resources s;
     srv_ResourceTemplates := srv_ResourceTemplates s ++ [r] |}.

(** [server.NewMCPServer(name, version, opts...)]; resource capabilities
    and recovery are always among the options, logging is optional. *)
Definition NewMCPServer (name version : string) (logging : bool) : MCPServer :=
  {| srv_Name := name; srv_Version := version; srv_Logging := logging;
     srv_Tools := []; srv_Prompts := []; srv_Resources := [];
     srv_ResourceTemplates := [] |}.

(** [server.SSEServer]: the options [newMCPServer] gives it. *)
Record SSEServer := {
  sse_StaticBasePath : string;
  sse_BaseURL : string;
}.

(** The world the initialization of one backend acts on: the per-backend
    MCP server, the log, and the clients whose ping task was forked. *)
Record World := {
  mcpServer : MCPServer;
  logs : list LogLine;
  pingTasks : list string;
}.

Definition logW (l : LogLine) (w : World) : World :=
  {| mcpServer := mcpServer w; logs := logs w ++ [l]; pingTasks := pingTasks w |}.

Definition onServer (f : MCPServer → MCPServer) (w : World) : World :=
  {| mcpServer := f (mcpServer w); logs := logs w; pingTasks := pingTasks w |}.

Definition forkPing (name : string) (w : World) : World :=
  {| mcpServer := mcpServer w; logs := logs w;
     pingTasks := pingTasks w ++ [name] |}.

(** The calls [client.go] makes on [*client.Client], over the state [B] of
    the connection and the backend behind it.  A list call is given the
    cursor of its request. *)
Record MCPClient (B : Type) := {
  Start : B → option error * B;
  Initialize : Implementation → B → option error * B;
  ListTools : string → B → result (Page Tool) * B;
  ListPrompts : string → B → result (Page Prompt) * B;
  ListResources : string → B → result (Page Resource) * B;
  ListResourceTemplates : string → B → result (Page ResourceTemplate) * B;
}.
Arguments Start {B} _ _.
Arguments Initialize {B} _ _ _.
Arguments ListTools {B} _ _ _.
Arguments ListPrompts {B} _ _ _.
Arguments ListResources {B} _ _ _.
Arguments ListResourceTemplates {B} _ _ _.

(* ===================================================================== *)
(** * client.go *)
(* ===================================================================== *)

(** [Client]; the [*client.Client] it owns is the [MCPClient] record and
    the backend state threaded through the calls. *)
Record Client := {
  name : string;
  needPing : bool;
  needManualStart : bool;
  options : option Options;
}.

(** A filter function answers for a tool name and may log. *)
Definition FilterFunc := string → World → bool * World.

Section ClientGo.
Context {B : Type}.
(** [strings.ToLower], Unicode-aware in Go. *)
Variable ToLower : string → string.
Variable client : MCPClient B.

(** The first part of [addToolsToServer]: the filter function for the
    client's options, and the log line of an unknown mode. *)
Definition toolFilterFunc (c : Client) (w : World) : FilterFunc * World :=
  let filterFunc : FilterFunc := λ toolName w, (true, w) in
  match options c with
  | Some o =>
      match ToolFilter o with
      | Some tf =>
          if 0 <? length (List tf) then
            let mode := ToLower (Mode tf) in
            let filterSet : gset string := list_to_set (List tf) in
            if bool_decide (mode = ToolFilterModeAllow) then
              ((λ toolName w,
                  let inList := bool_decide (toolName ∈ filterSet) in
                  (inList,
                   if negb inList
                   then logW (LogNotInAllowList (name c) toolName) w
                   else w)), w)
            else if bool_decide (mode = ToolFilterModeBlock) then
              ((λ toolName w,
                  let inList := bool_decide (toolName ∈ filterSet) in
                  (negb inList,
                   if inList
                   then logW (LogInBlockList (name c) toolName) w
                   else w)), w)
            else (filterFunc, logW (LogUnknownMode (name c) mode) w)
          else (filterFunc, w)
      | None => (filterFunc, w)
      end
  | None => (filterFunc, w)
  end.

(** The paging loop the four registrars share: list the page at the
    cursor, return on an error, break on an empty page, log, visit every
    item, break on an empty next cursor, else go on at that cursor.  The
    result is [None] when [fuel] iterations did not end the loop. *)
Fixpoint pagingLoop {A : Type}
    (listCall : string → B → result (Page A) * B)
    (listed : nat → LogLine) (visit : A → World → World)
    (fuel : nat) (cursor : string) (b : B) (w : World)
  : option (option error * B * World) :=
  match fuel with
  | 0 => None
  | S fuel' =>
      match listCall cursor b with
      | (Err err, b') => Some (Some err, b', w)
      | (Ok page, b') =>
          if length (Items page) =? 0 then Some (None, b', w)
          else
            let w := logW (listed (length (Items page))) w in
            let w := foldl (λ w item, visit item w) w (Items page) in
            if bool_decide (NextCursor page = "") then Some (None, b', w)
            else pagingLoop listCall listed visit fuel' (NextCursor page) b' w
      end
  end.

(** The body of [for _, tool := range tools.Tools]. *)
Definition visitTool (c : Client) (filterFunc : FilterFunc) (tool : Tool)
    (w : World) : World :=
  match filterFunc (tool_Name tool) w with
  | (true, w) =>
      onServer (AddTool tool) (logW (LogAdding (name c) "tool" (tool_Name tool)) w)
  | (false, w) => w
  end.

Definition addToolsToServer (fuel : nat) (c : Client) (b : B) (w : World)
  : option (option error * B * World) :=
  let '(filterFunc, w) := toolFilterFunc c w in
  pagingLoop (ListTools client)
    (λ n, LogListed (name c) n "tools") (visitTool c filterFunc)
    fuel "" b w.

Definition addPromptsToServer (fuel : nat) (c : Client) (b : B) (w : World)
  : option (option error * B * World) :=
  pagingLoop (ListPrompts client)
    (λ n, LogListed (name c) n "prompts")
    (λ prompt w,
       onServer (AddPrompt prompt)
         (logW (LogAdding (name c) "prompt" (prompt_Name prompt)) w))
    fuel "" b w.

Definition addResourcesToServer (fuel : nat) (c : Client) (b : B) (w : World)
  : option (option error * B * World) :=
  pagingLoop (ListResources client)
    (λ n, LogListed (name c) n "resources")
    (λ resource w,
       onServer (AddResource resource)
         (logW (LogAdding (name c) "resource" (resource_Name resource)) w))
    fuel "" b w.

Definition addResourceTemplatesToServer (fuel : nat) (c : Client) (b : B)
    (w : World) : option (option error * B * World) :=
  pagingLoop (ListResourceTemplates client)
    (λ n, LogListed (name c) n "resource templates")
    (λ resourceTemplate w,
       onServer (AddResourceTemplate resourceTemplate)
         (logW (LogAdding (name c) "resource template"
                  (template_Name resourceTemplate)) w))
    fuel "" b w.

(** [addToMCPServer]; [fuel] bounds each of the four paging loops. *)
Definition addToMCPServer (fuel : nat) (c : Client)
    (clientInfo : Implementation) (b : B) (w : World)
  : option (option error * B * World) :=
  let '(err, b) := if needManualStart c then Start client b else (None, b) in
  match err with
  | Some err => Some (Some err, b, w)
  | None =>
      match Initialize client clientInfo b with
      | (Some err, b) => Some (Some err, b, w)
      | (None, b) =>
          let w := logW (LogInitialized (name c)) w in
          match addToolsToServer fuel c b w with
          | None => None
          | Some (Some err, b, w) => Some (Some err, b, w)
          | Some (None, b, w) =>
              match addPromptsToServer fuel c b w with
              | None => None
              | Some (_, b, w) =>
                  match addResourcesToServer fuel c b w with
                  | None => None
                  | Some (_, b, w) =>
                      match addResourceTemplatesToServer fuel c b w with
                      | None => None
                      | Some (_, b, w) =>
                          Some (None, b,
                                if needPing c then forkPing (name c) w else w)
                      end
                  end
              end
          end
      end
  end.
End ClientGo.

(** [Server]. *)
Record Server := {
  tokens : option (list string);
  server_mcpServer : MCPServer;
  sseServer : SSEServer;
}.

(** [newMCPServer]; [clientConfig.Options.LogEnabled] is read before
    [clientConfig.Options] is compared with nil. *)
Definition newMCPServer (name version baseURL : string)
    (clientConfig : MCPClientConfig) : outcome Server :=
  match client_Options clientConfig with
  | None => Panics nil_dereference
  | Some o =>
      Returns {|
        tokens := if 0 <? len (AuthTokens o) then AuthTokens o else None;
        server_mcpServer := NewMCPServer name version (OrElse (LogEnabled o) false);
        sseServer := {| sse_StaticBasePath := name; sse_BaseURL := baseURL |} |}
  end.

(* ===================================================================== *)
(** * The HTTP file: the per-backend part of startHTTPServer *)
(* ===================================================================== *)

(** The route of a backend, from [baseURL.Path] and its name. *)
Definition mcpRoute (basePath name : string) : string :=
  let mcpRoute := path_Join [basePath; name] in
  let mcpRoute := if negb (HasPrefix mcpRoute "/")
                  then "/" +:+ mcpRoute else mcpRoute in
  if negb (HasSuffix mcpRoute "/") then mcpRoute +:+ "/" else mcpRoute.

(** The middleware list of a backend's route, in the order of the
    [append] calls. *)
Definition routeMiddlewares (name : string) (o : Options) : list MiddlewareFunc :=
  let middlewares := [recoverMiddleware name] in
  let middlewares := if OrElse (LogEnabled o) false
                     then middlewares ++ [loggerMiddleware name]
                     else middlewares in
  if 0 <? len (AuthTokens o)
  then middlewares ++ [newAuthMiddleware (AuthTokens o)]
  else middlewares.

(** What [httpMux.Handle] is given: a pattern and a handler. *)
Record Mount := {
  mount_Route : string;
  mount_Handler : Handler;
}.

(** The function [startHTTPServer] hands to [errorGroup.Go] for one
    backend, from the return of [addToMCPServer] up to its call of
    [httpMux.Handle]: [addErr] is that return, [sse] the backend's
    [server.sseServer] as a handler.  The result is the error the
    function returns to the error group, what it hands to
    [httpMux.Handle] when it gets that far, and the log. *)
Definition startHTTPServer_backend (basePath name : string)
    (clientConfig : MCPClientConfig) (sse : Handler)
    (addErr : option error) (log : list LogLine)
  : outcome (option error * option Mount * list LogLine) :=
  match addErr with
  | Some e =>
      let log := log ++ [LogFailedToAdd name e] in
      match client_Options clientConfig with
      | None => Panics nil_dereference
      | Some o =>
          if OrElse (PanicIfInvalid o) false
          then Returns (Some e, None, log)
          else Returns (None, None, log)
      end
  | None =>
      let log := log ++ [LogConnected name] in
      match client_Options clientConfig with
      | None => Panics nil_dereference
      | Some o =>
          let middlewares := routeMiddlewares name o in
          Returns (None,
                   Some {| mount_Route := mcpRoute basePath name;
                           mount_Handler := chainMiddleware sse middlewares |},
                   log)
      end
  end.

(** [http.ServeMux]: the patterns registered so far with their handlers,
    in the order of the [Handle] calls. *)
Definition ServeMux := list Mount.

(** [ServeMux.Handle] registers the handler for the pattern, and panics
    when it does not take the pattern: one it cannot parse, or one that
    conflicts with a pattern registered before.  Which patterns these are
    is the matter of [net/http]: [refuses] is given the patterns
    registered so far and the new one, and answers with the value of the
    panic, or with nothing when the pattern is taken. *)
Definition ServeMux_Handle (refuses : list string → string → option string)
    (mux : ServeMux) (pattern : string) (handler : Handler) : outcome ServeMux :=
  match refuses (mount_Route <$> mux) pattern with
  | Some v => Panics v
  | None =>
      Returns (mux ++ [{| mount_Route := pattern; mount_Handler := handler |}])
  end.

(** The function with its call of [httpMux.Handle], on the mux as the
    calls before left it: a panic of [Handle] is a panic of the function,
    which nothing recovers. *)
Definition startHTTPServer_mount (refuses : list string → string → option string)
    (basePath name : string) (clientConfig : MCPClientConfig) (sse : Handler)
    (addErr : option error) (mux : ServeMux) (log : list LogLine)
  : outcome (option error * ServeMux * list LogLine) :=
  match startHTTPServer_backend basePath name clientConfig sse addErr log with
  | Panics v => Panics v
  | Returns (err, None, log) => Returns (err, mux, log)
  | Returns (err, Some mount, log) =>
      match ServeMux_Handle refuses mux (mount_Route mount) (mount_Handler mount) with
      | Panics v => Panics v
      | Returns mux => Returns (err, mux, log)
      end
  end.

(* ===================================================================== *)
(** * Backends for running the model *)
(* ===================================================================== *)

(** A backend that answers the page requests of one family from a script,
    one response for each request in order, and records the cursors it is
    asked for.  A script that ran out answers with an error. *)
Record Script (A : Type) := {
  pending : list (result (Page A));
  requested : list string;
}.
Arguments pending {A} s.
Arguments requested {A} s.

(** A list call of the MCP library ([Client.ListTools] and the calls of
    the other three families) against such a backend.  The call follows
    the cursors itself: it requests the page at the cursor it is given
    and then, as long as the page it got last has a next cursor, the page
    at that cursor, whether that page has items or not.  It returns the
    items of all these pages, in order, with the next cursor of the last
    one, which is empty.  An error of one of its requests is the result
    of the call, and what the pages before held is dropped.  [items] are
    the items of the pages requested so far. *)
Fixpoint followCursors {A} (pending : list (result (Page A))) (cursor : string)
    (requested : list string) (items : list A) : result (Page A) * Script A :=
  match pending with
  | Ok page :: rest =>
      if bool_decide (NextCursor page = "") then
        (Ok {| Items := items ++ Items page; NextCursor := "" |},
         {| pending := rest; requested := requested ++ [cursor] |})
      else
        followCursors rest (NextCursor page) (requested ++ [cursor])
          (items ++ Items page)
  | Err e :: rest =>
      (Err e, {| pending := rest; requested := requested ++ [cursor] |})
  | [] =>
      (Err (errors_New "EOF"),
       {| pending := []; requested := requested ++ [cursor] |})
  end.

Definition scriptedList {A} (cursor : string) (s : Script A)
  : result (Page A) * Script A :=
  followCursors (pending s) cursor (requested s) [].

Record Backend := {
  startError : option error;
  initError : option error;
  toolPages : Script Tool;
  promptPages : Script Prompt;
  resourcePages : Script Resource;
  templatePages : Script ResourceTemplate;
}.

Definition setToolPages (s : Script Tool) (b : Backend) : Backend :=
  {| startError := startError b; initError := initError b;
     toolPages := s; promptPages := promptPages b;
     resourcePages := resourcePages b; templatePages := templatePages b |}.
Definition setPromptPages (s : Script Prompt) (b : Backend) : Backend :=
  {| startError := startError b; initError := initError b;
     toolPages := toolPages b; promptPages := s;
     resourcePages := resourcePages b; templatePages := templatePages b |}.
Definition setResourcePages (s : Script Resource) (b : Backend) : Backend :=
  {| startError := startError b; initError := initError b;
     toolPages := toolPages b; promptPages := promptPages b;
     resourcePages := s; templatePages := templatePages b |}.
Definition setTemplatePages (s : Script ResourceTemplate) (b : Backend) : Backend :=
  {| startError := startError b; initError := initError b;
     toolPages := toolPages b; promptPages := promptPages b;
     resourcePages := resourcePages b; templatePages := s |}.

(** The library's client against a scripted backend: the start and
    [Initialize] answer with the errors of the backend, and each list
    call follows the cursors over the script of its family. *)
Definition scriptedClient : MCPClient Backend := {|
  Start := λ b, (startError b, b);
  Initialize := λ _ b, (initError b, b);
  ListTools := λ cursor b,
    let '(r, s) := scriptedList cursor (toolPages b) in (r, setToolPages s b);
  ListPrompts := λ cursor b,
    let '(r, s) := scriptedList cursor (promptPages b) in (r, setPromptPages s b);
  ListResources := λ cursor b,
    let '(r, s) := scriptedList cursor (resourcePages b) in (r, setResourcePages s b);
  ListResourceTemplates := λ cursor b,
    let '(r, s) := scriptedList cursor (templatePages b) in (r, setTemplatePages s b);
|}.

(** [strings.ToLower] on ASCII letters; a byte outside [A-Z] is kept. *)
Definition lowerByte (c : ascii) : ascii :=
  let n := nat_of_ascii c in
  if (65 <=? n) && (n <=? 90) then ascii_of_nat (n + 32) else c.
Fixpoint asciiToLower (s : string) : string :=
  match s with
  | EmptyString => EmptyString
  | String c s' => String (lowerByte c) (asciiToLower s')
  end.

(* ===================================================================== *)
(** * Notions the statements use *)
(* ===================================================================== *)

(** The items of the pages a paging loop lists before it stops: what the
    backend advertised to the proxy. *)
Fixpoint listedItems {A B : Type}
    (listCall : string → B → result (Page A) * B)
    (fuel : nat) (cursor : string) (b : B) : list A :=
  match fuel with
  | 0 => []
  | S fuel' =>
      match listCall cursor b with
      | (Err _, _) => []
      | (Ok page, b') =>
          if length (Items page) =? 0 then []
          else if bool_decide (NextCursor page = "") then Items page
          else Items page ++ listedItems listCall fuel' (NextCursor page) b'
      end
  end.

(** A page after which a paging loop goes on. *)
Definition continues {A} (p : Page A) : Prop :=
  Items p ≠ [] ∧ NextCursor p ≠ "".

(** The cursors of the page requests that start at [cursor] and are
    answered with the pages [pages], one more request than pages. *)
Definition cursorChain {A} (cursor : string) (pages : list (Page A)) : list string :=
  cursor :: (NextCursor <$> pages).

(** The number of unknown-mode lines in a log. *)
Definition isUnknownMode (line : LogLine) : bool :=
  match line with
  | LogUnknownMode _ _ => true
  | _ => false
  end.
Definition unknownModeLines (l : list LogLine) : nat :=
  length (filter (λ line, Is_true (isUnknownMode line)) l).

(** The elements of a path that are not empty. *)
Definition elements (p : string) : list string :=
  filter (λ e, e ≠ "") (splitSlash p).

(** A path without "." and ".." elements. *)
Definition plainPath (p : string) : bool :=
  forallb (λ e, negb (bool_decide (e = ".")) && negb (bool_decide (e = "..")))
    (splitSlash p).

(** Each element followed by a "/". *)
Definition slashed (elem : list string) : string :=
  foldr (λ e s, e +:+ "/" +:+ s) "" elem.

(** The options the proxy carries once [load] has set its default. *)
Definition proxyLevel (proxy : MCPProxyConfig) : Options :=
  match proxy_Options proxy with
  | None => emptyOptions
  | Some o => o
  end.

(** The options a backend config was written with: none is as good as
    empty ones. *)
Definition ownOptions (clientConfig : MCPClientConfig) : Options :=
  match client_Options clientConfig with
  | None => emptyOptions
  | Some o => o
  end.

(** A filter function that answers [P] on every tool name and leaves the
    server and the count of unknown-mode lines as they are. *)
Definition filterDecides (f : FilterFunc) (P : string → bool) : Prop :=
  ∀ toolName w,
    (f toolName w).1 = P toolName ∧
    mcpServer (f toolName w).2 = mcpServer w ∧
    unknownModeLines (logs (f toolName w).2) = unknownModeLines (logs w).

(** The answers of a list call end a paging loop within [n] calls: of the
    first [n] answers, the first one to the request for [cursor] in the
    state [b] and each later one to the request for the cursor the answer
    before returned, one is an error, a page without items or a page
    without next cursor. *)
Fixpoint listingEndsWithin {A B : Type}
    (listCall : string → B → result (Page A) * B)
    (n : nat) (cursor : string) (b : B) : bool :=
  match n with
  | 0 => false
  | S n' =>
      match listCall cursor b with
      | (Err _, _) => true
      | (Ok page, b') =>
          (length (Items page) =? 0) || bool_decide (NextCursor page = "")
          || listingEndsWithin listCall n' (NextCursor page) b'
      end
  end.

(** The paging of one family against a scripted backend ends at the first
    page without next cursor, and not at a page that has one, with or
    without items: when the script of the family holds the pages
    [before], each with a next cursor, then a page [final] without one,
    then [rest], the registrar returns without error within one iteration
    of its loop, the pages up to [final] were taken from the script, the
    requests were for the empty cursor and then for the next cursor of
    each page of [before], and the items listed are those of all these
    pages. *)
Definition endsAtFirstPageWithoutCursor {A : Type}
    (loop : nat → Backend → World → option (option error * Backend * World))
    (listCall : string → Backend → result (Page A) * Backend)
    (pages : Backend → Script A)
    (setPages : Script A → Backend → Backend) : Prop :=
  ∀ (before : list (Page A)) (final : Page A) (rest : list (result (Page A)))
    (reqs : list string) (fuel : nat) (b : Backend) (w : World),
    Forall (λ page, NextCursor page ≠ "") before →
    NextCursor final = "" →
    pages b = {| pending := (Ok <$> before) ++ Ok final :: rest;
                 requested := reqs |} →
    0 < fuel →
    (∃ w', loop fuel b w =
             Some (None,
                   setPages {| pending := rest;
                               requested := reqs ++ cursorChain "" before |} b,
                   w')) ∧
    listedItems listCall fuel "" b = concat (Items <$> before) ++ Items final.

(* ===================================================================== *)
(** * Inputs for running the model *)
(* ===================================================================== *)

(** A server handler that answers 200. *)
Definition okHandler : Handler :=
  λ r x, (Normal, {| written := written x ++ [(200, "ok")]; logged := logged x |}).

(** A backend with logging on and one token, and requests to it: one
    without an [Authorization] header, one whose header is the token
    without a scheme, one with the bearer token. *)
Definition fetchOptions : Options :=
  {| PanicIfInvalid := None; LogEnabled := Some true;
     AuthTokens := Some ["SECRET"]; ToolFilter := None |}.

Definition plainRequest : Request :=
  {| Method := "GET"; URL_Path := "/fetch/"; Header := ∅ |}.

Definition bareTokenRequest : Request :=
  {| Method := "GET"; URL_Path := "/fetch/";
     Header := {[ "Authorization" := ["SECRET"] ]} |}.

Definition bearerRequest : Request :=
  {| Method := "GET"; URL_Path := "/fetch/";
     Header := {[ "Authorization" := ["Bearer SECRET"] ]} |}.

Definition noExchange : Exchange := {| written := []; logged := [] |}.

(** A configuration in the shape of [config.json.example]: proxy-level
    options with logging on and one token; a backend without options, a
    backend with options of its own, a backend whose token list is present
    and empty. *)
Definition exampleProxyOptions : Options :=
  {| PanicIfInvalid := Some false; LogEnabled := Some true;
     AuthTokens := Some ["DefaultTokens"]; ToolFilter := None |}.

Definition stdioBackend (command : string) (args : list string)
    (o : option Options) : MCPClientConfig :=
  {| TransportType := ""; Command := command; Args := args; Env := ∅;
     URL := ""; Headers := ∅; Timeout := 0; client_Options := o |}.

Definition urlBackend (transportType : MCPClientType) (url : string)
    (o : option Options) : MCPClientConfig :=
  {| TransportType := transportType; Command := ""; Args := []; Env := ∅;
     URL := url; Headers := ∅; Timeout := 0; client_Options := o |}.

Definition githubConfig : MCPClientConfig :=
  stdioBackend "npx" ["-y"; "@modelcontextprotocol/server-github"] None.

Definition fetchConfig : MCPClientConfig :=
  stdioBackend "uvx" ["mcp-server-fetch"]
    (Some {| PanicIfInvalid := Some true; LogEnabled := Some false;
             AuthTokens := Some ["SpecificTokens"]; ToolFilter := None |}).

Definition amapConfig : MCPClientConfig :=
  urlBackend "" "https://mcp.amap.com/sse"
    (Some {| PanicIfInvalid := None; LogEnabled := None;
             AuthTokens := Some []; ToolFilter := None |}).

Definition exampleConfig : Config :=
  {| McpProxy := Some {| BaseURL := "https://mcp.example.com"; Addr := ":9090";
                         Name := "MCP Proxy"; Version := "1.0.0";
                         proxy_Options := Some exampleProxyOptions |};
     McpServers := {[ "github" := Some githubConfig;
                      "fetch" := Some fetchConfig;
                      "amap" := Some amapConfig ]} |}.

(** A backend that advertises the tools [a] and [b] on a first page with
    next cursor "p2" and [c] on a second page without next cursor, and has
    a third page it is never asked for; its prompt listing fails, its
    resource listing has an empty page with a cursor and nothing behind
    it, its resource template listing one template. *)
Definition toolA : Tool := {| tool_Name := "a"; tool_Rest := "" |}.
Definition toolB : Tool := {| tool_Name := "b"; tool_Rest := "" |}.
Definition toolC : Tool := {| tool_Name := "c"; tool_Rest := "" |}.
Definition toolD : Tool := {| tool_Name := "d"; tool_Rest := "" |}.

Definition toolPage1 : Page Tool := {| Items := [toolA; toolB]; NextCursor := "p2" |}.
Definition toolPage2 : Page Tool := {| Items := [toolC]; NextCursor := "" |}.
Definition toolPage3 : Page Tool := {| Items := [toolD]; NextCursor := "" |}.

Definition emptyResourcePage : Page Resource :=
  {| Items := []; NextCursor := "more" |}.

Definition templatePage : Page ResourceTemplate :=
  {| Items := [{| template_Name := "file"; template_Rest := "" |}];
     NextCursor := "" |}.

Definition exampleBackend : Backend :=
  {| startError := None; initError := None;
     toolPages := {| pending := [Ok toolPage1; Ok toolPage2; Ok toolPage3];
                     requested := [] |};
     promptPages := {| pending := [Err (errors_New "Method not found")];
                       requested := [] |};
     resourcePages := {| pending := [Ok emptyResourcePage]; requested := [] |};
     templatePages := {| pending := [Ok templatePage]; requested := [] |} |}.

Definition filterOptions (mode : ToolFilterMode) (list : list string) : Options :=
  {| PanicIfInvalid := None; LogEnabled := None; AuthTokens := None;
     ToolFilter := Some {| Mode := mode; List := list |} |}.

(** An SSE client named "github" with a tool filter. *)
Definition filteringClient (mode : ToolFilterMode) (list : list string) : Client :=
  {| name := "github"; needPing := true; needManualStart := true;
     options := Some (filterOptions mode list) |}.

Definition freshWorld : World :=
  {| mcpServer := NewMCPServer "github" "1.0.0" false;
     logs := []; pingTasks := [] |}.

Definition proxyInfo : Implementation :=
  {| impl_Name := "MCP Proxy"; impl_Version := "1.0.0" |}.

(** A request with another scheme, whose whole header is a configured
    token. *)
Definition basicRequest : Request :=
  {| Method := "GET"; URL_Path := "/fetch/";
     Header := {[ "Authorization" := ["Basic dXNlcjpwYXNz"] ]} |}.

(* ===================================================================== *)
(** * client.go: newMCPClient *)
(* ===================================================================== *)

(** The three constructors of the MCP client library, over the state [B]
    of the connection they open.  A constructor is given the options the
    code appends: the headers when there are any, the timeout when it is
    positive. *)
Record ClientLibrary (B : Type) := {
  NewStdioMCPClient : string → list string → list string → result B;
  NewSSEMCPClient : string → option (gmap string string) → result B;
  NewStreamableHttpClient :
    string → option (gmap string string) → option Z → result B;
}.
Arguments NewStdioMCPClient {B} _ _ _ _.
Arguments NewSSEMCPClient {B} _ _ _.
Arguments NewStreamableHttpClient {B} _ _ _ _.

(** The [envs] slice: one "key=value" string for each entry of the
    environment map.  Go leaves the order of a [range] over a map open;
    here it is the order of [map_to_list]. *)
Definition envStrings (env : gmap string string) : list string :=
  (λ kv, kv.1 +:+ "=" +:+ kv.2) <$> map_to_list env.

(** [newMCPClient]: the client and the connection it owns, or the error
    of the config or of the library constructor. *)
Definition newMCPClient {B : Type} (lib : ClientLibrary B) (name : string)
    (conf : MCPClientConfig) : result (Client * B) :=
  match parseMCPClientConfig conf with
  | Err pErr => Err pErr
  | Ok (IsStdio v) =>
      match NewStdioMCPClient lib (stdio_Command v) (envStrings (stdio_Env v))
              (stdio_Args v) with
      | Err err => Err err
      | Ok mcpClient =>
          Ok ({| name := name; needPing := false; needManualStart := false;
                 options := client_Options conf |}, mcpClient)
      end
  | Ok (IsSSE v) =>
      let headers := if 0 <? size (sse_Headers v)
                     then Some (sse_Headers v) else None in
      match NewSSEMCPClient lib (sse_URL v) headers with
      | Err err => Err err
      | Ok mcpClient =>
          Ok ({| name := name; needPing := true; needManualStart := true;
                 options := client_Options conf |}, mcpClient)
      end
  | Ok (IsStreamable v) =>
      let headers := if 0 <? size (streamable_Headers v)
                     then Some (streamable_Headers v) else None in
      let timeout := if (0 <? streamable_Timeout v)%Z
                     then Some (streamable_Timeout v) else None in
      match NewStreamableHttpClient lib (streamable_URL v) headers timeout with
      | Err err => Err err
      | Ok mcpClient =>
          Ok ({| name := name; needPing := true; needManualStart := true;
                 options := client_Options conf |}, mcpClient)
      end
  end.

(** A library whose constructors always succeed with a given state. *)
Definition readyLibrary {B : Type} (b : B) : ClientLibrary B :=
  {| NewStdioMCPClient := λ _ _ _, Ok b;
     NewSSEMCPClient := λ _ _, Ok b;
     NewStreamableHttpClient := λ _ _ _, Ok b |}.


(** A client without options. *)
Definition plainClient (name : string) (remote : bool) : Client :=
  {| name := name; needPing := remote; needManualStart := remote;
     options := None |}.

(** Whether a string holds a "/". *)
Fixpoint hasSlash (s : string) : bool :=
  match s with
  | EmptyString => false
  | String c s' => if decide (c = "/"%char) then true else hasSlash s'
  end.

(** A backend name that is one path element: not empty, without "/", and
    neither "." nor "..". *)
Definition simpleName (name : string) : Prop :=
  name ≠ "" ∧ hasSlash name = false ∧ name ≠ "." ∧ name ≠ "..".

(* ===================================================================== *)
(** * The adapter: JSON values *)
(* ===================================================================== *)

(** [strings.TrimSuffix]. *)
Definition TrimSuffix (s suffix : string) : string :=
  String.rev (TrimPrefix (String.rev s) (String.rev suffix)).

(** What [encoding/json] decodes into an [interface{}]: nil, a bool, a
    float64 (its 64 bits; the code does not look into numbers), a string,
    a slice, a map. *)
#[warnings="-register-all"]
Inductive JValue :=
  | JNull
  | JBool (b : bool)
  | JNumber (bits : Z)
  | JString (s : string)
  | JArray (l : list JValue)
  | JObject (m : gmap string JValue).

(** The size of a value, the measure of the inductions over values. *)
Fixpoint JValue_size (v : JValue) : nat :=
  match v with
  | JArray l => S (foldr (λ v n, JValue_size v + n) 0 l)
  | JObject m => S (map_fold (λ _ v n, JValue_size v + n) 0 m)
  | _ => 1
  end.

(** [v == nil] for an [interface{}]. *)
Definition isNil (v : JValue) : bool :=
  match v with
  | JNull => true
  | _ => false
  end.

(** [fmt.Errorf(prefix + "%w", err)]: the message of the error after the
    prefix. *)
Definition Errorf_w (prefix : string) (err : error) : error :=
  match err with
  | errors_New msg => errors_New (prefix +:+ msg)
  end.

(* ===================================================================== *)
(** * The adapter: adapter/config.go, adapter/adapter.go, adapter/handler.go *)
(* ===================================================================== *)

Module Adapter.

Definition ToolFilterMode := string.
Definition ToolFilterModeAllow : ToolFilterMode := "allow".
Definition ToolFilterModeBlock : ToolFilterMode := "block".

Record ToolFilterConfig := {
  Mode : ToolFilterMode;
  filter_Tools : option (list string);
}.

(** [Options] of the adapter: the two flags are plain bools. *)
Record Options := {
  PanicIfInvalid : bool;
  LogEnabled : bool;
  AuthTokens : option (list string);
  ToolFilter : option ToolFilterConfig;
}.

Record AdapterProxyConfig := {
  BaseURL : string;
  Addr : string;
  Name : string;
  Version : string;
  proxy_Options : option Options;
}.

Record AuthConfig := {
  auth_Type : string;
  auth_Config : gmap string string;
}.

Record TargetAPIConfig := {
  target_BaseURL : string;
  target_Headers : gmap string string;
  Auth : AuthConfig;
  Timeout : Z;
}.

(** [Default] is an [interface{}]: [JNull] is nil. *)
Record ParameterMapping := {
  Source : string;
  Target : string;
  param_In : string;
  Default : JValue;
  Required : bool;
}.

Record HTTPMapping := {
  Method : string;
  Path : string;
  ParameterMappings : list ParameterMapping;
  BodyTemplate : option string;
}.

Record ToolConfig := {
  tool_Name : string;
  tool_Description : string;
  InputSchema : gmap string JValue;
  tool_HTTPMapping : HTTPMapping;
  ErrorMapping : gmap Z string;
}.

Record PromptConfig := {
  prompt_Name : string;
  prompt_Description : string;
  prompt_Content : string;
}.

Record ResourceConfig := {
  resource_Name : string;
  resource_Description : string;
  ContentType : string;
  resource_Content : string;
}.

Record AdapterServerConfig := {
  TargetAPI : TargetAPIConfig;
  Tools : list ToolConfig;
  Prompts : list PromptConfig;
  Resources : list ResourceConfig;
  server_Options : option Options;
}.

(** [AdapterProxy] and the values of [AdapterServers] are pointers. *)
Record NewConfig := {
  AdapterProxy : option AdapterProxyConfig;
  AdapterServers : gmap string (option AdapterServerConfig);
}.

(** What [LoadNewConfig] gets from the file: [os.ReadFile] failed,
    [json.Unmarshal] of the expanded data failed, or a config. *)
Inductive ConfigFile :=
  | ReadFails (err : error)
  | UnmarshalFails (err : error)
  | Unmarshals (config : NewConfig).

(** [make] and [copy] of a token list: a slice that is not nil. *)
Definition copyStrings (s : option (list string)) : option (list string) :=
  Some (elems s).

Definition copyToolFilter (tf : ToolFilterConfig) : ToolFilterConfig :=
  {| Mode := Mode tf; filter_Tools := copyStrings (filter_Tools tf) |}.

(** The options [LoadNewConfig] gives a proxy that has none. *)
Definition defaultOptions : Options :=
  {| PanicIfInvalid := false; LogEnabled := true; AuthTokens := Some [];
     ToolFilter := Some {| Mode := "block"; filter_Tools := Some [] |} |}.

Definition setServerOptions (c : AdapterServerConfig) (o : Options)
  : AdapterServerConfig :=
  {| TargetAPI := TargetAPI c; Tools := Tools c; Prompts := Prompts c;
     Resources := Resources c; server_Options := Some o |}.

(** The body of the loop of [LoadNewConfig] over the servers, on one
    server that is not nil. *)
Definition inheritOptions (proxyOptions : Options)
    (serverConfig : AdapterServerConfig) : AdapterServerConfig :=
  match server_Options serverConfig with
  | None =>
      setServerOptions serverConfig
        {| PanicIfInvalid := PanicIfInvalid proxyOptions;
           LogEnabled := LogEnabled proxyOptions;
           AuthTokens := copyStrings (AuthTokens proxyOptions);
           ToolFilter := copyToolFilter <$> ToolFilter proxyOptions |}
  | Some o =>
      let o1 :=
        if (len (AuthTokens o) =? 0) && (0 <? len (AuthTokens proxyOptions))
        then {| PanicIfInvalid := PanicIfInvalid o; LogEnabled := LogEnabled o;
                AuthTokens := copyStrings (AuthTokens proxyOptions);
                ToolFilter := ToolFilter o |}
        else o in
      let o2 :=
        match ToolFilter o1, ToolFilter proxyOptions with
        | None, Some tf =>
            {| PanicIfInvalid := PanicIfInvalid o1; LogEnabled := LogEnabled o1;
               AuthTokens := AuthTokens o1;
               ToolFilter := Some (copyToolFilter tf) |}
        | _, _ => o1
        end in
      setServerOptions serverConfig o2
  end.

Definition setProxyOptions (p : AdapterProxyConfig) (o : Options)
  : AdapterProxyConfig :=
  {| BaseURL := BaseURL p; Addr := Addr p; Name := Name p;
     Version := Version p; proxy_Options := Some o |}.

(** [LoadNewConfig], from what the file gave on.  Reading the options of
    a nil server panics. *)
Definition LoadNewConfig (file : ConfigFile) : outcome (result NewConfig) :=
  match file with
  | ReadFails err => Returns (Err (Errorf_w "failed to read config file: " err))
  | UnmarshalFails err =>
      Returns (Err (Errorf_w "failed to unmarshal config: " err))
  | Unmarshals config =>
      match AdapterProxy config with
      | None => Returns (Err (errors_New "adapter_proxy is required"))
      | Some proxy =>
          if bool_decide (BaseURL proxy = "") then
            Returns (Err (errors_New "adapter_proxy.base_url is required"))
          else if bool_decide (Addr proxy = "") then
            Returns (Err (errors_New "adapter_proxy.addr is required"))
          else
            let proxyOptions := match proxy_Options proxy with
                                | None => defaultOptions
                                | Some o => o
                                end in
            if bool_decide (map_Forall (λ (_ : string)
                                          (c : option AdapterServerConfig),
                                        is_Some c) (AdapterServers config))
            then Returns (Ok {|
                   AdapterProxy := Some (setProxyOptions proxy proxyOptions);
                   AdapterServers :=
                     (λ c : option AdapterServerConfig,
                        inheritOptions proxyOptions <$> c)
                       <$> AdapterServers config |})
            else Panics nil_dereference
      end
  end.

(** [AdapterInstance]; of its [http.Client], the timeout. *)
Record AdapterInstance := {
  inst_Name : string;
  inst_Timeout : Z;
  inst_TargetAPI : TargetAPIConfig;
  inst_Tools : list ToolConfig;
  inst_Prompts : list PromptConfig;
  inst_Resources : list ResourceConfig;
  inst_Options : option Options;
}.

Definition NewAdapterFromServerConfig (name : string)
    (serverConfig : AdapterServerConfig) : AdapterInstance :=
  {| inst_Name := name;
     inst_Timeout := Timeout (TargetAPI serverConfig);
     inst_TargetAPI := TargetAPI serverConfig;
     inst_Tools := Tools serverConfig;
     inst_Prompts := Prompts serverConfig;
     inst_Resources := Resources serverConfig;
     inst_Options := server_Options serverConfig |}.

Record MultiAdapter := {
  config : NewConfig;
  adapters : gmap string AdapterInstance;
}.

(** [NewMultiAdapter]: [NewAdapterFromServerConfig] returns no error, so
    every server of the loaded config gets its adapter. *)
Definition NewMultiAdapter (file : ConfigFile) : outcome (result MultiAdapter) :=
  match LoadNewConfig file with
  | Panics v => Panics v
  | Returns (Err err) => Returns (Err (Errorf_w "failed to load config: " err))
  | Returns (Ok config) =>
      if bool_decide (map_Forall (λ (_ : string)
                                    (c : option AdapterServerConfig),
                                  is_Some c) (AdapterServers config))
      then Returns (Ok {|
             config := config;
             adapters :=
               map_imap (λ name (c : option AdapterServerConfig),
                           NewAdapterFromServerConfig name <$> c)
                 (AdapterServers config) |})
      else Panics nil_dereference
  end.

(** One [switch] of [shouldFilterTool] on the mode of a filter: the
    answer of a mode it knows, or none. *)
Definition filterSwitch (tf : ToolFilterConfig) (toolName : string)
  : option bool :=
  let inTools := bool_decide (toolName ∈ elems (filter_Tools tf)) in
  if bool_decide (Mode tf = "allow") then Some (negb inTools)
  else if bool_decide (Mode tf = "deny") then Some inTools
  else if bool_decide (Mode tf = "block") then Some inTools
  else None.

(** The second half of [shouldFilterTool]: the filter of the proxy. *)
Definition globalFilter (config : NewConfig) (toolName : string) : bool :=
  match AdapterProxy config with
  | Some proxy =>
      match proxy_Options proxy with
      | Some o =>
          match ToolFilter o with
          | Some tf =>
              match filterSwitch tf toolName with
              | Some answer => answer
              | None => false
              end
          | None => false
          end
      | None => false
      end
  | None => false
  end.

Definition shouldFilterTool (ma : MultiAdapter) (adapterName toolName : string)
  : outcome bool :=
  match AdapterServers (config ma) !! adapterName with
  | None => Returns false
  | Some None => Panics nil_dereference
  | Some (Some adapterConfig) =>
      let fromServer :=
        match server_Options adapterConfig with
        | Some o =>
            match ToolFilter o with
            | Some tf => filterSwitch tf toolName
            | None => None
            end
        | None => None
        end in
      match fromServer with
      | Some answer => Returns answer
      | None => Returns (globalFilter (config ma) toolName)
      end
  end.

(** ** adapter.go: the registration *)

(** The log lines of the registration. *)
Inductive LogLine :=
  | LogRegisteringTool (adapter tool : string)
      (* "Registering tool from adapter %s: %s" *)
  | LogRegisteringPrompt (adapter prompt : string)
      (* "Registering prompt from adapter %s: %s" *)
  | LogRegisteringResource (adapter resource : string).
      (* "Registering resource from adapter %s: %s" *)

Section Registration.
(** [mcp.ToolInputSchema], and the round trip through [json.Marshal] and
    [json.Unmarshal] that turns the schema of a tool config into one: a
    failure of the first, a failure of the second, or the schema. *)
Variable Schema : Type.

Inductive SchemaResult :=
  | MarshalFails (err : error)
  | UnmarshalSchemaFails (err : error)
  | Converted (inputSchema : Schema).

Variable convertSchema : gmap string JValue → SchemaResult.

(** The [mcp.Tool], [mcp.Prompt] and [mcp.Resource] values the adapter
    registers. *)
Record McpTool := {
  mcp_Name : string;
  mcp_Description : string;
  mcp_InputSchema : Schema;
}.

(** The MCP server as the registration sees it: in call order, what
    [AddTool], [AddPrompt] and [AddResource] were given (name and
    description for the last two), and the log. *)
Record Registry := {
  reg_Tools : list McpTool;
  reg_Prompts : list (string * string);
  reg_Resources : list (string * string);
  reg_Log : list LogLine;
}.

Definition registerTool (adapter : string) (tool : McpTool) (w : Registry)
  : Registry :=
  {| reg_Tools := reg_Tools w ++ [tool]; reg_Prompts := reg_Prompts w;
     reg_Resources := reg_Resources w;
     reg_Log := reg_Log w ++ [LogRegisteringTool adapter (mcp_Name tool)] |}.

Definition registerPrompt (adapter : string) (p : PromptConfig) (w : Registry)
  : Registry :=
  {| reg_Tools := reg_Tools w;
     reg_Prompts := reg_Prompts w ++ [(prompt_Name p, prompt_Description p)];
     reg_Resources := reg_Resources w;
     reg_Log := reg_Log w ++ [LogRegisteringPrompt adapter (prompt_Name p)] |}.

Definition registerResource (adapter : string) (r : ResourceConfig) (w : Registry)
  : Registry :=
  {| reg_Tools := reg_Tools w; reg_Prompts := reg_Prompts w;
     reg_Resources :=
       reg_Resources w ++ [(resource_Name r, resource_Description r)];
     reg_Log := reg_Log w ++ [LogRegisteringResource adapter (resource_Name r)] |}.

(** [shouldFilterFunc != nil && shouldFilterFunc(name)]. *)
Definition isFiltered (shouldFilterFunc : option (string → bool))
    (toolName : string) : bool :=
  match shouldFilterFunc with
  | Some f => f toolName
  | None => false
  end.

(** The loop over [ai.Tools]: a filtered tool is skipped, a tool whose
    schema does not convert ends the registration with an error. *)
Fixpoint addTools (adapter : string) (shouldFilterFunc : option (string → bool))
    (tools : list ToolConfig) (w : Registry) : option error * Registry :=
  match tools with
  | [] => (None, w)
  | toolConfig :: rest =>
      if isFiltered shouldFilterFunc (tool_Name toolConfig)
      then addTools adapter shouldFilterFunc rest w
      else
        match convertSchema (InputSchema toolConfig) with
        | MarshalFails err =>
            (Some (Errorf_w ("failed to marshal input schema for tool "
                             +:+ tool_Name toolConfig +:+ ": ") err), w)
        | UnmarshalSchemaFails err =>
            (Some (Errorf_w ("failed to unmarshal input schema for tool "
                             +:+ tool_Name toolConfig +:+ ": ") err), w)
        | Converted inputSchema =>
            addTools adapter shouldFilterFunc rest
              (registerTool adapter
                 {| mcp_Name := tool_Name toolConfig;
                    mcp_Description := tool_Description toolConfig;
                    mcp_InputSchema := inputSchema |} w)
        end
  end.

Definition AddToMCPServerWithFilter (ai : AdapterInstance)
    (shouldFilterFunc : option (string → bool)) (w : Registry)
  : option error * Registry :=
  match addTools (inst_Name ai) shouldFilterFunc (inst_Tools ai) w with
  | (Some err, w) => (Some err, w)
  | (None, w) =>
      let w := foldl (λ w p, registerPrompt (inst_Name ai) p w) w
                 (inst_Prompts ai) in
      let w := foldl (λ w r, registerResource (inst_Name ai) r w) w
                 (inst_Resources ai) in
      (None, w)
  end.

(** [AdapterInstance.AddToMCPServer], the call of the adapter's HTTP
    server: no filter function. *)
Definition AddToMCPServer (ai : AdapterInstance) (w : Registry)
  : option error * Registry :=
  AddToMCPServerWithFilter ai None w.

End Registration.
Arguments MarshalFails {Schema} err.
Arguments UnmarshalSchemaFails {Schema} err.
Arguments Converted {Schema} inputSchema.
Arguments mcp_Name {Schema} _.
Arguments mcp_Description {Schema} _.
Arguments mcp_InputSchema {Schema} _.
Arguments reg_Tools {Schema} _.
Arguments reg_Prompts {Schema} _.
Arguments reg_Resources {Schema} _.
Arguments reg_Log {Schema} _.

(** ** adapter/handler.go *)

Record ToolHandler := {
  handler_ToolConfig : ToolConfig;
  handler_TargetAPIConfig : TargetAPIConfig;
}.

(** The loop of [validateParams] over the parameter mappings. *)
Fixpoint validateMappings (mappings : list ParameterMapping)
    (params : gmap string JValue) : option error :=
  match mappings with
  | [] => None
  | p :: rest =>
      if Required p
         && negb (bool_decide (is_Some (params !! Source p)))
         && isNil (Default p)
      then Some (errors_New ("required parameter '" +:+ Source p
                             +:+ "' is missing"))
      else validateMappings rest params
  end.

Definition validateParams (h : ToolHandler) (params : gmap string JValue)
  : option error :=
  validateMappings
    (ParameterMappings (tool_HTTPMapping (handler_ToolConfig h))) params.

(** [substitute]: a string of the form "{{.key}}" whose key is a
    parameter becomes the value of the parameter; maps and slices are
    rebuilt with their values substituted; everything else is kept. *)
Fixpoint substitute (template : JValue) (params : gmap string JValue) : JValue :=
  match template with
  | JString t =>
      if HasPrefix t "{{." && HasSuffix t "}}" then
        let key := TrimSuffix (TrimPrefix t "{{.") "}}" in
        match params !! key with
        | Some val => val
        | None => JString t
        end
      else JString t
  | JObject t => JObject ((λ v, substitute v params) <$> t)
  | JArray t => JArray ((λ v, substitute v params) <$> t)
  | t => t
  end.

End Adapter.

(** The tools of a list the registration goes through: those the filter
    function does not filter. *)
Definition unfilteredTools (shouldFilterFunc : option (string → bool))
    (tools : list Adapter.ToolConfig) : list Adapter.ToolConfig :=
  filter (λ t, Is_true (negb (Adapter.isFiltered shouldFilterFunc
                                (Adapter.tool_Name t)))) tools.

(* ===================================================================== *)
(** * More inputs for running the model *)
(* ===================================================================== *)

(** An SSE handler that panics. *)
Definition panickingHandler : Handler :=
  λ r x, (Panicked "runtime error", x).

(** A parsed file without proxy section, and one whose only backend entry
    is [null]. *)
Definition noProxyConfig : Config :=
  {| McpProxy := None; McpServers := {[ "github" := Some githubConfig ]} |}.

Definition nilBackendConfig : Config :=
  {| McpProxy := McpProxy exampleConfig; McpServers := {[ "github" := None ]} |}.

(** A configuration whose proxy-level options carry a tool filter, with
    a backend without options. *)
Definition filteredProxyConfig : Config :=
  {| McpProxy := Some {| BaseURL := "https://mcp.example.com"; Addr := ":9090";
                         Name := "MCP Proxy"; Version := "1.0.0";
                         proxy_Options := Some (filterOptions "block" ["a"]) |};
     McpServers := {[ "github" := Some githubConfig ]} |}.

(** A backend with the options [fetchOptions]: logging on, one token. *)
Definition tokenConfig : MCPClientConfig :=
  stdioBackend "uvx" ["mcp-server-fetch"] (Some fetchOptions).

(** A backend whose tool and prompt listings return one page with a next
    cursor and then fail. *)
Definition promptPage1 : Page Prompt :=
  {| Items := [{| prompt_Name := "review"; prompt_Rest := "" |}];
     NextCursor := "p2" |}.

Definition failingBackend : Backend :=
  {| startError := None; initError := None;
     toolPages := {| pending := [Ok toolPage1;
                                 Err (errors_New "connection reset")];
                     requested := [] |};
     promptPages := {| pending := [Ok promptPage1;
                                   Err (errors_New "connection reset")];
                       requested := [] |};
     resourcePages := {| pending := []; requested := [] |};
     templatePages := {| pending := []; requested := [] |} |}.

(** An adapter configuration: the proxy blocks the tool "delete_user"; the
    server "users" has no options of its own, the server "orders" has
    options with an empty token list and its own allow list. *)
Definition usersTarget : Adapter.TargetAPIConfig :=
  {| Adapter.target_BaseURL := "https://api.example.com";
     Adapter.target_Headers := ∅;
     Adapter.Auth := {| Adapter.auth_Type := ""; Adapter.auth_Config := ∅ |};
     Adapter.Timeout := 30 |}.

Definition idMapping : Adapter.ParameterMapping :=
  {| Adapter.Source := "id"; Adapter.Target := "id"; Adapter.param_In := "path";
     Adapter.Default := JNull; Adapter.Required := true |}.

Definition limitMapping : Adapter.ParameterMapping :=
  {| Adapter.Source := "limit"; Adapter.Target := "limit";
     Adapter.param_In := "query"; Adapter.Default := JString "10";
     Adapter.Required := true |}.

Definition usersTool (name : string) (inputSchema : gmap string JValue)
  : Adapter.ToolConfig :=
  {| Adapter.tool_Name := name; Adapter.tool_Description := "";
     Adapter.InputSchema := inputSchema;
     Adapter.tool_HTTPMapping :=
       {| Adapter.Method := "GET"; Adapter.Path := "/users/{id}";
          Adapter.ParameterMappings := [limitMapping; idMapping];
          Adapter.BodyTemplate := None |};
     Adapter.ErrorMapping := ∅ |}.

Definition objectSchema : gmap string JValue := {[ "type" := JString "object" ]}.

Definition getUser : Adapter.ToolConfig := usersTool "get_user" objectSchema.
Definition deleteUser : Adapter.ToolConfig := usersTool "delete_user" objectSchema.
(** A tool whose schema has a number where [mcp.ToolInputSchema] has a
    string. *)
Definition brokenTool : Adapter.ToolConfig :=
  usersTool "broken" {[ "type" := JNumber 1 ]}.

Definition usersServer (tools : list Adapter.ToolConfig)
    (o : option Adapter.Options) : Adapter.AdapterServerConfig :=
  {| Adapter.TargetAPI := usersTarget; Adapter.Tools := tools;
     Adapter.Prompts := [{| Adapter.prompt_Name := "greet";
                            Adapter.prompt_Description := "A greeting";
                            Adapter.prompt_Content := "Hello" |}];
     Adapter.Resources := [];
     Adapter.server_Options := o |}.

Definition adapterProxyOptions : Adapter.Options :=
  {| Adapter.PanicIfInvalid := true; Adapter.LogEnabled := false;
     Adapter.AuthTokens := Some ["ProxyToken"];
     Adapter.ToolFilter :=
       Some {| Adapter.Mode := "block";
               Adapter.filter_Tools := Some ["delete_user"] |} |}.

Definition ordersOptions : Adapter.Options :=
  {| Adapter.PanicIfInvalid := false; Adapter.LogEnabled := true;
     Adapter.AuthTokens := Some [];
     Adapter.ToolFilter :=
       Some {| Adapter.Mode := "allow";
               Adapter.filter_Tools := Some ["delete_user"] |} |}.

Definition adapterConfig : Adapter.NewConfig :=
  {| Adapter.AdapterProxy :=
       Some {| Adapter.BaseURL := "http://localhost:9091";
               Adapter.Addr := ":9091"; Adapter.Name := "Adapter";
               Adapter.Version := "1.0.0";
               Adapter.proxy_Options := Some adapterProxyOptions |};
     Adapter.AdapterServers :=
       {[ "users" := Some (usersServer [getUser; deleteUser] None);
          "orders" := Some (usersServer [getUser; deleteUser]
                              (Some ordersOptions)) ]} |}.

(** A schema conversion: the "type" of a schema has to be a string. *)
Definition typedSchema (inputSchema : gmap string JValue)
  : Adapter.SchemaResult (gmap string JValue) :=
  match inputSchema !! "type" with
  | Some (JString _) | None => Adapter.Converted inputSchema
  | Some _ =>
      Adapter.UnmarshalSchemaFails
        (errors_New "json: cannot unmarshal number into Go struct field ToolInputSchema.type of type string")
  end.

Definition emptyRegistry : Adapter.Registry (gmap string JValue) :=
  {| Adapter.reg_Tools := []; Adapter.reg_Prompts := [];
     Adapter.reg_Resources := []; Adapter.reg_Log := [] |}.

(** A backend whose first tools page has no items and the next cursor
    "p2", and whose page at "p2" holds the tool [c]. *)
Definition emptyToolPage : Page Tool := {| Items := []; NextCursor := "p2" |}.

Definition emptyFirstBackend : Backend :=
  {| startError := None; initError := None;
     toolPages := {| pending := [Ok emptyToolPage; Ok toolPage2];
                     requested := [] |};
     promptPages := {| pending := []; requested := [] |};
     resourcePages := {| pending := []; requested := [] |};
     templatePages := {| pending := []; requested := [] |} |}.

(** Two muxes for running the model: one that takes every pattern, and
    one that does the check of [net/http] for a space in the pattern,
    with a value that stands for the one [Handle] panics with. *)
Definition takesAll (registered : list string) (pattern : string) : option string :=
  None.

Fixpoint hasSpace (s : string) : bool :=
  match s with
  | EmptyString => false
  | String c s' => if decide (c = " "%char) then true else hasSpace s'
  end.

Definition refusesSpace (registered : list string) (pattern : string)
  : option string :=
  if hasSpace pattern then Some "invalid method" else None.

(** A request whose bearer token is followed by a no-break space (U+00A0,
    the bytes C2 A0). *)
Definition noBreakSpaceRequest : Request :=
  {| Method := "GET"; URL_Path := "/fetch/";
     Header := {[ "Authorization" :=
                    ["Bearer SECRET" +:+ String "194" (String "160" "")] ]} |}.

(** A string from its bytes, and the white space of [unicode.IsSpace] in
    UTF-8: tab to carriage return, space, U+0085, U+00A0, U+1680, U+2000
    to U+200A, U+2028, U+2029, U+202F, U+205F, U+3000. *)
Definition utf8 (bytes : list nat) : string :=
  foldr (λ n s, String (ascii_of_nat n) s) "" bytes.

Definition whiteSpace : string :=
  utf8 [9; 10; 11; 12; 13; 32; 194; 133; 194; 160; 225; 154; 128;
        226; 128; 128; 226; 128; 129; 226; 128; 130; 226; 128; 131;
        226; 128; 132; 226; 128; 133; 226; 128; 134; 226; 128; 135;
        226; 128; 136; 226; 128; 137; 226; 128; 138; 226; 128; 168;
        226; 128; 169; 226; 128; 175; 226; 129; 159; 227; 128; 128].

(* ===================================================================== *)
(** * config.go: transport inference *)
(* ===================================================================== *)

(** C2.  The transport variant of a backend config.  When the command is
    not empty or the transport type is "stdio", the result is an error
    exactly when the command is empty, and the stdio variant otherwise.
    Else, when the URL is not empty, the result is the streamable-http
    variant when the transport type is "streamable-http" and the sse
    variant for every other transport type.  Else the result is an error.
    The three cases cover every config. *)
Theorem parseMCPClientConfig_variants (conf : MCPClientConfig) :
  let stdioBranch :=
    Command conf ≠ "" ∨ TransportType conf = MCPClientTypeStdio in
  (stdioBranch →
     (Command conf = "" ↔ ∃ e, parseMCPClientConfig conf = Err e) ∧
     (Command conf ≠ "" →
        parseMCPClientConfig conf =
          Ok (IsStdio {| stdio_Command := Command conf;
                         stdio_Env := Env conf;
                         stdio_Args := Args conf |}))) ∧
  (¬ stdioBranch → URL conf ≠ "" →
     (TransportType conf = MCPClientTypeStreamable →
        parseMCPClientConfig conf =
          Ok (IsStreamable {| streamable_URL := URL conf;
                              streamable_Headers := Headers conf;
                              streamable_Timeout := Timeout conf |})) ∧
     (TransportType conf ≠ MCPClientTypeStreamable →
        parseMCPClientConfig conf =
          Ok (IsSSE {| sse_URL := URL conf; sse_Headers := Headers conf |}))) ∧
  (¬ stdioBranch → URL conf = "" → ∃ e, parseMCPClientConfig conf = Err e) ∧
  (stdioBranch ∨ (¬ stdioBranch ∧ URL conf ≠ "") ∨ (¬ stdioBranch ∧ URL conf = "")).
Proof.
  intros stdioBranch. subst stdioBranch. unfold parseMCPClientConfig.
  destruct (decide (Command conf = "")), (decide (URL conf = ""));
    repeat case_bool_decide; simpl;
    repeat split; intros; try tauto; try congruence; eauto;
    try (match goal with H : ∃ _, _ = Err _ |- _ => destruct H; congruence end).
Qed.

(* ===================================================================== *)
(** * config.go: the loader *)
(* ===================================================================== *)

(** A return of [load] without error comes from a parsed config with a
    proxy section and without nil backends, and is that config with the
    defaults set and the loop body applied to every backend. *)
Lemma load_returns_inv (loaded : result Config) (conf' : Config) :
  load loaded = Returns (Ok conf') →
  ∃ conf proxy,
    loaded = Ok conf ∧ McpProxy conf = Some proxy ∧
    map_Forall (λ (_ : string) (c : option MCPClientConfig), is_Some c)
      (McpServers conf) ∧
    McpProxy conf' = Some (setProxyOptions proxy (proxyLevel proxy)) ∧
    McpServers conf' =
      (λ c : option MCPClientConfig, inheritOptions (proxyLevel proxy) <$> c)
        <$> McpServers conf.
Proof.
  unfold load. destruct loaded as [conf|e]; [|discriminate].
  destruct (McpProxy conf) as [proxy|] eqn:Hp; [|discriminate].
  case_bool_decide as Hall; [|discriminate].
  intros [= <-]. exists conf, proxy. by repeat split.
Qed.

Lemma load_returns_lookup (loaded : result Config) (conf' : Config)
    (name : string) (entry : option MCPClientConfig) :
  load loaded = Returns (Ok conf') →
  McpServers conf' !! name = Some entry →
  ∃ conf proxy clientConfig,
    loaded = Ok conf ∧ McpProxy conf = Some proxy ∧
    McpServers conf !! name = Some (Some clientConfig) ∧
    entry = Some (inheritOptions (proxyLevel proxy) clientConfig).
Proof.
  intros Hload Hlook.
  destruct (load_returns_inv _ _ Hload) as (conf & proxy & -> & Hp & Hall & _ & Hs).
  rewrite Hs, lookup_fmap in Hlook.
  destruct (McpServers conf !! name) as [raw|] eqn:Hraw; [|discriminate].
  destruct (Hall _ _ Hraw) as [clientConfig ->].
  simpl in Hlook. injection Hlook as <-.
  by exists conf, proxy, clientConfig.
Qed.

Lemma inheritOptions_options (proxyOptions : Options) (clientConfig : MCPClientConfig) :
  ∃ o, client_Options (inheritOptions proxyOptions clientConfig) = Some o ∧
    AuthTokens o = match AuthTokens (ownOptions clientConfig) with
                   | None => AuthTokens proxyOptions
                   | Some t => Some t
                   end ∧
    PanicIfInvalid o = match PanicIfInvalid (ownOptions clientConfig) with
                       | None => PanicIfInvalid proxyOptions
                       | Some v => Some v
                       end ∧
    LogEnabled o = match LogEnabled (ownOptions clientConfig) with
                   | None => LogEnabled proxyOptions
                   | Some v => Some v
                   end ∧
    ToolFilter o = ToolFilter (ownOptions clientConfig).
Proof.
  unfold inheritOptions, ownOptions.
  destruct (client_Options clientConfig) as [[p l a f]|]; simpl;
    [destruct a, p, l|]; simpl; eexists; (split; [reflexivity|]); simpl;
    repeat split;
    repeat match goal with
           | |- context [Present ?f] => destruct f; simpl
           end; reflexivity.
Qed.

(** C7.  After [load] returned a config: a backend that left [authTokens]
    unset carries the proxy-level tokens, a backend that left
    [panicIfInvalid] or [logEnabled] unset carries the proxy-level value
    of that field, and a backend that set one of the three keeps its own
    value, a [false] included. *)
Theorem load_inherits_unset_options (loaded : result Config) (conf' : Config) :
  load loaded = Returns (Ok conf') →
  ∃ conf proxy proxyOptions,
    loaded = Ok conf ∧ McpProxy conf = Some proxy ∧
    McpProxy conf' = Some (setProxyOptions proxy proxyOptions) ∧
    proxyOptions = proxyLevel proxy ∧
    dom (McpServers conf') = dom (McpServers conf) ∧
    ∀ name clientConfig,
      McpServers conf !! name = Some (Some clientConfig) →
      ∃ clientConfig' o',
        McpServers conf' !! name = Some (Some clientConfig') ∧
        client_Options clientConfig' = Some o' ∧
        let own := ownOptions clientConfig in
        (AuthTokens own = None → AuthTokens o' = AuthTokens proxyOptions) ∧
        (PanicIfInvalid own = None →
           PanicIfInvalid o' = PanicIfInvalid proxyOptions) ∧
        (LogEnabled own = None → LogEnabled o' = LogEnabled proxyOptions) ∧
        (∀ t, AuthTokens own = Some t → AuthTokens o' = Some t) ∧
        (∀ v, PanicIfInvalid own = Some v → PanicIfInvalid o' = Some v) ∧
        (∀ v, LogEnabled own = Some v → LogEnabled o' = Some v).
Proof.
  intros Hload.
  destruct (load_returns_inv _ _ Hload) as (conf & proxy & -> & Hp & Hall & Hp' & Hs).
  exists conf, proxy, (proxyLevel proxy). repeat split; try done.
  - rewrite Hs. apply dom_fmap_L.
  - intros name clientConfig Hlook.
    destruct (inheritOptions_options (proxyLevel proxy) clientConfig)
      as (o' & Ho' & Ha & Hpi & Hl & _).
    exists (inheritOptions (proxyLevel proxy) clientConfig), o'.
    split; [by rewrite Hs, lookup_fmap, Hlook|].
    split; [done|]. simpl.
    rewrite Ha, Hpi, Hl.
    repeat split; intros; repeat match goal with H : _ = _ |- _ => rewrite H end; done.
Qed.

(** C10.  After [load] returned a config, the proxy's options and the
    options of every backend are there (no backend is nil either), so
    neither [newMCPServer] nor the per-backend function of
    [startHTTPServer] panics on reading them. *)
Theorem load_options_never_nil (loaded : result Config) (conf' : Config) :
  load loaded = Returns (Ok conf') →
  (∃ proxy o, McpProxy conf' = Some proxy ∧ proxy_Options proxy = Some o) ∧
  ∀ name entry,
    McpServers conf' !! name = Some entry →
    ∃ clientConfig o,
      entry = Some clientConfig ∧ client_Options clientConfig = Some o ∧
      (∀ version baseURL,
         ∃ server, newMCPServer name version baseURL clientConfig = Returns server) ∧
      (∀ basePath sse addErr log,
         ∃ r, startHTTPServer_backend basePath name clientConfig sse addErr log
              = Returns r).
Proof.
  intros Hload. split.
  - destruct (load_returns_inv _ _ Hload) as (conf & proxy & _ & _ & _ & Hp' & _).
    by exists (setProxyOptions proxy (proxyLevel proxy)), (proxyLevel proxy).
  - intros name entry Hlook.
    destruct (load_returns_lookup _ _ _ _ Hload Hlook)
      as (conf & proxy & raw & _ & _ & _ & ->).
    destruct (inheritOptions_options (proxyLevel proxy) raw) as (o & Ho & _).
    exists (inheritOptions (proxyLevel proxy) raw), o.
    repeat split; try done.
    + intros version baseURL. unfold newMCPServer. rewrite Ho. by eexists.
    + intros basePath sse addErr log. unfold startHTTPServer_backend.
      rewrite Ho. destruct addErr; [destruct (OrElse _ _)|]; by eexists.
Qed.

(* ===================================================================== *)
(** * Strings: prefixes, suffixes, reversal *)
(* ===================================================================== *)

Lemma app_String (a : ascii) (s t : string) :
  String a s +:+ t = String a (s +:+ t).
Proof. reflexivity. Qed.

Lemma app_empty_r (s : string) : s +:+ "" = s.
Proof. induction s as [|a s IH]; [done|]. by rewrite app_String, IH. Qed.

Lemma app_assoc_s (s t u : string) : (s +:+ t) +:+ u = s +:+ t +:+ u.
Proof. induction s as [|a s IH]; [done|]. by rewrite !app_String, IH. Qed.

Lemma rev_app_app (s t u : string) :
  String.rev_app s (t +:+ u) = String.rev_app s t +:+ u.
Proof.
  revert t. induction s as [|a s IH]; intros t; simpl; [done|].
  by rewrite <- IH.
Qed.

Lemma rev_app_cat (s t u : string) :
  String.rev_app (s +:+ t) u = String.rev_app t (String.rev_app s u).
Proof.
  revert u. induction s as [|a s IH]; intros u; [done|].
  rewrite app_String. simpl. apply IH.
Qed.

Lemma rev_cat (s t : string) :
  String.rev (s +:+ t) = String.rev t +:+ String.rev s.
Proof.
  unfold String.rev. rewrite rev_app_cat.
  by rewrite <- (rev_app_app t "" (String.rev_app s "")).
Qed.

Lemma HasPrefix_cat (p r : string) : HasPrefix (p +:+ r) p = true.
Proof.
  induction p as [|a p IH]; [reflexivity|].
  rewrite app_String. simpl. by rewrite decide_True.
Qed.

Lemma HasPrefix_cat_r (s p t : string) :
  HasPrefix s p = true → HasPrefix (s +:+ t) p = true.
Proof.
  revert s. induction p as [|a p IH]; intros s; [reflexivity|].
  destruct s as [|c s]; [done|].
  rewrite app_String. simpl. case_decide; [apply IH|done].
Qed.

Lemma HasSuffix_cat (r p : string) : HasSuffix (r +:+ p) p = true.
Proof. unfold HasSuffix. rewrite rev_cat. apply HasPrefix_cat. Qed.

Lemma HasSuffix_cat_l (s p t : string) :
  HasSuffix s p = true → HasSuffix (t +:+ s) p = true.
Proof. unfold HasSuffix. rewrite rev_cat. apply HasPrefix_cat_r. Qed.

Lemma rev_involutive_s (s : string) : String.rev (String.rev s) = s.
Proof.
  induction s as [|a s IH]; [done|].
  change (String a s) with (String a "" +:+ s).
  by rewrite rev_cat, rev_cat, IH.
Qed.

Lemma hasSlash_rev_app (s t : string) :
  hasSlash (String.rev_app s t) = hasSlash s || hasSlash t.
Proof.
  revert t. induction s as [|a s IH]; intros t; simpl; [done|].
  rewrite IH. simpl. case_decide; [by rewrite orb_true_r|done].
Qed.

Lemma splitSlash_noSlash (s : string) :
  hasSlash s = false → splitSlash s = [s].
Proof.
  induction s as [|a s IH]; simpl; [done|].
  case_decide; [done|]. intros Hs. by rewrite (IH Hs).
Qed.

Lemma HasPrefix_noSlash (s t : string) :
  s ≠ "" → hasSlash s = false → HasPrefix (s +:+ t) "/" = false.
Proof.
  destruct s as [|a s]; [done|]. intros _. rewrite app_String. simpl.
  case_decide as Ha; [done|]. intros _. rewrite decide_False; [done|congruence].
Qed.

Lemma HasSuffix_noSlash (s t : string) :
  s ≠ "" → hasSlash s = false → HasSuffix (t +:+ s) "/" = false.
Proof.
  intros Hne Hs. unfold HasSuffix. rewrite rev_cat.
  change (String.rev "/") with "/". apply HasPrefix_noSlash.
  - intros Hrev. apply Hne. by rewrite <- (rev_involutive_s s), Hrev.
  - unfold String.rev. by rewrite hasSlash_rev_app, Hs.
Qed.

(* ===================================================================== *)
(** * The mounted route *)
(* ===================================================================== *)

(** The two [if]s of the route bring a string to start and end with "/",
    adding a "/" on a side only when it is missing there. *)
Lemma mcpRoute_slashes (basePath name : string) :
  let joined := path_Join [basePath; name] in
  let route := mcpRoute basePath name in
  HasPrefix route "/" = true ∧ HasSuffix route "/" = true ∧
  ∃ pre post,
    route = pre +:+ joined +:+ post ∧
    (pre = "" ∧ HasPrefix joined "/" = true ∨
     pre = "/" ∧ HasPrefix joined "/" = false) ∧
    (post = "" ∧ HasSuffix (pre +:+ joined) "/" = true ∨
     post = "/" ∧ HasSuffix joined "/" = false).
Proof.
  intros joined route. subst route. unfold mcpRoute. fold joined.
  destruct (HasPrefix joined "/") eqn:Hpre; cbn [negb].
  - destruct (HasSuffix joined "/") eqn:Hsuf; cbn [negb].
    + repeat split; try done. exists "", "". rewrite app_empty_r. auto.
    + split; [by apply HasPrefix_cat_r|]. split; [apply HasSuffix_cat|].
      exists "", "/". auto.
  - destruct (HasSuffix ("/" +:+ joined) "/") eqn:Hsuf; cbn [negb].
    + repeat split; try done. exists "/", "". rewrite app_empty_r. auto.
    + split; [done|]. split; [apply HasSuffix_cat|].
      exists "/", "/". rewrite app_assoc_s. repeat split; auto.
      right. split; [done|].
      destruct (HasSuffix joined "/") eqn:Hj; [|done].
      by rewrite (HasSuffix_cat_l joined "/" "/" Hj) in Hsuf.
Qed.

(** ** [path.Join] on paths without "." and ".." *)

Lemma splitSlash_cons (s : string) : ∃ x xs, splitSlash s = x :: xs.
Proof.
  destruct s as [|c s]; simpl; [by eexists _, _|].
  case_decide; [by eexists _, _|]. destruct (splitSlash s); by eexists _, _.
Qed.

(** Splitting at a "/" splits the elements. *)
Lemma splitSlash_cat (a b : string) :
  splitSlash (a +:+ "/" +:+ b) = splitSlash a ++ splitSlash b.
Proof.
  induction a as [|c a IH]; [done|].
  rewrite app_String. cbn [splitSlash]. rewrite IH.
  case_decide; [done|].
  by destruct (splitSlash_cons a) as (x & xs & ->).
Qed.

Lemma splitSlash_elements (s : string) :
  Forall (λ e, hasSlash e = false) (splitSlash s).
Proof.
  induction s as [|c s IH]; simpl; [by constructor|].
  case_decide as Hc; [by constructor|].
  destruct (splitSlash s) as [|x xs]; [by constructor; simpl; rewrite ?decide_False|].
  apply Forall_cons in IH as [Hx Hxs]. constructor; [|done].
  simpl. by rewrite decide_False.
Qed.

(** A path that is not empty and does not start with "/" starts with an
    element that is not empty. *)
Lemma splitSlash_head (s : string) :
  s ≠ "" → HasPrefix s "/" = false →
  ∃ x xs, splitSlash s = x :: xs ∧ x ≠ "".
Proof.
  destruct s as [|c s]; [done|]. intros _. simpl.
  case_decide as Hc; [done|]. intros _.
  rewrite decide_False by congruence.
  destruct (splitSlash s); by eexists _, _.
Qed.

Lemma elements_spec (p : string) :
  Forall (λ e, e ≠ "" ∧ hasSlash e = false) (elements p).
Proof.
  apply Forall_forall. intros e He. unfold elements in He.
  apply list_elem_of_filter in He as [Hne He]. split; [done|].
  by apply (proj1 (Forall_forall _ _) (splitSlash_elements p)).
Qed.

(** On elements that are neither "." nor "..", the loop of [Clean] keeps
    those that are not empty. *)
Lemma foldl_cleanElem_plain (rooted : bool) (elem stack : list string) :
  forallb (λ e, negb (bool_decide (e = ".")) && negb (bool_decide (e = "..")))
    elem = true →
  foldl (cleanElem rooted) stack elem = rev (filter (λ e, e ≠ "") elem) ++ stack.
Proof.
  revert stack. induction elem as [|e elem IH]; intros stack; simpl; [done|].
  rewrite andb_true_iff, andb_true_iff, !negb_true_iff, !bool_decide_eq_false.
  intros [[Hdot Hdots] Hrest]. rewrite (IH _ Hrest). rewrite filter_cons.
  unfold cleanElem. destruct (decide (e = "")) as [->|Hne]; [done|].
  rewrite !bool_decide_eq_false_2 by done. simpl.
  rewrite decide_True by done. simpl. by rewrite <- app_assoc.
Qed.

Lemma path_Clean_plain (p : string) :
  plainPath p = true →
  path_Clean p =
    if HasPrefix p "/" then "/" +:+ joinSlash (elements p)
    else if bool_decide (joinSlash (elements p) = "") then "."
         else joinSlash (elements p).
Proof.
  intros Hplain. unfold path_Clean, elements.
  by rewrite (foldl_cleanElem_plain _ _ [] Hplain), app_nil_r, rev_involutive.
Qed.

Lemma slashed_app (a b : list string) : slashed (a ++ b) = slashed a +:+ slashed b.
Proof.
  induction a as [|e a IH]; simpl; [done|]. by rewrite IH, !app_assoc_s.
Qed.

Lemma joinSlash_snoc (init : list string) (l : string) :
  joinSlash (init ++ [l]) = slashed init +:+ l.
Proof.
  induction init as [|e init IH]; [done|].
  change (joinSlash ((e :: init) ++ [l]))
    with (match init ++ [l] with
          | [] => e
          | _ => e +:+ "/" +:+ joinSlash (init ++ [l])
          end).
  rewrite IH. simpl. destruct init; simpl; by rewrite ?app_assoc_s.
Qed.

Lemma joinSlash_head (e : string) (rest : list string) :
  ∃ t, joinSlash (e :: rest) = e +:+ t.
Proof.
  destruct rest as [|e' rest]; [exists ""; simpl; by rewrite app_empty_r|].
  by eexists.
Qed.

(** The two [if]s of the route on the join of elements that are not empty
    and have no "/", after a "/" or not: each element followed by "/",
    after one "/". *)
Lemma route_of_elements (elem : list string) (rooted : bool) :
  Forall (λ e, e ≠ "" ∧ hasSlash e = false) elem →
  (rooted = false → elem ≠ []) →
  let joined := if rooted then "/" +:+ joinSlash elem else joinSlash elem in
  let route := if negb (HasPrefix joined "/") then "/" +:+ joined else joined in
  (if negb (HasSuffix route "/") then route +:+ "/" else route)
  = "/" +:+ slashed elem.
Proof.
  intros Helem Hne.
  destruct (decide (elem = [])) as [->|Hnil].
  { destruct rooted; [done|]. by destruct Hne. }
  clear Hne. cbv zeta.
  assert (Hroute : (if negb (HasPrefix (if rooted then "/" +:+ joinSlash elem
                                        else joinSlash elem) "/")
                    then "/" +:+ (if rooted then "/" +:+ joinSlash elem
                                  else joinSlash elem)
                    else if rooted then "/" +:+ joinSlash elem else joinSlash elem)
                   = "/" +:+ joinSlash elem).
  { destruct rooted.
    - by rewrite (HasPrefix_cat "/" (joinSlash elem)).
    - destruct elem as [|e rest]; [done|].
      apply Forall_cons in Helem as [[He Hs] _].
      destruct (joinSlash_head e rest) as [t ->].
      by rewrite (HasPrefix_noSlash e t He Hs). }
  rewrite Hroute.
  destruct (exists_last Hnil) as (init & l & ->).
  apply Forall_app in Helem as [_ Hl].
  apply Forall_cons in Hl as [[Hl Hs] _].
  rewrite joinSlash_snoc, <- (app_assoc_s "/" (slashed init) l).
  rewrite (HasSuffix_noSlash l ("/" +:+ slashed init) Hl Hs). cbn [negb].
  rewrite slashed_app. simpl. by rewrite !app_assoc_s, app_empty_r.
Qed.

Lemma joinSlash_not_empty (elem : list string) :
  Forall (λ e, e ≠ "" ∧ hasSlash e = false) elem → elem ≠ [] →
  joinSlash elem ≠ "".
Proof.
  destruct elem as [|e rest]; [done|]. intros Helem _.
  apply Forall_cons in Helem as [[He _] _].
  destruct (joinSlash_head e rest) as [t ->]. by destruct e.
Qed.

(** The route of a path that is not empty and has no "." and ".."
    elements, cleaned. *)
Lemma route_of_plain (p : string) :
  p ≠ "" → plainPath p = true →
  let joined := path_Clean p in
  let route := if negb (HasPrefix joined "/") then "/" +:+ joined else joined in
  (if negb (HasSuffix route "/") then route +:+ "/" else route)
  = "/" +:+ slashed (elements p).
Proof.
  intros Hne Hplain. rewrite (path_Clean_plain p Hplain).
  destruct (HasPrefix p "/") eqn:Hrooted.
  - apply (route_of_elements (elements p) true); [apply elements_spec|done].
  - assert (Helem : elements p ≠ []).
    { destruct (splitSlash_head p Hne Hrooted) as (x & xs & Hsplit & Hx).
      unfold elements. rewrite Hsplit, filter_cons. by rewrite decide_True. }
    rewrite bool_decide_eq_false_2
      by (apply joinSlash_not_empty; [apply elements_spec|done]).
    apply (route_of_elements (elements p) false); [apply elements_spec|done].
Qed.

(** The route for a base path and a name without "." and ".." elements:
    after one "/", the elements of the base path and then those of the
    name that are not empty, each followed by "/". *)
Lemma mcpRoute_plain (basePath name : string) :
  plainPath basePath = true → plainPath name = true →
  mcpRoute basePath name = "/" +:+ slashed (elements basePath ++ elements name).
Proof.
  intros Hbase Hname. unfold mcpRoute, path_Join.
  destruct (decide (basePath = "")) as [->|Hb].
  - destruct (decide (name = "")) as [->|Hn]; [done|].
    cbn [dropEmpty]. rewrite bool_decide_eq_true_2 by done.
    rewrite bool_decide_eq_false_2 by done. cbn [joinSlash].
    by apply route_of_plain.
  - cbn [dropEmpty]. rewrite bool_decide_eq_false_2 by done. cbn [joinSlash].
    assert (Hsplit : splitSlash (basePath +:+ "/" +:+ name)
                     = splitSlash basePath ++ splitSlash name)
      by apply splitSlash_cat.
    assert (Helem : elements (basePath +:+ "/" +:+ name)
                    = elements basePath ++ elements name).
    { unfold elements. by rewrite Hsplit, filter_app. }
    rewrite <- Helem. apply route_of_plain.
    + by destruct basePath.
    + unfold plainPath in *. rewrite Hsplit, forallb_app.
      by rewrite Hbase, Hname.
Qed.

(** The join of two elements, case by case. *)
Lemma path_Join_cases (basePath name : string) :
  (basePath = "" → name = "" → path_Join [basePath; name] = "") ∧
  (basePath = "" → name ≠ "" → path_Join [basePath; name] = path_Clean name) ∧
  (basePath ≠ "" →
     path_Join [basePath; name] = path_Clean (basePath +:+ "/" +:+ name)).
Proof.
  unfold path_Join. split; [|split].
  - by intros -> ->.
  - intros -> Hn. cbn [dropEmpty]. rewrite bool_decide_eq_true_2 by done.
    by rewrite bool_decide_eq_false_2 by done.
  - intros Hb. cbn [dropEmpty]. by rewrite bool_decide_eq_false_2 by done.
Qed.

(** C8.  The function a backend is mounted by, once its initialization
    succeeded, hands [httpMux.Handle] the route and the chain of its
    middlewares around the SSE handler, and the backend is mounted at
    that route when [Handle] takes it; when [Handle] refuses the route it
    panics, and so does the function.  The route starts and ends with
    "/" and is the join of the base path and the name, with a "/" put in
    front only when the join does not start with one and a "/" put
    behind only when it does not end with one; for every base path, the
    empty one included, and every name.  The join is empty when both are
    empty, the cleaned name when the base path is empty, and else the
    cleaned base path, "/" and name; so without "." and ".." elements
    the route is, after one "/", the elements of the base path and then
    those of the name that are not empty, each followed by "/". *)
Theorem mounted_route_normalized
    (refuses : list string → string → option string) (mux : ServeMux)
    (basePath name : string) (clientConfig : MCPClientConfig) (o : Options)
    (sse : Handler) (log : list LogLine) :
  client_Options clientConfig = Some o →
  let joined := path_Join [basePath; name] in
  let route := mcpRoute basePath name in
  startHTTPServer_mount refuses basePath name clientConfig sse None mux log =
    match refuses (mount_Route <$> mux) route with
    | Some v => Panics v
    | None =>
        Returns (None,
                 mux ++ [{| mount_Route := route;
                            mount_Handler :=
                              chainMiddleware sse (routeMiddlewares name o) |}],
                 log ++ [LogConnected name])
    end ∧
  HasPrefix route "/" = true ∧ HasSuffix route "/" = true ∧
  (∃ pre post,
     route = pre +:+ joined +:+ post ∧
     (pre = "" ∧ HasPrefix joined "/" = true ∨
      pre = "/" ∧ HasPrefix joined "/" = false) ∧
     (post = "" ∧ HasSuffix (pre +:+ joined) "/" = true ∨
      post = "/" ∧ HasSuffix joined "/" = false)) ∧
  (basePath = "" → name = "" → joined = "") ∧
  (basePath = "" → name ≠ "" → joined = path_Clean name) ∧
  (basePath ≠ "" → joined = path_Clean (basePath +:+ "/" +:+ name)) ∧
  (plainPath basePath = true → plainPath name = true →
     route = "/" +:+ slashed (elements basePath ++ elements name)).
Proof.
  intros Ho joined route.
  destruct (mcpRoute_slashes basePath name) as (Hpre & Hsuf & Hjoin).
  destruct (path_Join_cases basePath name) as (H1 & H2 & H3).
  split; [|by repeat split; try done; apply mcpRoute_plain].
  unfold startHTTPServer_mount, startHTTPServer_backend, ServeMux_Handle.
  rewrite Ho. simpl. fold route. by destruct (refuses _ route).
Qed.

(* ===================================================================== *)
(** * The middleware chain *)
(* ===================================================================== *)

(** C1, on the code.  [chainMiddleware] of the proxy wraps in list order,
    so the first middleware of the list ends up innermost and the last
    outermost: [chainMiddleware h [m1; m2; m3]] is [m3 (m2 (m1 h))], where
    the adapter's helper of the same name gives [m1 (m2 (m3 h))].  On a
    route with logging and a token, a request without credentials is
    answered 401 by the auth middleware before the log middleware runs: no
    request line is logged, while the order recover, log, auth logs the
    request first. *)
Theorem chainMiddleware_last_is_outermost :
  (∀ h m1 m2 m3, chainMiddleware h [m1; m2; m3] = m3 (m2 (m1 h))) ∧
  (∀ h m1 m2 m3, adapter_chainMiddleware h [m1; m2; m3] = m1 (m2 (m3 h))) ∧
  (∀ sse,
     chainMiddleware sse (routeMiddlewares "fetch" fetchOptions) plainRequest noExchange
     = (Normal, {| written := [(401, "Unauthorized" +:+ LF)]; logged := [] |})) ∧
  (∀ sse,
     recoverMiddleware "fetch"
       (loggerMiddleware "fetch" (newAuthMiddleware (Some ["SECRET"]) sse))
       plainRequest noExchange
     = (Normal, {| written := [(401, "Unauthorized" +:+ LF)];
                   logged := [LogRequest "fetch" "GET" "/fetch/"] |})) ∧
  (∀ sse,
     adapter_chainMiddleware sse (routeMiddlewares "fetch" fetchOptions)
       plainRequest noExchange
     = (Normal, {| written := [(401, "Unauthorized" +:+ LF)];
                   logged := [LogRequest "fetch" "GET" "/fetch/"] |})).
Proof. repeat split. Qed.

(* ===================================================================== *)
(** * The auth middleware *)
(* ===================================================================== *)

(** C6, on the code.  With the token set {SECRET}, a request whose
    [Authorization] header is the token alone, without the Bearer scheme,
    is handed to the next handler: [TrimPrefix] leaves a header without
    the prefix as it is and the whole header is looked up in the token
    set.  The adapter's middleware answers that request 401.  The same
    holds for a header with the Basic scheme that is a token as a whole.
    A request without the header is answered 401, and one with the bearer
    token is handed on. *)
Theorem newAuthMiddleware_accepts_token_without_scheme :
  (∀ next x,
     newAuthMiddleware (Some ["SECRET"]) next bareTokenRequest x
     = next bareTokenRequest x) ∧
  (∀ next x,
     adapter_newAuthMiddleware (Some ["SECRET"]) next bareTokenRequest x
     = (Normal, http_Error "Bearer token required" StatusUnauthorized x)) ∧
  (∀ next x,
     newAuthMiddleware (Some ["Basic dXNlcjpwYXNz"]) next basicRequest x
     = next basicRequest x) ∧
  (∀ next x,
     adapter_newAuthMiddleware (Some ["Basic dXNlcjpwYXNz"]) next basicRequest x
     = (Normal, http_Error "Bearer token required" StatusUnauthorized x)) ∧
  (∀ next x,
     newAuthMiddleware (Some ["SECRET"]) next plainRequest x
     = (Normal, http_Error "Unauthorized" StatusUnauthorized x)) ∧
  (∀ next x,
     newAuthMiddleware (Some ["SECRET"]) next bearerRequest x
     = next bearerRequest x).
Proof. repeat split. Qed.

(** What the auth middleware does on every request: nothing without
    tokens; with tokens, it answers 401 and does not call the next
    handler when the header without its "Bearer " prefix trims to the
    empty string or to a string outside the token set, and calls the next
    handler otherwise. *)
Lemma newAuthMiddleware_cases (tokens : option (list string))
    (next : Handler) (r : Request) (x : Exchange) :
  let token :=
    TrimSpace (TrimPrefix (Header_Get (Header r) "Authorization") "Bearer ") in
  (len tokens = 0 → newAuthMiddleware tokens next r x = next r x) ∧
  (len tokens ≠ 0 → token = "" ∨ token ∉ elems tokens →
     newAuthMiddleware tokens next r x
     = (Normal, http_Error "Unauthorized" StatusUnauthorized x)) ∧
  (len tokens ≠ 0 → token ≠ "" → token ∈ elems tokens →
     newAuthMiddleware tokens next r x = next r x).
Proof.
  intros token. unfold newAuthMiddleware. fold token.
  destruct (Nat.eqb_spec (len tokens) 0) as [Hz|Hz]; simpl.
  - repeat split; intros; done.
  - repeat split; intros; try done.
    + case_bool_decide; [done|].
      rewrite bool_decide_eq_false_2; [done|].
      rewrite elem_of_list_to_set. tauto.
    + rewrite bool_decide_eq_false_2 by done.
      rewrite bool_decide_eq_true_2; [done|].
      by rewrite elem_of_list_to_set.
Qed.

(* ===================================================================== *)
(** * A backend with an empty token list *)
(* ===================================================================== *)

(** C9.  A backend whose options set [authTokens] to a list that is
    present and empty keeps that empty list through [load], whatever the
    proxy-level tokens are; [newMCPServer] leaves its tokens unset, the
    middleware list of its route has no auth middleware, and the mounted
    handler hands every request, whatever its headers, to the backend's
    SSE handler (after the request line is logged when logging is on). *)
Theorem empty_authTokens_not_inherited (conf conf' : Config) (name : string)
    (clientConfig : MCPClientConfig) (o : Options) :
  load (Ok conf) = Returns (Ok conf') →
  McpServers conf !! name = Some (Some clientConfig) →
  client_Options clientConfig = Some o →
  AuthTokens o = Some [] →
  ∃ clientConfig' o',
    McpServers conf' !! name = Some (Some clientConfig') ∧
    client_Options clientConfig' = Some o' ∧ AuthTokens o' = Some [] ∧
    (∀ version baseURL,
       ∃ server, newMCPServer name version baseURL clientConfig' = Returns server ∧
                 tokens server = None) ∧
    routeMiddlewares name o' =
      (if OrElse (LogEnabled o') false
       then [recoverMiddleware name; loggerMiddleware name]
       else [recoverMiddleware name]) ∧
    ∀ basePath sse log,
      ∃ mount log',
        startHTTPServer_backend basePath name clientConfig' sse None log
        = Returns (None, Some mount, log') ∧
        ∀ r x,
          mount_Handler mount r x =
            recoverMiddleware name sse r
              (if OrElse (LogEnabled o') false
               then logPrintf (LogRequest name (Method r) (URL_Path r)) x
               else x).
Proof.
  intros Hload Hraw Ho Htok.
  destruct (load_returns_inv _ _ Hload) as (conf0 & proxy & [= <-] & _ & _ & _ & Hs).
  destruct (inheritOptions_options (proxyLevel proxy) clientConfig)
    as (o' & Ho' & Ha & _).
  unfold ownOptions in Ha. rewrite Ho, Htok in Ha.
  exists (inheritOptions (proxyLevel proxy) clientConfig), o'.
  split; [by rewrite Hs, lookup_fmap, Hraw|].
  split; [done|]. split; [done|].
  assert (Hmw : routeMiddlewares name o' =
                if OrElse (LogEnabled o') false
                then [recoverMiddleware name; loggerMiddleware name]
                else [recoverMiddleware name]).
  { unfold routeMiddlewares. rewrite Ha. simpl.
    by destruct (OrElse (LogEnabled o') false). }
  split; [|split; [done|]].
  - intros version baseURL. unfold newMCPServer. rewrite Ho', Ha. simpl.
    by eexists.
  - intros basePath sse log. unfold startHTTPServer_backend. rewrite Ho'.
    eexists _, _. split; [reflexivity|]. simpl. intros r x. rewrite Hmw.
    by destruct (OrElse (LogEnabled o') false).
Qed.

(* ===================================================================== *)
(** * client.go: the tool filter *)
(* ===================================================================== *)

Lemma unknownModeLines_snoc (l : list LogLine) (line : LogLine) :
  unknownModeLines (l ++ [line]) =
    unknownModeLines l + (if isUnknownMode line then 1 else 0).
Proof.
  unfold unknownModeLines. rewrite filter_app, length_app. f_equal.
  rewrite filter_cons, filter_nil. by destruct line.
Qed.

Lemma filterDecides_visitTool (c : Client) (f : FilterFunc) (P : string → bool)
    (items : list Tool) (w : World) :
  filterDecides f P →
  let w' := foldl (λ w item, visitTool c f item w) w items in
  srv_Tools (mcpServer w') =
    srv_Tools (mcpServer w) ++ filter (λ t, Is_true (P (tool_Name t))) items ∧
  unknownModeLines (logs w') = unknownModeLines (logs w).
Proof.
  intros Hf. revert w. induction items as [|t items IH]; intros w; simpl.
  - by rewrite app_nil_r.
  - destruct (IH (visitTool c f t w)) as [IHt IHl]. rewrite IHt, IHl.
    unfold visitTool.
    destruct (Hf (tool_Name t) w) as (HP & Hsrv & Hlog).
    destruct (f (tool_Name t) w) as [admitted w1]. simpl in HP, Hsrv, Hlog.
    subst admitted. rewrite filter_cons.
    destruct (P (tool_Name t)); simpl.
    + rewrite Hsrv, unknownModeLines_snoc, Hlog. simpl.
      split; [by rewrite <- app_assoc|lia].
    + by rewrite Hsrv, Hlog.
Qed.

Section ToolFilter.
Context {B : Type}.
Variable ToLower : string → string.
Variable client : MCPClient B.

(** The tools a paging loop with a deciding filter adds are the listed
    tools the filter admits, in their order. *)
Lemma pagingLoop_visitTool (c : Client) (f : FilterFunc) (P : string → bool)
    (listed : nat → LogLine) (fuel : nat) (cursor : string) (b : B) (w : World)
    (err : option error) (b' : B) (w' : World) :
  filterDecides f P →
  (∀ n, isUnknownMode (listed n) = false) →
  pagingLoop (ListTools client) listed (visitTool c f) fuel cursor b w
    = Some (err, b', w') →
  srv_Tools (mcpServer w') =
    srv_Tools (mcpServer w) ++
    filter (λ t, Is_true (P (tool_Name t)))
      (listedItems (ListTools client) fuel cursor b) ∧
  unknownModeLines (logs w') = unknownModeLines (logs w).
Proof.
  intros Hf Hlisted. revert cursor b w.
  induction fuel as [|fuel IH]; intros cursor b w; simpl; [done|].
  destruct (ListTools client cursor b) as [[page|e] b1].
  - destruct (length (Items page) =? 0).
    { intros [= <- <- <-]. by rewrite filter_nil, app_nil_r. }
    pose proof (filterDecides_visitTool c f P (Items page)
                  (logW (listed (length (Items page))) w) Hf) as [Ht Hl].
    simpl in Ht, Hl. rewrite unknownModeLines_snoc, Hlisted in Hl.
    case_bool_decide.
    + intros [= <- <- <-]. rewrite Ht, Hl. split; [done|lia].
    + intros Hrun. destruct (IH _ _ _ Hrun) as [IHt IHl].
      rewrite IHt, IHl, Ht, Hl, filter_app, app_assoc. split; [done|lia].
  - intros [= <- <- <-]. by rewrite filter_nil, app_nil_r.
Qed.

(** The filter function [addToolsToServer] builds, case by case. *)
Lemma toolFilterFunc_cases (c : Client) (w : World) :
  ∃ P, filterDecides (toolFilterFunc ToLower c w).1 P ∧
    match options c with
    | Some {| ToolFilter := Some tf |} =>
        if decide (List tf = []) then
          P = (λ _, true) ∧ (toolFilterFunc ToLower c w).2 = w
        else if decide (ToLower (Mode tf) = ToolFilterModeAllow) then
          P = (λ toolName, bool_decide (toolName ∈ List tf)) ∧
          (toolFilterFunc ToLower c w).2 = w
        else if decide (ToLower (Mode tf) = ToolFilterModeBlock) then
          P = (λ toolName, negb (bool_decide (toolName ∈ List tf))) ∧
          (toolFilterFunc ToLower c w).2 = w
        else
          P = (λ _, true) ∧
          (toolFilterFunc ToLower c w).2 =
            logW (LogUnknownMode (name c) (ToLower (Mode tf))) w
    | _ => P = (λ _, true) ∧ (toolFilterFunc ToLower c w).2 = w
    end.
Proof.
  unfold toolFilterFunc.
  destruct (options c) as [[p l a [tf|]]|]; simpl;
    try (exists (λ _, true); split; [by intros ? ?|done]).
  destruct (decide (List tf = [])) as [Hnil|Hnil].
  { rewrite Hnil. simpl. exists (λ _, true). split; [by intros ? ?|done]. }
  assert ((0 <? length (List tf)) = true) as ->.
  { apply Nat.ltb_lt. destruct (List tf); [done|simpl; lia]. }
  assert (Hset : ∀ toolName,
            bool_decide (toolName ∈ (list_to_set (List tf) : gset string))
            = bool_decide (toolName ∈ List tf)).
  { intros toolName. apply bool_decide_ext, elem_of_list_to_set. }
  destruct (decide (ToLower (Mode tf) = ToolFilterModeAllow)) as [Ha|Ha];
    [|destruct (decide (ToLower (Mode tf) = ToolFilterModeBlock)) as [Hb|Hb]].
  - rewrite (bool_decide_eq_true_2 _ Ha).
    eexists. split; [|done].
    intros toolName w0. simpl. rewrite Hset.
    split; [done|]. destruct (bool_decide (toolName ∈ List tf)); simpl; [done|].
    split; [done|]. rewrite unknownModeLines_snoc. simpl. lia.
  - rewrite (bool_decide_eq_false_2 _ Ha), (bool_decide_eq_true_2 _ Hb).
    eexists. split; [|done].
    intros toolName w0. simpl. rewrite Hset.
    split; [done|]. destruct (bool_decide (toolName ∈ List tf)); simpl; [|done].
    split; [done|]. rewrite unknownModeLines_snoc. simpl. lia.
  - rewrite (bool_decide_eq_false_2 _ Ha), (bool_decide_eq_false_2 _ Hb).
    exists (λ _, true). split; [by intros ? ?|done].
Qed.

(** A paging loop whose list call comes to an end returns. *)
Lemma pagingLoop_returns {A : Type}
    (listCall : string → B → result (Page A) * B)
    (listed : nat → LogLine) (visit : A → World → World)
    (fuel : nat) (cursor : string) (b : B) (w : World) :
  listingEndsWithin listCall fuel cursor b = true →
  ∃ err b' w', pagingLoop listCall listed visit fuel cursor b w = Some (err, b', w').
Proof.
  revert cursor b w.
  induction fuel as [|fuel IH]; intros cursor b w; simpl; [done|].
  destruct (listCall cursor b) as [[page|e] b1]; [|by eexists _, _, _].
  destruct (length (Items page) =? 0); [by eexists _, _, _|].
  case_bool_decide; [by eexists _, _, _|]. simpl. apply IH.
Qed.

(** C3.  For a client whose options carry a tool filter with a list that
    is not empty, against a backend whose tools listing comes to an end:
    [addToolsToServer] returns, and the tools it has registered are, of
    the tools the backend advertised: those whose name is in the list
    when the lowercased mode is "allow"; those whose name is not in the
    list when it is "block"; all of them for every other mode, and then
    the unknown mode is logged once.  A tool the filter rejects is not
    registered. *)
Theorem tool_filter_decides_registration (fuel : nat) (c : Client)
    (o : Options) (tf : ToolFilterConfig) (b : B) (w : World) :
  options c = Some o → ToolFilter o = Some tf → List tf ≠ [] →
  listingEndsWithin (ListTools client) fuel "" b = true →
  ∃ err b' w',
    addToolsToServer ToLower client fuel c b w = Some (err, b', w') ∧
    let advertised := listedItems (ListTools client) fuel "" b in
    let mode := ToLower (Mode tf) in
    ∃ registered,
      srv_Tools (mcpServer w') = srv_Tools (mcpServer w) ++ registered ∧
      (mode = "allow" →
         (∀ t, t ∈ registered ↔ t ∈ advertised ∧ tool_Name t ∈ List tf) ∧
         unknownModeLines (logs w') = unknownModeLines (logs w)) ∧
      (mode = "block" →
         (∀ t, t ∈ registered ↔ t ∈ advertised ∧ tool_Name t ∉ List tf) ∧
         unknownModeLines (logs w') = unknownModeLines (logs w)) ∧
      (mode ≠ "allow" → mode ≠ "block" →
         registered = advertised ∧
         unknownModeLines (logs w') = S (unknownModeLines (logs w))).
Proof.
  intros Ho Htf Hlist Hends.
  unfold addToolsToServer.
  destruct (toolFilterFunc_cases c w) as (P & HP & Hcases).
  destruct (toolFilterFunc ToLower c w) as [f w0]. simpl in HP, Hcases.
  destruct (pagingLoop_returns (ListTools client)
              (λ n, LogListed (name c) n "tools") (visitTool c f)
              fuel "" b w0 Hends) as (err & b' & w' & Hrun).
  exists err, b', w'. split; [exact Hrun|]. cbv zeta.
  set (advertised := listedItems (ListTools client) fuel "" b).
  set (mode := ToLower (Mode tf)).
  rewrite Ho in Hcases. destruct o as [p l a tfo]. simpl in Htf. subst tfo.
  rewrite decide_False in Hcases by done.
  destruct (pagingLoop_visitTool c f P (λ n, LogListed (name c) n "tools")
              fuel "" b w0 err b' w' HP (λ _, eq_refl) Hrun) as [Htools Hlog].
  fold advertised in Htools.
  exists (filter (λ t, Is_true (P (tool_Name t))) advertised).
  fold mode in Hcases. unfold ToolFilterModeAllow, ToolFilterModeBlock in Hcases.
  destruct (decide (mode = "allow")) as [Ha|Ha];
    [|destruct (decide (mode = "block")) as [Hb|Hb]];
    destruct Hcases as [-> ->]; simpl in *.
  - split; [done|]. split; [|split; [intros; congruence|done]].
    intros _. split; [|done]. intros t.
    rewrite list_elem_of_filter, bool_decide_spec. tauto.
  - split; [done|]. split; [done|]. split; [|done].
    intros _. split; [|done]. intros t.
    rewrite list_elem_of_filter. destruct (bool_decide_reflect (tool_Name t ∈ List tf));
      simpl; tauto.
  - split; [done|]. split; [done|]. split; [done|]. intros _ _.
    rewrite unknownModeLines_snoc in Hlog. simpl in Hlog.
    split; [|lia]. clear. induction advertised as [|t l IH]; [done|].
    rewrite filter_cons. simpl. by rewrite IH.
Qed.
End ToolFilter.

(* ===================================================================== *)
(** * client.go: the paging loops *)
(* ===================================================================== *)

(** One iteration of a paging loop, on the answer of its list call, for
    every client: after an answer without items, and after an answer
    with items and an empty next cursor, the loop returns without error;
    after an answer with items and a next cursor it goes on with a list
    call for that cursor. *)
Lemma pagingLoop_iteration {A B : Type}
    (listCall : string → B → result (Page A) * B)
    (listed : nat → LogLine) (visit : A → World → World)
    (fuel : nat) (cursor : string) (b b' : B) (w : World) (page : Page A) :
  listCall cursor b = (Ok page, b') →
  let w' := foldl (λ w item, visit item w)
              (logW (listed (length (Items page))) w) (Items page) in
  (Items page = [] →
     pagingLoop listCall listed visit (S fuel) cursor b w = Some (None, b', w)) ∧
  (Items page ≠ [] → NextCursor page = "" →
     pagingLoop listCall listed visit (S fuel) cursor b w = Some (None, b', w')) ∧
  (continues page →
     pagingLoop listCall listed visit (S fuel) cursor b w =
     pagingLoop listCall listed visit fuel (NextCursor page) b' w').
Proof.
  intros Hcall w'. subst w'. simpl. rewrite Hcall.
  destruct (Nat.eqb_spec (length (Items page)) 0) as [Hz|Hz].
  - apply length_zero_iff_nil in Hz.
    split; [done|]. split; [done|]. by intros [? _].
  - split; [by intros Hnil; rewrite Hnil in Hz|]. split.
    + intros _ Hnext. by rewrite bool_decide_eq_true_2 by done.
    + intros [_ Hnext]. by rewrite bool_decide_eq_false_2 by done.
Qed.

(** An error of the list call is returned as it is. *)
Lemma pagingLoop_error {A B : Type}
    (listCall : string → B → result (Page A) * B)
    (listed : nat → LogLine) (visit : A → World → World)
    (fuel : nat) (cursor : string) (b b' : B) (w : World) (e : error) :
  listCall cursor b = (Err e, b') →
  pagingLoop listCall listed visit (S fuel) cursor b w = Some (Some e, b', w).
Proof. intros Hcall. simpl. by rewrite Hcall. Qed.

(** The library's list call against a script that holds the pages
    [before], each with a next cursor, and then a page without one: it
    takes these pages from the script, asks for the chain of their
    cursors, and returns the items of all of them. *)
Lemma followCursors_pages {A : Type} (before : list (Page A)) (final : Page A)
    (rest : list (result (Page A))) (cursor : string) (reqs : list string)
    (items : list A) :
  Forall (λ page, NextCursor page ≠ "") before →
  NextCursor final = "" →
  followCursors ((Ok <$> before) ++ Ok final :: rest) cursor reqs items =
    (Ok {| Items := items ++ concat (Items <$> before) ++ Items final;
           NextCursor := "" |},
     {| pending := rest; requested := reqs ++ cursorChain cursor before |}).
Proof.
  intros Hbefore Hfinal. revert cursor reqs items.
  induction Hbefore as [|page before Hnext _ IH]; intros cursor reqs items; simpl.
  - by rewrite bool_decide_eq_true_2.
  - rewrite bool_decide_eq_false_2 by done. rewrite IH.
    unfold cursorChain. simpl. by rewrite <- !app_assoc.
Qed.

Section ScriptedPaging.
Context {A : Type}.
Variable listCall : string → Backend → result (Page A) * Backend.
Variable pages : Backend → Script A.
Variable setPages : Script A → Backend → Backend.
Hypothesis listCall_scripted : ∀ cursor b,
  listCall cursor b =
    ((scriptedList cursor (pages b)).1,
     setPages (scriptedList cursor (pages b)).2 b).
Variable listed : nat → LogLine.
Variable visit : A → World → World.

Lemma listCall_pages (before : list (Page A)) (final : Page A)
    (rest : list (result (Page A))) (reqs : list string)
    (cursor : string) (b : Backend) :
  Forall (λ page, NextCursor page ≠ "") before →
  NextCursor final = "" →
  pages b = {| pending := (Ok <$> before) ++ Ok final :: rest;
               requested := reqs |} →
  listCall cursor b =
    (Ok {| Items := concat (Items <$> before) ++ Items final; NextCursor := "" |},
     setPages {| pending := rest;
                 requested := reqs ++ cursorChain cursor before |} b).
Proof.
  intros Hbefore Hfinal Hpages.
  rewrite listCall_scripted. unfold scriptedList. rewrite Hpages. simpl.
  by rewrite (followCursors_pages before final rest cursor reqs [] Hbefore Hfinal).
Qed.

(** Against such a script the loop is over after its first list call. *)
Lemma pagingLoop_scripted (before : list (Page A)) (final : Page A)
    (rest : list (result (Page A))) (reqs : list string)
    (fuel : nat) (b : Backend) (w : World) :
  Forall (λ page, NextCursor page ≠ "") before →
  NextCursor final = "" →
  pages b = {| pending := (Ok <$> before) ++ Ok final :: rest;
               requested := reqs |} →
  0 < fuel →
  (∃ w', pagingLoop listCall listed visit fuel "" b w =
           Some (None,
                 setPages {| pending := rest;
                             requested := reqs ++ cursorChain "" before |} b,
                 w')) ∧
  listedItems listCall fuel "" b = concat (Items <$> before) ++ Items final.
Proof.
  intros Hbefore Hfinal Hpages Hfuel.
  destruct fuel as [|fuel]; [lia|]. simpl.
  rewrite (listCall_pages before final rest reqs "" b Hbefore Hfinal Hpages).
  simpl.
  destruct (Nat.eqb_spec (length (concat (Items <$> before) ++ Items final)) 0)
    as [Hz|Hz].
  - split; [by eexists|]. by apply length_zero_iff_nil in Hz.
  - split; [by eexists|done].
Qed.
End ScriptedPaging.

(** C4, on the code.  The loop of each registrar is written to end at
    the first page without items or without next cursor: it returns after
    a list call whose answer has no items, whatever the next cursor of
    the answer.  But the list call it makes is the library's, which
    follows the cursors itself.  So
    against a backend that returns pages, the paging of each of the four
    families (tools, prompts, resources, resource templates) goes past
    every page that has a next cursor, a page without items included,
    and ends at the first page without next cursor; each request is for
    the cursor the page before returned, the first one for the empty
    cursor.  Against a backend whose first tools page is empty and has
    the next cursor "p2", the page at "p2" is requested and its tool is
    registered. *)
Theorem paging_goes_past_empty_pages (ToLower : string → string) (c : Client) :
  (∀ (B : Type) (client : MCPClient B) (fuel : nat) (b b' : B) (w : World)
     (page : Page Tool),
     ListTools client "" b = (Ok page, b') → Items page = [] →
     addToolsToServer ToLower client (S fuel) c b w
     = Some (None, b', (toolFilterFunc ToLower c w).2)) ∧
  endsAtFirstPageWithoutCursor
    (λ fuel, addToolsToServer ToLower scriptedClient fuel c)
    (ListTools scriptedClient) toolPages setToolPages ∧
  endsAtFirstPageWithoutCursor
    (λ fuel, addPromptsToServer scriptedClient fuel c)
    (ListPrompts scriptedClient) promptPages setPromptPages ∧
  endsAtFirstPageWithoutCursor
    (λ fuel, addResourcesToServer scriptedClient fuel c)
    (ListResources scriptedClient) resourcePages setResourcePages ∧
  endsAtFirstPageWithoutCursor
    (λ fuel, addResourceTemplatesToServer scriptedClient fuel c)
    (ListResourceTemplates scriptedClient) templatePages setTemplatePages ∧
  ∃ b' w',
    addToolsToServer ToLower scriptedClient 1 (plainClient "github" true)
      emptyFirstBackend freshWorld = Some (None, b', w') ∧
    requested (toolPages b') = [""; "p2"] ∧
    srv_Tools (mcpServer w') = [toolC].
Proof.
  split.
  { intros B client fuel b b' w page Hcall Hitems. unfold addToolsToServer.
    destruct (toolFilterFunc ToLower c w) as [f w0]. simpl.
    by rewrite Hcall, Hitems. }
  split; [|split; [|split; [|split]]];
    try intros before final rest reqs fuel b w Hbefore Hfinal Hpages Hfuel.
  - unfold addToolsToServer. destruct (toolFilterFunc ToLower c w) as [f w0].
    apply (pagingLoop_scripted (ListTools scriptedClient) toolPages setToolPages);
      try done.
    intros cursor b0. simpl. by destruct (scriptedList cursor (toolPages b0)).
  - unfold addPromptsToServer.
    apply (pagingLoop_scripted (ListPrompts scriptedClient) promptPages
             setPromptPages); try done.
    intros cursor b0. simpl. by destruct (scriptedList cursor (promptPages b0)).
  - unfold addResourcesToServer.
    apply (pagingLoop_scripted (ListResources scriptedClient) resourcePages
             setResourcePages); try done.
    intros cursor b0. simpl. by destruct (scriptedList cursor (resourcePages b0)).
  - unfold addResourceTemplatesToServer.
    apply (pagingLoop_scripted (ListResourceTemplates scriptedClient) templatePages
             setTemplatePages); try done.
    intros cursor b0. simpl. by destruct (scriptedList cursor (templatePages b0)).
  - eexists _, _. split; [reflexivity|]. split; reflexivity.
Qed.

(* ===================================================================== *)
(** * client.go: addToMCPServer *)
(* ===================================================================== *)

Section Initialization.
Context {B : Type}.
Variable ToLower : string → string.
Variable client : MCPClient B.

(** C5.  The result of [addToMCPServer] is the error of the manual
    start, when the client needs one and it fails; else the error of
    [Initialize], when it fails; else the error of the tools
    registration, when it fails; and no error in every other case,
    whatever the registrations of prompts, resources and resource
    templates return.  So a returned result is an error exactly when
    one of the first three failed, and a backend whose tools
    registration succeeds is initialized even if the three later
    registrations fail. *)
Theorem addToMCPServer_error_sources (fuel : nat) (c : Client)
    (clientInfo : Implementation) (b : B) (w : World) :
  let started := if needManualStart c then Start client b else (None, b) in
  let initialized := Initialize client clientInfo started.2 in
  let tools :=
    addToolsToServer ToLower client fuel c initialized.2
      (logW (LogInitialized (name c)) w) in
  let run := addToMCPServer ToLower client fuel c clientInfo b w in
  (∀ e, started.1 = Some e → run = Some (Some e, started.2, w)) ∧
  (∀ e, started.1 = None → initialized.1 = Some e →
     run = Some (Some e, initialized.2, w)) ∧
  (∀ e b3 w3, started.1 = None → initialized.1 = None →
     tools = Some (Some e, b3, w3) → run = Some (Some e, b3, w3)) ∧
  (∀ b3 w3 pe b4 w4 re b5 w5 te b6 w6,
     started.1 = None → initialized.1 = None →
     tools = Some (None, b3, w3) →
     addPromptsToServer client fuel c b3 w3 = Some (pe, b4, w4) →
     addResourcesToServer client fuel c b4 w4 = Some (re, b5, w5) →
     addResourceTemplatesToServer client fuel c b5 w5 = Some (te, b6, w6) →
     run = Some (None, b6, if needPing c then forkPing (name c) w6 else w6)) ∧
  (∀ err b' w', run = Some (err, b', w') →
     (is_Some err ↔
        is_Some started.1 ∨
        (started.1 = None ∧ is_Some initialized.1) ∨
        (started.1 = None ∧ initialized.1 = None ∧
         ∃ e b3 w3, tools = Some (Some e, b3, w3)))).
Proof.
  intros started initialized tools run.
  subst run. unfold addToMCPServer, is_Some. fold started.
  destruct started as [[se|] b1] eqn:Hs; simpl in *.
  { subst initialized tools.
    repeat split; intros; simplify_eq; eauto 6. }
  fold initialized. destruct initialized as [[ie|] b2] eqn:Hi; simpl in *.
  { subst tools. repeat split; intros; simplify_eq; eauto 8. }
  fold tools. destruct tools as [[[[te|] b3] w3]|] eqn:Ht.
  - repeat split; intros; simplify_eq; eauto 12.
  - split; [done|]. split; [done|]. split; [done|]. split.
    + intros b3' w3' pe b4 w4 re b5 w5 te b6 w6 _ _ [= <- <-] Hp Hr Hrt.
      by rewrite Hp, Hr, Hrt.
    + intros err b' w' Hrun.
      destruct (addPromptsToServer client fuel c b3 w3) as [[[pe b4] w4]|];
        [|done].
      destruct (addResourcesToServer client fuel c b4 w4) as [[[re b5] w5]|];
        [|done].
      destruct (addResourceTemplatesToServer client fuel c b5 w5)
        as [[[te b6] w6]|]; [|done].
      injection Hrun as <- <- <-. split.
      * intros [e He]. discriminate.
      * intros [[e He]|[[_ [e He]]|(_ & _ & e & b7 & w7 & He)]]; discriminate.
  - repeat split; intros; simplify_eq.
Qed.
End Initialization.

(* ===================================================================== *)
(** * Runs of the model *)
(* ===================================================================== *)

(** The five outcomes of the transport inference, on configs. *)
Lemma parseMCPClientConfig_variants_run :
  parseMCPClientConfig githubConfig =
    Ok (IsStdio {| stdio_Command := "npx"; stdio_Env := ∅;
                   stdio_Args := ["-y"; "@modelcontextprotocol/server-github"] |}) ∧
  (∃ e, parseMCPClientConfig (urlBackend "stdio" "https://example.com/sse" None)
        = Err e) ∧
  parseMCPClientConfig (urlBackend "streamable-http" "https://example.com/mcp" None) =
    Ok (IsStreamable {| streamable_URL := "https://example.com/mcp";
                        streamable_Headers := ∅; streamable_Timeout := 0 |}) ∧
  parseMCPClientConfig amapConfig =
    Ok (IsSSE {| sse_URL := "https://mcp.amap.com/sse"; sse_Headers := ∅ |}) ∧
  (∃ e, parseMCPClientConfig (urlBackend "sse" "" None) = Err e).
Proof.
  split; [|split; [|split; [|split]]].
  - pose proof (parseMCPClientConfig_variants githubConfig) as (H & _).
    apply H; [left|]; discriminate.
  - pose proof (parseMCPClientConfig_variants
                  (urlBackend "stdio" "https://example.com/sse" None)) as (H & _).
    apply H; [by right|reflexivity].
  - pose proof (parseMCPClientConfig_variants
                  (urlBackend "streamable-http" "https://example.com/mcp" None))
      as (_ & H & _).
    apply H; [intros [?|?]; [done|discriminate]|discriminate|reflexivity].
  - pose proof (parseMCPClientConfig_variants amapConfig) as (_ & H & _).
    apply H; [intros [?|?]; [done|discriminate]|discriminate|discriminate].
  - pose proof (parseMCPClientConfig_variants (urlBackend "sse" "" None))
      as (_ & _ & H & _).
    apply H; [intros [?|?]; [done|discriminate]|reflexivity].
Defined.

(** Loading the example configuration: "github", without options, carries
    the three proxy-level values; "fetch", which set all three, keeps its
    own, its [logEnabled] of [false] included. *)
Lemma load_inherits_unset_options_run :
  ∃ conf',
    load (Ok exampleConfig) = Returns (Ok conf') ∧
    (∃ clientConfig' o',
       McpServers conf' !! "github" = Some (Some clientConfig') ∧
       client_Options clientConfig' = Some o' ∧
       AuthTokens o' = Some ["DefaultTokens"] ∧
       PanicIfInvalid o' = Some false ∧ LogEnabled o' = Some true) ∧
    (∃ clientConfig' o',
       McpServers conf' !! "fetch" = Some (Some clientConfig') ∧
       client_Options clientConfig' = Some o' ∧
       AuthTokens o' = Some ["SpecificTokens"] ∧
       PanicIfInvalid o' = Some true ∧ LogEnabled o' = Some false).
Proof.
  eexists. split; [vm_compute; reflexivity|].
  destruct (load_inherits_unset_options (Ok exampleConfig) _
              ltac:(vm_compute; reflexivity))
    as (conf & proxy & proxyOptions & Hconf & Hproxy & _ & -> & _ & Hall).
  injection Hconf as <-. injection Hproxy as <-.
  split.
  - destruct (Hall "github" githubConfig eq_refl)
      as (cc & o' & Hlook & Ho & Ha & Hp & Hl & _).
    exists cc, o'. split; [exact Hlook|]. split; [exact Ho|].
    split; [exact (Ha eq_refl)|]. split; [exact (Hp eq_refl)|exact (Hl eq_refl)].
  - destruct (Hall "fetch" fetchConfig eq_refl)
      as (cc & o' & Hlook & Ho & _ & _ & _ & Ha & Hp & Hl).
    exists cc, o'. split; [exact Hlook|]. split; [exact Ho|].
    split; [exact (Ha _ eq_refl)|].
    split; [exact (Hp _ eq_refl)|exact (Hl _ eq_refl)].
Defined.

(** Loading the example configuration leaves no options nil. *)
Lemma load_options_never_nil_run :
  ∃ conf',
    load (Ok exampleConfig) = Returns (Ok conf') ∧
    (∃ proxy o, McpProxy conf' = Some proxy ∧ proxy_Options proxy = Some o) ∧
    ∃ clientConfig o,
      McpServers conf' !! "github" = Some (Some clientConfig) ∧
      client_Options clientConfig = Some o ∧
      (∃ server,
         newMCPServer "github" "1.0.0" "https://mcp.example.com" clientConfig
         = Returns server) ∧
      (∃ r, startHTTPServer_backend "" "github" clientConfig okHandler
              (Some (errors_New "connection refused")) [] = Returns r).
Proof.
  eexists. split; [vm_compute; reflexivity|].
  destruct (load_options_never_nil (Ok exampleConfig) _
              ltac:(vm_compute; reflexivity)) as [Hproxy Hall].
  split; [exact Hproxy|].
  destruct (Hall "github" _ ltac:(vm_compute; reflexivity))
    as (cc & o & Hentry & Ho & Hnew & Hstart).
  exists cc, o. split; [by rewrite <- Hentry|]. split; [exact Ho|].
  split; [apply Hnew|apply Hstart].
Defined.

(** Loading the example configuration: "amap", whose token list is
    present and empty, does not get the proxy-level token, and its route
    hands a request without credentials to the SSE handler. *)
Lemma empty_authTokens_not_inherited_run :
  ∃ conf',
    load (Ok exampleConfig) = Returns (Ok conf') ∧
    McpServers exampleConfig !! "amap" = Some (Some amapConfig) ∧
    (∃ o, client_Options amapConfig = Some o ∧ AuthTokens o = Some []) ∧
    ∃ clientConfig' o' mount log',
      McpServers conf' !! "amap" = Some (Some clientConfig') ∧
      client_Options clientConfig' = Some o' ∧ AuthTokens o' = Some [] ∧
      startHTTPServer_backend "" "amap" clientConfig' okHandler None []
      = Returns (None, Some mount, log') ∧
      mount_Handler mount plainRequest noExchange =
        recoverMiddleware "amap" okHandler plainRequest
          (if OrElse (LogEnabled o') false
           then logPrintf (LogRequest "amap" "GET" "/fetch/") noExchange
           else noExchange).
Proof.
  eexists. split; [vm_compute; reflexivity|].
  split; [reflexivity|]. split; [by eexists|].
  destruct (empty_authTokens_not_inherited exampleConfig _ "amap" amapConfig _
              ltac:(vm_compute; reflexivity) eq_refl eq_refl eq_refl)
    as (cc & o' & Hlook & Ho & Ha & _ & _ & Hmount).
  destruct (Hmount "" okHandler []) as (mount & log' & Hstart & Hhandler).
  exists cc, o', mount, log'.
  split; [exact Hlook|]. split; [exact Ho|]. split; [exact Ha|].
  split; [exact Hstart|apply Hhandler].
Defined.

(** The backend advertises [a], [b] on one page and [c] on the next; with
    the filter mode "Allow" and the list [a], [c], the registration
    returns and the tools registered are those of the advertised ones
    whose name is in the list. *)
Lemma tool_filter_decides_registration_run :
  options (filteringClient "Allow" ["a"; "c"])
    = Some (filterOptions "Allow" ["a"; "c"]) ∧
  ToolFilter (filterOptions "Allow" ["a"; "c"])
    = Some {| Mode := "Allow"; List := ["a"; "c"] |} ∧
  ["a"; "c"] ≠ [] ∧
  listingEndsWithin (ListTools scriptedClient) 3 "" exampleBackend = true ∧
  asciiToLower "Allow" = "allow" ∧
  ∃ err b' w',
    addToolsToServer asciiToLower scriptedClient 3
      (filteringClient "Allow" ["a"; "c"]) exampleBackend freshWorld
      = Some (err, b', w') ∧
    ∃ registered,
      srv_Tools (mcpServer w') = srv_Tools (mcpServer freshWorld) ++ registered ∧
      ∀ t, t ∈ registered ↔
           t ∈ listedItems (ListTools scriptedClient) 3 "" exampleBackend ∧
           tool_Name t ∈ ["a"; "c"].
Proof.
  split; [reflexivity|]. split; [reflexivity|]. split; [discriminate|].
  split; [reflexivity|]. split; [reflexivity|].
  destruct (tool_filter_decides_registration asciiToLower scriptedClient 3
              (filteringClient "Allow" ["a"; "c"]) _ _ exampleBackend freshWorld
              eq_refl eq_refl ltac:(discriminate) eq_refl)
    as (err & b' & w' & Hrun & registered & Htools & Hallow & _).
  exists err, b', w'. split; [exact Hrun|].
  exists registered. split; [exact Htools|]. exact (proj1 (Hallow eq_refl)).
Defined.

(** The tools listing of the example backend: the first page has the
    next cursor "p2", the second has none; the pages up to the second
    are taken, the requests are for the empty cursor and for "p2", the
    third page stays in the script.  And the listing of the backend whose
    first page is empty: the page at "p2" is taken all the same. *)
Lemma paging_goes_past_empty_pages_run :
  Forall (λ page : Page Tool, NextCursor page ≠ "") [toolPage1] ∧
  NextCursor toolPage2 = "" ∧
  toolPages exampleBackend =
    {| pending := (Ok <$> [toolPage1]) ++ Ok toolPage2 :: [Ok toolPage3];
       requested := [] |} ∧
  (∃ w', addToolsToServer asciiToLower scriptedClient 1
           (filteringClient "allow" ["a"; "c"]) exampleBackend freshWorld
         = Some (None,
                 setToolPages {| pending := [Ok toolPage3];
                                 requested := [""; "p2"] |} exampleBackend,
                 w')) ∧
  listedItems (ListTools scriptedClient) 1 "" exampleBackend
  = [toolA; toolB; toolC] ∧
  Items emptyToolPage = [] ∧
  listedItems (ListTools scriptedClient) 1 "" emptyFirstBackend = [toolC].
Proof.
  assert (H1 : Forall (λ page : Page Tool, NextCursor page ≠ "") [toolPage1]).
  { constructor; [discriminate|constructor]. }
  assert (H2 : Forall (λ page : Page Tool, NextCursor page ≠ "") [emptyToolPage]).
  { constructor; [discriminate|constructor]. }
  split; [exact H1|]. split; [reflexivity|]. split; [reflexivity|].
  destruct (paging_goes_past_empty_pages asciiToLower
              (filteringClient "allow" ["a"; "c"])) as (_ & Htools & _).
  destruct (Htools [toolPage1] toolPage2 [Ok toolPage3] [] 1 exampleBackend
              freshWorld H1 eq_refl eq_refl ltac:(lia)) as [Hrun Hlisted].
  split; [exact Hrun|]. split; [exact Hlisted|]. split; [reflexivity|].
  exact (proj2 (Htools [emptyToolPage] toolPage2 [] [] 1 emptyFirstBackend
                  freshWorld H2 eq_refl eq_refl ltac:(lia))).
Defined.

(** Initializing against the example backend: the start, [Initialize] and
    the tools registration succeed, the prompt listing fails, and the
    result is no error. *)
Lemma addToMCPServer_error_sources_run :
  ∃ b' w',
    addToMCPServer asciiToLower scriptedClient 3
      (filteringClient "allow" ["a"; "c"]) proxyInfo exampleBackend freshWorld
    = Some (None, b', w') ∧
    (∃ e b4 w4 b3 w3,
       addToolsToServer asciiToLower scriptedClient 3
         (filteringClient "allow" ["a"; "c"]) exampleBackend
         (logW (LogInitialized "github") freshWorld) = Some (None, b3, w3) ∧
       addPromptsToServer scriptedClient 3
         (filteringClient "allow" ["a"; "c"]) b3 w3 = Some (Some e, b4, w4)) ∧
    srv_Tools (mcpServer w') = [toolA; toolC] ∧
    pingTasks w' = ["github"].
Proof.
  pose proof (addToMCPServer_error_sources asciiToLower scriptedClient 3
                (filteringClient "allow" ["a"; "c"]) proxyInfo exampleBackend
                freshWorld) as (_ & _ & _ & Hok & _).
  eexists _, _. split; [|split].
  - eapply Hok; try reflexivity; vm_compute; reflexivity.
  - eexists _, _, _, _, _. split; vm_compute; reflexivity.
  - split; reflexivity.
Defined.

(** The backend "github" under the base path "/api" is mounted at
    "/api/github/" on a mux that takes the route; a backend named
    "my server" is not mounted on a mux that refuses a space: the
    function panics.  And the routes for some base paths and names: with
    and without a "/" at the end of the base path, with an empty base
    path, with a base path of two elements, with a relative base path
    and a name of two elements, with both empty, and with a ".."
    element. *)
Lemma mounted_route_normalized_run :
  client_Options fetchConfig ≠ None ∧
  startHTTPServer_mount takesAll "/api" "github" fetchConfig okHandler None [] []
  = Returns (None,
             [{| mount_Route := "/api/github/";
                 mount_Handler :=
                   chainMiddleware okHandler
                     (routeMiddlewares "github" (ownOptions fetchConfig)) |}],
             [LogConnected "github"]) ∧
  startHTTPServer_mount refusesSpace "" "my server" fetchConfig okHandler None [] []
  = Panics "invalid method" ∧
  mcpRoute "/api/" "github" = "/api/github/" ∧
  mcpRoute "" "github" = "/github/" ∧
  mcpRoute "/api/v1" "github" = "/api/v1/github/" ∧
  mcpRoute "api" "a/b" = "/api/a/b/" ∧
  mcpRoute "" "" = "/" ∧
  path_Join ["/a/../b"; "x"] = path_Clean "/a/../b/x" ∧
  mcpRoute "/a/../b" "x" = "/b/x/".
Proof.
  assert (H : ∀ refuses basePath name,
            let joined := path_Join [basePath; name] in
            let route := mcpRoute basePath name in
            startHTTPServer_mount refuses basePath name fetchConfig okHandler
              None [] [] =
              match refuses [] route with
              | Some v => Panics v
              | None =>
                  Returns (None,
                           [{| mount_Route := route;
                               mount_Handler :=
                                 chainMiddleware okHandler
                                   (routeMiddlewares name (ownOptions fetchConfig)) |}],
                           [LogConnected name])
              end ∧
            (basePath ≠ "" → joined = path_Clean (basePath +:+ "/" +:+ name)) ∧
            (plainPath basePath = true → plainPath name = true →
               route = "/" +:+ slashed (elements basePath ++ elements name))).
  { intros refuses basePath name.
    pose proof (mounted_route_normalized refuses [] basePath name fetchConfig
                  (ownOptions fetchConfig) okHandler [] eq_refl) as Hroute.
    cbv zeta in Hroute.
    destruct Hroute as (Hmount & _ & _ & _ & _ & _ & Hjoin & Hplain).
    split; [exact Hmount|]. split; [exact Hjoin|exact Hplain]. }
  split; [discriminate|].
  split; [exact (proj1 (H takesAll "/api" "github"))|].
  split; [exact (proj1 (H refusesSpace "" "my server"))|].
  split; [exact (proj2 (proj2 (H takesAll "/api/" "github")) eq_refl eq_refl)|].
  split; [exact (proj2 (proj2 (H takesAll "" "github")) eq_refl eq_refl)|].
  split; [exact (proj2 (proj2 (H takesAll "/api/v1" "github")) eq_refl eq_refl)|].
  split; [exact (proj2 (proj2 (H takesAll "api" "a/b")) eq_refl eq_refl)|].
  split; [exact (proj2 (proj2 (H takesAll "" "")) eq_refl eq_refl)|].
  split; [|reflexivity].
  apply (proj1 (proj2 (H takesAll "/a/../b" "x"))). discriminate.
Defined.

(** [path.Clean] and [path.Join] on the cases of Go's documentation, and
    the string helpers on some inputs. *)
Example path_Clean_runs :
  path_Clean "abc//def//ghi" = "abc/def/ghi" ∧
  path_Clean "abc/./../def" = "def" ∧
  path_Clean "../../abc" = "../../abc" ∧
  path_Clean "/../abc" = "/abc" ∧
  path_Clean "abc/def/../../.." = ".." ∧
  path_Clean "abc/" = "abc" ∧
  path_Clean "/" = "/" ∧
  path_Clean "" = ".".
Proof. repeat split. Qed.

Example path_Join_runs :
  path_Join ["a"; ""] = "a" ∧
  path_Join [""; ""] = "" ∧
  path_Join [""; "github"] = "github" ∧
  path_Join ["/api/"; "github"] = "/api/github" ∧
  path_Join ["/"; ""] = "/".
Proof. repeat split. Qed.

Example TrimSpace_runs :
  TrimSpace (TrimPrefix "Bearer  abc  " "Bearer ") = "abc" ∧
  TrimSpace (TrimPrefix "Basic abc" "Bearer ") = "Basic abc" ∧
  TrimSpace (TrimPrefix "" "Bearer ") = "" ∧
  asciiToLower "BLOCK" = "block".
Proof. repeat split. Qed.

(** [TrimSpace] trims every white space code point on both sides and
    leaves what is between, white space included; the zero width space
    U+200B, a byte C2 without its second byte and a byte A0 on its own
    are not white space. *)
Example TrimSpace_unicode :
  TrimSpace (whiteSpace +:+ "a" +:+ whiteSpace +:+ "b" +:+ whiteSpace)
  = "a" +:+ whiteSpace +:+ "b" ∧
  TrimSpace whiteSpace = "" ∧
  TrimSpace (utf8 [226; 128; 139] +:+ "a" +:+ utf8 [226; 128; 139])
  = utf8 [226; 128; 139] +:+ "a" +:+ utf8 [226; 128; 139] ∧
  TrimSpace (utf8 [194] +:+ "a" +:+ utf8 [194]) = utf8 [194] +:+ "a" +:+ utf8 [194] ∧
  TrimSpace (utf8 [160] +:+ "a" +:+ utf8 [160]) = utf8 [160] +:+ "a" +:+ utf8 [160].
Proof. repeat split. Qed.

(** With the filter mode "block", [a] and [c] are kept out; with a mode
    that is neither, all three tools are registered and one unknown-mode
    line is logged. *)
Example addToolsToServer_runs :
  (∃ b' w',
     addToolsToServer asciiToLower scriptedClient 3
       (filteringClient "BLOCK" ["a"; "c"]) exampleBackend freshWorld
     = Some (None, b', w') ∧
     srv_Tools (mcpServer w') = [toolB] ∧
     logs w' = [LogListed "github" 3 "tools";
                LogInBlockList "github" "a";
                LogAdding "github" "tool" "b";
                LogInBlockList "github" "c"]) ∧
  (∃ b' w',
     addToolsToServer asciiToLower scriptedClient 3
       (filteringClient "deny" ["a"; "c"]) exampleBackend freshWorld
     = Some (None, b', w') ∧
     srv_Tools (mcpServer w') = [toolA; toolB; toolC] ∧
     unknownModeLines (logs w') = 1).
Proof. split; eexists _, _; repeat split. Qed.

(* ===================================================================== *)
(** * config.go: more on the loader *)
(* ===================================================================== *)

(** X1.  [load] returns an error in two cases only: the error of
    [confstore.Load], as it is, and "mcpProxy is required" for a parsed
    config without proxy section.  It panics in one case only: a proxy
    section is there and a backend entry is nil. *)
Theorem load_error_cases (loaded : result Config) :
  (∀ e, load loaded = Returns (Err e) ↔
        loaded = Err e ∨
        (e = errors_New "mcpProxy is required" ∧
         ∃ conf, loaded = Ok conf ∧ McpProxy conf = None)) ∧
  (∀ v, load loaded = Panics v ↔
        v = nil_dereference ∧
        ∃ conf proxy name,
          loaded = Ok conf ∧ McpProxy conf = Some proxy ∧
          McpServers conf !! name = Some None).
Proof.
  unfold load. destruct loaded as [conf|e0].
  - destruct (McpProxy conf) as [proxy|] eqn:Hp.
    + case_bool_decide as Hall.
      * split; [intros e|intros v]; split; try discriminate.
        -- intros [?|[_ (c & [= <-] & ?)]]; congruence.
        -- intros [_ (c & p & n & [= <-] & _ & Hnil)].
           destruct (Hall _ _ Hnil) as [? ?]. discriminate.
      * split; [intros e|intros v]; split; try discriminate.
        -- intros [?|[_ (c & [= <-] & ?)]]; congruence.
        -- intros [= <-]. split; [done|].
           apply map_not_Forall in Hall; [|apply _].
           destruct Hall as (n & x & Hlook & Hx). exists conf, proxy, n.
           repeat split; try done. destruct x; [|done].
           destruct Hx. by eexists.
        -- by intros [-> _].
    + split; [intros e|intros v]; split; try discriminate.
      * intros [= <-]. right. split; [done|]. by exists conf.
      * by intros [?|[-> _]].
      * intros [_ (c & p & n & [= <-] & ? & _)]. congruence.
  - split; [intros e|intros v]; split; try discriminate.
    + intros [= <-]. by left.
    + intros [[= <-]|[_ (c & ? & _)]]; [done|discriminate].
    + intros [_ (c & p & n & ? & _)]. discriminate.
Qed.

Lemma inheritOptions_idemp (proxyOptions : Options) (clientConfig : MCPClientConfig) :
  inheritOptions proxyOptions (inheritOptions proxyOptions clientConfig)
  = inheritOptions proxyOptions clientConfig.
Proof.
  unfold inheritOptions, setClientOptions. simpl.
  destruct (client_Options clientConfig) as [[p l a f]|]; simpl.
  - destruct a as [a|], p as [p|], l as [l|], proxyOptions as [pp pl pa pf];
      simpl; destruct pa, pp, pl; reflexivity.
  - destruct proxyOptions as [pp pl pa pf]; simpl; destruct pa, pp, pl; reflexivity.
Qed.

(** X2.  Loading is idempotent: a config [load] returned is returned as
    it is when it is loaded again. *)
Theorem load_idempotent (loaded : result Config) (conf' : Config) :
  load loaded = Returns (Ok conf') →
  load (Ok conf') = Returns (Ok conf').
Proof.
  intros Hload.
  destruct (load_returns_inv _ _ Hload) as (conf & proxy & _ & _ & Hall & Hp' & Hs).
  destruct conf' as [proxy' servers']. simpl in Hp', Hs. subst proxy' servers'.
  unfold load. simpl.
  rewrite bool_decide_eq_true_2.
  - f_equal. f_equal. f_equal.
    rewrite <- map_fmap_compose. apply map_fmap_ext.
    intros name [c|] _; simpl; [|done]. by rewrite inheritOptions_idemp.
  - apply map_Forall_fmap. intros name x Hx.
    destruct (Hall _ _ Hx) as [c ->]. by eexists.
Qed.

Lemma inheritOptions_fields (proxyOptions : Options) (clientConfig : MCPClientConfig) :
  let c' := inheritOptions proxyOptions clientConfig in
  TransportType c' = TransportType clientConfig ∧
  Command c' = Command clientConfig ∧ Args c' = Args clientConfig ∧
  Env c' = Env clientConfig ∧ URL c' = URL clientConfig ∧
  Headers c' = Headers clientConfig ∧ Timeout c' = Timeout clientConfig.
Proof. by repeat split. Qed.

(** X3.  [load] leaves the backends and their transports as they are: the
    loaded config has the backend names of the parsed one, and the
    transport variant (or the error) inferred for a loaded backend is the
    one inferred for the backend as it was parsed. *)
Theorem load_keeps_transport (loaded : result Config) (conf' : Config) :
  load loaded = Returns (Ok conf') →
  ∃ conf,
    loaded = Ok conf ∧
    dom (McpServers conf') = dom (McpServers conf) ∧
    ∀ name clientConfig',
      McpServers conf' !! name = Some (Some clientConfig') →
      ∃ clientConfig,
        McpServers conf !! name = Some (Some clientConfig) ∧
        parseMCPClientConfig clientConfig' = parseMCPClientConfig clientConfig.
Proof.
  intros Hload.
  destruct (load_returns_inv _ _ Hload) as (conf & proxy & -> & _ & _ & _ & Hs).
  exists conf. split; [done|]. split; [rewrite Hs; apply dom_fmap_L|].
  intros name cc' Hlook.
  destruct (load_returns_lookup _ _ _ _ Hload Hlook)
    as (conf0 & proxy0 & cc & [= <-] & _ & Hraw & [= ->]).
  exists cc. split; [done|].
  unfold parseMCPClientConfig.
  by destruct (inheritOptions_fields (proxyLevel proxy0) cc)
    as (-> & -> & -> & -> & -> & -> & ->).
Qed.

(** X4.  The tool filter is not inherited: after [load], the tool filter
    of a backend is the one of its own options, and none when it has
    none, whatever tool filter the proxy-level options carry. *)
Theorem load_never_inherits_toolFilter (loaded : result Config) (conf' : Config)
    (name : string) (clientConfig' : MCPClientConfig) :
  load loaded = Returns (Ok conf') →
  McpServers conf' !! name = Some (Some clientConfig') →
  ∃ conf clientConfig o',
    loaded = Ok conf ∧
    McpServers conf !! name = Some (Some clientConfig) ∧
    client_Options clientConfig' = Some o' ∧
    ToolFilter o' = ToolFilter (ownOptions clientConfig).
Proof.
  intros Hload Hlook.
  destruct (load_returns_lookup _ _ _ _ Hload Hlook)
    as (conf & proxy & cc & -> & _ & Hraw & [= ->]).
  destruct (inheritOptions_options (proxyLevel proxy) cc)
    as (o' & Ho' & _ & _ & _ & Hf).
  by exists conf, cc, o'.
Qed.

(* ===================================================================== *)
(** * The HTTP file: more on the middlewares and the mounted handler *)
(* ===================================================================== *)

Lemma routeMiddlewares_cases (name : string) (o : Options) :
  routeMiddlewares name o =
    [recoverMiddleware name]
    ++ (if OrElse (LogEnabled o) false then [loggerMiddleware name] else [])
    ++ (if 0 <? len (AuthTokens o) then [newAuthMiddleware (AuthTokens o)] else []).
Proof.
  unfold routeMiddlewares.
  by destruct (OrElse (LogEnabled o) false), (0 <? len (AuthTokens o)).
Qed.

(** The handler of a route without its auth layer: the request line is
    logged when logging is on, then the SSE handler runs under the
    recover middleware. *)
Lemma chainMiddleware_route (name : string) (o : Options) (sse : Handler)
    (r : Request) (x : Exchange) :
  let inner :=
    recoverMiddleware name sse r
      (if OrElse (LogEnabled o) false
       then logPrintf (LogRequest name (Method r) (URL_Path r)) x
       else x) in
  chainMiddleware sse (routeMiddlewares name o) r x =
    if 0 <? len (AuthTokens o)
    then newAuthMiddleware (AuthTokens o)
           (λ r x, recoverMiddleware name sse r
                     (if OrElse (LogEnabled o) false
                      then logPrintf (LogRequest name (Method r) (URL_Path r)) x
                      else x)) r x
    else inner.
Proof.
  rewrite routeMiddlewares_cases. unfold chainMiddleware.
  by destruct (OrElse (LogEnabled o) false), (0 <? len (AuthTokens o)).
Qed.

(** X5.  No handler the proxy mounts ends in a panic: whatever the
    backend's SSE handler does on a request, panic included, and
    whatever the options, the mounted handler returns. *)
Theorem mounted_handler_never_panics (basePath name : string)
    (clientConfig : MCPClientConfig) (sse : Handler) (addErr : option error)
    (log log' : list LogLine) (err : option error) (mount : Mount) :
  startHTTPServer_backend basePath name clientConfig sse addErr log
  = Returns (err, Some mount, log') →
  ∀ r x, (mount_Handler mount r x).1 = Normal.
Proof.
  unfold startHTTPServer_backend.
  destruct addErr as [e|], (client_Options clientConfig) as [o|];
    try discriminate; [by destruct (OrElse (PanicIfInvalid o) false)|].
  intros [= <- <- <-] r x. simpl. rewrite chainMiddleware_route.
  assert (Hrec : ∀ r x, (recoverMiddleware name sse r x).1 = Normal).
  { intros r0 x0. unfold recoverMiddleware. by destruct (sse r0 x0) as [[|v] x']. }
  destruct (0 <? len (AuthTokens o)); [|apply Hrec].
  unfold newAuthMiddleware.
  destruct (negb (len (AuthTokens o) =? 0)); [|apply Hrec].
  repeat case_bool_decide; simpl; try done; apply Hrec.
Qed.

(** X6.  The handler the proxy builds for the route of a backend with
    tokens: a request whose [Authorization] header, without its "Bearer "
    prefix and trimmed of white space, is empty or not a token is
    answered by one 401 with the body "Unauthorized" and a line feed,
    and nothing else: the SSE handler is not run and no line is logged,
    logging on or off.  Every other request is handled as on a route
    without tokens. *)
Theorem mounted_handler_with_tokens (basePath name : string)
    (clientConfig : MCPClientConfig) (o : Options) (sse : Handler)
    (log : list LogLine) (r : Request) (x : Exchange) :
  client_Options clientConfig = Some o →
  0 < len (AuthTokens o) →
  ∃ mount log',
    startHTTPServer_backend basePath name clientConfig sse None log
    = Returns (None, Some mount, log') ∧
    let token :=
      TrimSpace (TrimPrefix (Header_Get (Header r) "Authorization") "Bearer ") in
    (token = "" ∨ token ∉ elems (AuthTokens o) →
       mount_Handler mount r x
       = (Normal, {| written := written x ++ [(401, "Unauthorized" +:+ LF)];
                     logged := logged x |})) ∧
    (token ≠ "" → token ∈ elems (AuthTokens o) →
       mount_Handler mount r x
       = recoverMiddleware name sse r
           (if OrElse (LogEnabled o) false
            then logPrintf (LogRequest name (Method r) (URL_Path r)) x
            else x)).
Proof.
  intros Ho Hlen. unfold startHTTPServer_backend. rewrite Ho.
  eexists _, _. split; [reflexivity|]. simpl.
  rewrite chainMiddleware_route.
  assert ((0 <? len (AuthTokens o)) = true) as -> by by apply Nat.ltb_lt.
  match goal with
  | |- context [newAuthMiddleware _ ?next r x] =>
      destruct (newAuthMiddleware_cases (AuthTokens o) next r x)
        as (_ & Hbad & Hok)
  end.
  split.
  - intros Htoken. rewrite Hbad; [done|lia|done].
  - intros Hne Hin. rewrite Hok; [done|lia|done|done].
Qed.

(* ===================================================================== *)
(** * The route of a backend with a simple name *)
(* ===================================================================== *)

Lemma path_Clean_simple (name : string) :
  simpleName name → path_Clean name = name ∧ path_Clean ("//" +:+ name) = "/" +:+ name.
Proof.
  intros (Hne & Hs & Hdot & Hdots).
  assert (Helem : ∀ rooted, cleanElem rooted [] name = [name]).
  { intros rooted. unfold cleanElem.
    by rewrite !bool_decide_eq_false_2 by done. }
  unfold path_Clean. split.
  - rewrite <- (app_empty_r name) at 1 2. rewrite (HasPrefix_noSlash name "") by done.
    rewrite app_empty_r, (splitSlash_noSlash name Hs). simpl. rewrite Helem. simpl.
    by rewrite bool_decide_eq_false_2.
  - change ("//" +:+ name) with (String "/" (String "/" name)).
    cbn [HasPrefix splitSlash]. rewrite !decide_True by done.
    rewrite (splitSlash_noSlash name Hs). simpl. by rewrite Helem.
Qed.

(** X8.  For a backend whose name is one path element (not empty,
    without "/", neither "." nor ".."), the route the proxy builds, the
    pattern it hands to [httpMux.Handle], is "/name/" when the path of
    the base URL is empty and when it is "/"; so two such backends with
    different names are given different routes.  (Whether the mux takes
    the route is another matter.) *)
Theorem mcpRoute_simple_name (name : string) :
  simpleName name →
  mcpRoute "" name = "/" +:+ name +:+ "/" ∧
  mcpRoute "/" name = "/" +:+ name +:+ "/" ∧
  ∀ name', simpleName name' → mcpRoute "" name = mcpRoute "" name' → name = name'.
Proof.
  intros Hname.
  assert (Hroute : ∀ n, simpleName n →
            mcpRoute "" n = "/" +:+ n +:+ "/" ∧ mcpRoute "/" n = "/" +:+ n +:+ "/").
  { intros n Hn. pose proof Hn as (Hne & Hs & _).
    destruct (path_Clean_simple n Hn) as [Hc Hcc].
    assert (Hj0 : path_Join [""; n] = n).
    { unfold path_Join. simpl. by rewrite bool_decide_eq_false_2 by done. }
    assert (Hj1 : path_Join ["/"; n] = "/" +:+ n).
    { unfold path_Join. simpl. exact Hcc. }
    assert (Hp : HasPrefix n "/" = false).
    { rewrite <- (app_empty_r n). by apply HasPrefix_noSlash. }
    unfold mcpRoute. rewrite Hj0, Hj1, Hp. cbn [negb].
    rewrite (HasPrefix_cat "/" n). cbn [negb].
    pose proof (HasSuffix_noSlash n "/" Hne Hs) as Hsuf.
    split.
    - rewrite Hsuf. cbn [negb]. by rewrite app_assoc_s.
    - change (String.append "/" n) with ("/" +:+ n). rewrite Hsuf. cbn [negb].
      by rewrite app_assoc_s. }
  destruct (Hroute name Hname) as [H1 H2]. split; [done|]. split; [done|].
  intros name' Hname'. destruct (Hroute name' Hname') as [H1' _].
  rewrite H1, H1'. intros Heq.
  apply (inj (String.app "/")) in Heq.
  apply (f_equal String.rev) in Heq. rewrite !rev_cat in Heq.
  apply (inj (String.app (String.rev "/"))) in Heq.
  by rewrite <- (rev_involutive_s name), Heq, rev_involutive_s.
Qed.

(* ===================================================================== *)
(** * The adapter's HTTP server: its two helpers *)
(* ===================================================================== *)

(** X9.  The two [chainMiddleware] helpers are mirror images: the
    adapter's helper on a list of middlewares builds the handler the
    proxy's helper builds on the reversed list, so in the adapter the
    first middleware of the list is the outermost. *)
Theorem adapter_chainMiddleware_reverses (h : Handler)
    (middlewares : list MiddlewareFunc) :
  adapter_chainMiddleware h middlewares = chainMiddleware h (rev middlewares) ∧
  ∀ mw, adapter_chainMiddleware h (mw :: middlewares)
        = mw (adapter_chainMiddleware h middlewares).
Proof.
  split; [|done]. unfold adapter_chainMiddleware, chainMiddleware.
  induction middlewares as [|mw mws IH]; simpl; [done|].
  rewrite foldl_app. simpl. by rewrite IH.
Qed.

Lemma TrimPrefix_cat (p s : string) : TrimPrefix (p +:+ s) p = s.
Proof.
  unfold TrimPrefix. assert (cutPrefix (p +:+ s) p = Some s) as ->; [|done].
  induction p as [|a p IH]; [done|].
  rewrite app_String. simpl. by rewrite decide_True.
Qed.

Lemma HasPrefix_cutPrefix (s p : string) :
  HasPrefix s p = true → ∃ rest, cutPrefix s p = Some rest ∧ s = p +:+ rest.
Proof.
  revert s. induction p as [|a p IH]; intros s; [by exists s|].
  destruct s as [|c s]; simpl; [done|].
  case_decide as Hac; [|done]. subst c. intros Hp.
  destruct (IH s Hp) as (rest & -> & ->). by exists rest.
Qed.

Lemma HasPrefix_TrimPrefix (s p : string) :
  HasPrefix s p = true → s = p +:+ TrimPrefix s p.
Proof.
  intros Hp. unfold TrimPrefix.
  by destruct (HasPrefix_cutPrefix s p Hp) as (rest & -> & ->).
Qed.

(** X10.  The auth middleware of the adapter's server, on every request:
    with tokens, the request is handed on exactly when its
    [Authorization] header is "Bearer " followed by one of the tokens,
    byte for byte, and is answered by one 401 without running the next
    handler otherwise; without tokens every request is handed on. *)
Theorem adapter_newAuthMiddleware_cases (tokens : option (list string))
    (next : Handler) (r : Request) (x : Exchange) :
  let authHeader := Header_Get (Header r) "Authorization" in
  (len tokens = 0 → adapter_newAuthMiddleware tokens next r x = next r x) ∧
  (len tokens ≠ 0 →
     (∃ token, token ∈ elems tokens ∧ authHeader = "Bearer " +:+ token) →
     adapter_newAuthMiddleware tokens next r x = next r x) ∧
  (len tokens ≠ 0 →
     ¬ (∃ token, token ∈ elems tokens ∧ authHeader = "Bearer " +:+ token) →
     ∃ msg, adapter_newAuthMiddleware tokens next r x
            = (Normal, {| written := written x ++ [(401, msg)];
                          logged := logged x |})).
Proof.
  intros authHeader. unfold adapter_newAuthMiddleware. fold authHeader.
  destruct (Nat.eqb_spec (len tokens) 0) as [Hz|Hz]; [by repeat split|].
  split; [done|]. split; intros _.
  - intros (token & Hin & ->).
    rewrite bool_decide_eq_false_2 by done.
    rewrite HasPrefix_cat, TrimPrefix_cat. simpl.
    by rewrite bool_decide_eq_true_2.
  - intros Hno. case_bool_decide; [by eexists|].
    destruct (HasPrefix authHeader "Bearer ") eqn:Hp; simpl; [|by eexists].
    case_bool_decide as Hin; simpl; [|by eexists].
    destruct Hno. exists (TrimPrefix authHeader "Bearer ").
    split; [done|]. by apply HasPrefix_TrimPrefix.
Qed.

(* ===================================================================== *)
(** * client.go: more on the registrars *)
(* ===================================================================== *)

(** X11.  [newMCPClient] fails with the error of the transport inference
    before any constructor of the library is called with it, and a client
    it returns carries the given name and the options of the config; it
    needs a manual start exactly when it needs pings, and it needs
    neither exactly when the config has a command (the stdio variant). *)
Theorem newMCPClient_flags {B : Type} (lib : ClientLibrary B) (name0 : string)
    (conf : MCPClientConfig) :
  (∀ e, parseMCPClientConfig conf = Err e → newMCPClient lib name0 conf = Err e) ∧
  (∀ c b, newMCPClient lib name0 conf = Ok (c, b) →
     name c = name0 ∧ options c = client_Options conf ∧
     needManualStart c = needPing c ∧
     (needPing c = false ↔ Command conf ≠ "")).
Proof.
  split.
  - intros e He. unfold newMCPClient. by rewrite He.
  - intros c b. unfold newMCPClient, parseMCPClientConfig.
    destruct (decide (Command conf = "")) as [Hc|Hc].
    + rewrite (bool_decide_eq_true_2 _ Hc).
      rewrite (bool_decide_eq_false_2 (Command conf ≠ "")) by tauto. simpl.
      repeat case_bool_decide; simpl; try discriminate;
        repeat match goal with
               | |- context [match ?l with Ok _ => _ | Err _ => _ end] =>
                   destruct l; try discriminate
               end;
        intros [= <- <-]; simpl; repeat split; try done; tauto.
    + rewrite (bool_decide_eq_false_2 _ Hc).
      rewrite (bool_decide_eq_true_2 (Command conf ≠ "")) by tauto. simpl.
      destruct (NewStdioMCPClient lib _ _ _); [|discriminate].
      intros [= <- <-]. by repeat split.
Qed.

(** What holds of the world before a paging loop and is kept by its log
    line and by the visit of an item holds after it. *)
Lemma pagingLoop_invariant {A B : Type}
    (listCall : string → B → result (Page A) * B)
    (listed : nat → LogLine) (visit : A → World → World) (P : World → Prop)
    (fuel : nat) (cursor : string) (b : B) (w : World)
    (err : option error) (b' : B) (w' : World) :
  (∀ n w, P w → P (logW (listed n) w)) →
  (∀ item w, P w → P (visit item w)) →
  P w →
  pagingLoop listCall listed visit fuel cursor b w = Some (err, b', w') →
  P w'.
Proof.
  intros Hlog Hvisit. revert cursor b w.
  induction fuel as [|fuel IH]; intros cursor b w Hw; simpl; [done|].
  destruct (listCall cursor b) as [[page|e] b1]; [|by intros [= <- <- <-]].
  destruct (length (Items page) =? 0); [by intros [= <- <- <-]|].
  assert (Hw2 : P (foldl (λ w item, visit item w)
                     (logW (listed (length (Items page))) w) (Items page))).
  { generalize (Hlog (length (Items page)) w Hw).
    generalize (logW (listed (length (Items page))) w).
    induction (Items page) as [|item items IHi]; intros w0 Hw0; simpl; [done|].
    apply IHi, Hvisit, Hw0. }
  case_bool_decide; [by intros [= <- <- <-]|]. by apply IH.
Qed.

(** A paging loop whose visit appends the item to a list of the world
    appends the listed items, in their order. *)
Lemma pagingLoop_appends {A B : Type}
    (listCall : string → B → result (Page A) * B)
    (listed : nat → LogLine) (visit : A → World → World)
    (proj : World → list A)
    (fuel : nat) (cursor : string) (b : B) (w : World)
    (err : option error) (b' : B) (w' : World) :
  (∀ n w, proj (logW (listed n) w) = proj w) →
  (∀ item w, proj (visit item w) = proj w ++ [item]) →
  pagingLoop listCall listed visit fuel cursor b w = Some (err, b', w') →
  proj w' = proj w ++ listedItems listCall fuel cursor b.
Proof.
  intros Hlog Hvisit. revert cursor b w.
  induction fuel as [|fuel IH]; intros cursor b w; simpl; [done|].
  destruct (listCall cursor b) as [[page|e] b1];
    [|intros [= <- <- <-]; by rewrite app_nil_r].
  destruct (length (Items page) =? 0);
    [intros [= <- <- <-]; by rewrite app_nil_r|].
  assert (Hfold : ∀ items w0,
            proj (foldl (λ w item, visit item w) w0 items) = proj w0 ++ items).
  { induction items as [|item items IHi]; intros w0; simpl;
      [by rewrite app_nil_r|].
    by rewrite IHi, Hvisit, <- app_assoc. }
  case_bool_decide.
  - intros [= <- <- <-]. by rewrite Hfold, Hlog.
  - intros Hrun. by rewrite (IH _ _ _ Hrun), Hfold, Hlog, app_assoc.
Qed.

(** The filter function of [addToolsToServer] acts on the log only. *)
Lemma toolFilterFunc_logs_only (ToLower : string → string) (c : Client) (w : World) :
  (∀ (P : World → Prop), (∀ l w, P w → P (logW l w)) →
     P w → P (toolFilterFunc ToLower c w).2) ∧
  (∀ (P : World → Prop), (∀ l w, P w → P (logW l w)) →
     ∀ toolName w0, P w0 → P ((toolFilterFunc ToLower c w).1 toolName w0).2).
Proof.
  unfold toolFilterFunc.
  destruct (options c) as [[p l a [tf|]]|]; simpl; try (split; intros; done).
  destruct (0 <? length (List tf)); [|split; intros; done].
  repeat case_bool_decide; simpl; split; intros P HP; intros;
    repeat match goal with
           | |- context [if ?b then _ else _] => destruct b
           end; auto.
Qed.

Lemma addToolsToServer_invariant {B : Type} (ToLower : string → string)
    (client : MCPClient B) (P : World → Prop)
    (fuel : nat) (c : Client) (b : B) (w : World)
    (err : option error) (b' : B) (w' : World) :
  (∀ l w, P w → P (logW l w)) →
  (∀ t w, P w → P (onServer (AddTool t) w)) →
  P w →
  addToolsToServer ToLower client fuel c b w = Some (err, b', w') →
  P w'.
Proof.
  intros Hlog Hadd Hw. unfold addToolsToServer.
  destruct (toolFilterFunc_logs_only ToLower c w) as [Hw0 Hf].
  destruct (toolFilterFunc ToLower c w) as [f w0]. simpl in Hw0, Hf.
  apply (pagingLoop_invariant _ _ _ P); [by auto| |by apply Hw0].
  intros t w1 Hw1. unfold visitTool.
  specialize (Hf P Hlog (tool_Name t) w1 Hw1).
  destruct (f (tool_Name t) w1) as [[|] w2]; simpl in Hf; auto.
Qed.

Section Registrars.
Context {B : Type}.
Variable ToLower : string → string.
Variable client : MCPClient B.

(** X12.  Prompts, resources and resource templates are registered
    without a filter.  Against a backend whose listing of the family
    comes to an end, each of the three registrars returns and has added
    exactly the items the backend listed, in their order, whatever the
    options of the client; and each of the four registrars leaves the
    three other families of the server as they are. *)
Theorem registrars_add_their_family (fuel : nat) (c : Client) (b : B) (w : World) :
  (listingEndsWithin (ListPrompts client) fuel "" b = true →
   ∃ err b' w',
     addPromptsToServer client fuel c b w = Some (err, b', w') ∧
     srv_Prompts (mcpServer w') =
       srv_Prompts (mcpServer w) ++ listedItems (ListPrompts client) fuel "" b ∧
     srv_Tools (mcpServer w') = srv_Tools (mcpServer w) ∧
     srv_Resources (mcpServer w') = srv_Resources (mcpServer w) ∧
     srv_ResourceTemplates (mcpServer w') = srv_ResourceTemplates (mcpServer w)) ∧
  (listingEndsWithin (ListResources client) fuel "" b = true →
   ∃ err b' w',
     addResourcesToServer client fuel c b w = Some (err, b', w') ∧
     srv_Resources (mcpServer w') =
       srv_Resources (mcpServer w) ++ listedItems (ListResources client) fuel "" b ∧
     srv_Tools (mcpServer w') = srv_Tools (mcpServer w) ∧
     srv_Prompts (mcpServer w') = srv_Prompts (mcpServer w) ∧
     srv_ResourceTemplates (mcpServer w') = srv_ResourceTemplates (mcpServer w)) ∧
  (listingEndsWithin (ListResourceTemplates client) fuel "" b = true →
   ∃ err b' w',
     addResourceTemplatesToServer client fuel c b w = Some (err, b', w') ∧
     srv_ResourceTemplates (mcpServer w') =
       srv_ResourceTemplates (mcpServer w)
       ++ listedItems (ListResourceTemplates client) fuel "" b ∧
     srv_Tools (mcpServer w') = srv_Tools (mcpServer w) ∧
     srv_Prompts (mcpServer w') = srv_Prompts (mcpServer w) ∧
     srv_Resources (mcpServer w') = srv_Resources (mcpServer w)) ∧
  (listingEndsWithin (ListTools client) fuel "" b = true →
   ∃ err b' w',
     addToolsToServer ToLower client fuel c b w = Some (err, b', w') ∧
     srv_Prompts (mcpServer w') = srv_Prompts (mcpServer w) ∧
     srv_Resources (mcpServer w') = srv_Resources (mcpServer w) ∧
     srv_ResourceTemplates (mcpServer w') = srv_ResourceTemplates (mcpServer w)).
Proof.
  split; [|split; [|split]]; intros Hends.
  - unfold addPromptsToServer.
    destruct (pagingLoop_returns (ListPrompts client)
                (λ n, LogListed (name c) n "prompts")
                (λ prompt w,
                   onServer (AddPrompt prompt)
                     (logW (LogAdding (name c) "prompt" (prompt_Name prompt)) w))
                fuel "" b w Hends) as (err & b' & w' & Hrun).
    exists err, b', w'. split; [exact Hrun|]. split; [|split; [|split]].
    + by apply (pagingLoop_appends _ _ _ (λ w, srv_Prompts (mcpServer w))) in Hrun.
    + by apply (pagingLoop_invariant _ _ _
                  (λ w0, srv_Tools (mcpServer w0) = srv_Tools (mcpServer w))) in Hrun.
    + by apply (pagingLoop_invariant _ _ _
                  (λ w0, srv_Resources (mcpServer w0) = srv_Resources (mcpServer w)))
        in Hrun.
    + by apply (pagingLoop_invariant _ _ _
                  (λ w0, srv_ResourceTemplates (mcpServer w0)
                         = srv_ResourceTemplates (mcpServer w))) in Hrun.
  - unfold addResourcesToServer.
    destruct (pagingLoop_returns (ListResources client)
                (λ n, LogListed (name c) n "resources")
                (λ resource w,
                   onServer (AddResource resource)
                     (logW (LogAdding (name c) "resource"
                              (resource_Name resource)) w))
                fuel "" b w Hends) as (err & b' & w' & Hrun).
    exists err, b', w'. split; [exact Hrun|]. split; [|split; [|split]].
    + by apply (pagingLoop_appends _ _ _ (λ w, srv_Resources (mcpServer w))) in Hrun.
    + by apply (pagingLoop_invariant _ _ _
                  (λ w0, srv_Tools (mcpServer w0) = srv_Tools (mcpServer w))) in Hrun.
    + by apply (pagingLoop_invariant _ _ _
                  (λ w0, srv_Prompts (mcpServer w0) = srv_Prompts (mcpServer w)))
        in Hrun.
    + by apply (pagingLoop_invariant _ _ _
                  (λ w0, srv_ResourceTemplates (mcpServer w0)
                         = srv_ResourceTemplates (mcpServer w))) in Hrun.
  - unfold addResourceTemplatesToServer.
    destruct (pagingLoop_returns (ListResourceTemplates client)
                (λ n, LogListed (name c) n "resource templates")
                (λ resourceTemplate w,
                   onServer (AddResourceTemplate resourceTemplate)
                     (logW (LogAdding (name c) "resource template"
                              (template_Name resourceTemplate)) w))
                fuel "" b w Hends) as (err & b' & w' & Hrun).
    exists err, b', w'. split; [exact Hrun|]. split; [|split; [|split]].
    + by apply (pagingLoop_appends _ _ _
                  (λ w, srv_ResourceTemplates (mcpServer w))) in Hrun.
    + by apply (pagingLoop_invariant _ _ _
                  (λ w0, srv_Tools (mcpServer w0) = srv_Tools (mcpServer w))) in Hrun.
    + by apply (pagingLoop_invariant _ _ _
                  (λ w0, srv_Prompts (mcpServer w0) = srv_Prompts (mcpServer w)))
        in Hrun.
    + by apply (pagingLoop_invariant _ _ _
                  (λ w0, srv_Resources (mcpServer w0) = srv_Resources (mcpServer w)))
        in Hrun.
  - assert (∃ err b' w',
              addToolsToServer ToLower client fuel c b w = Some (err, b', w'))
      as (err & b' & w' & Hrun).
    { unfold addToolsToServer. destruct (toolFilterFunc ToLower c w) as [f w0].
      by apply pagingLoop_returns. }
    exists err, b', w'. split; [exact Hrun|]. split; [|split].
    + by apply (addToolsToServer_invariant _ _
                  (λ w0, srv_Prompts (mcpServer w0) = srv_Prompts (mcpServer w)))
        in Hrun.
    + by apply (addToolsToServer_invariant _ _
                  (λ w0, srv_Resources (mcpServer w0) = srv_Resources (mcpServer w)))
        in Hrun.
    + by apply (addToolsToServer_invariant _ _
                  (λ w0, srv_ResourceTemplates (mcpServer w0)
                         = srv_ResourceTemplates (mcpServer w))) in Hrun.
Qed.
End Registrars.

Section Initialization2.
Context {B : Type}.
Variable ToLower : string → string.
Variable client : MCPClient B.

(** X13.  Without a usable tool filter (no options, no tool filter in
    them, or a filter whose list is empty, whatever its mode), against a
    backend whose tools listing comes to an end, [addToolsToServer]
    returns and has registered every tool the backend advertised, in the
    listed order, and no unknown-mode line is logged. *)
Theorem no_tool_filter_registers_all (fuel : nat) (c : Client) (b : B) (w : World) :
  (options c = None ∨
   ∃ o, options c = Some o ∧
        (ToolFilter o = None ∨ ∃ tf, ToolFilter o = Some tf ∧ List tf = [])) →
  listingEndsWithin (ListTools client) fuel "" b = true →
  ∃ err b' w',
    addToolsToServer ToLower client fuel c b w = Some (err, b', w') ∧
    srv_Tools (mcpServer w') =
      srv_Tools (mcpServer w) ++ listedItems (ListTools client) fuel "" b ∧
    unknownModeLines (logs w') = unknownModeLines (logs w).
Proof.
  intros Hnone Hends. unfold addToolsToServer.
  destruct (toolFilterFunc_cases ToLower c w) as (P & HP & Hcases).
  destruct (toolFilterFunc ToLower c w) as [f w0]. simpl in HP, Hcases.
  assert (P = (λ _, true) ∧ w0 = w) as [-> ->].
  { destruct Hnone as [Ho|(o & Ho & [Hf|(tf & Hf & Hl)])]; rewrite Ho in Hcases.
    - done.
    - destruct o; simpl in Hf; by subst.
    - destruct o; simpl in Hf; subst. by rewrite decide_True in Hcases. }
  destruct (pagingLoop_returns (ListTools client)
              (λ n, LogListed (name c) n "tools") (visitTool c f)
              fuel "" b w Hends) as (err & b' & w' & Hrun).
  exists err, b', w'. split; [exact Hrun|].
  destruct (pagingLoop_visitTool client c f (λ _, true)
              (λ n, LogListed (name c) n "tools") fuel "" b w err b' w' HP
              (λ _, eq_refl) Hrun) as [Htools Hlog].
  split; [|done]. rewrite Htools. f_equal.
  generalize (listedItems (ListTools client) fuel "" b).
  induction l as [|t l IH]; [done|]. rewrite filter_cons. simpl.
  f_equal. exact IH.
Qed.

(** X14.  The ping task of a client is forked at most once, and only
    after the whole initialization succeeded: a run of [addToMCPServer]
    that returns no error has forked one ping task for a client that
    needs pings and none for another client, and a run that returns an
    error has forked none. *)
Theorem addToMCPServer_forks_ping_on_success (fuel : nat) (c : Client)
    (clientInfo : Implementation) (b : B) (w : World)
    (err : option error) (b' : B) (w' : World) :
  addToMCPServer ToLower client fuel c clientInfo b w = Some (err, b', w') →
  pingTasks w' =
    pingTasks w ++
    match err with
    | None => if needPing c then [name c] else []
    | Some _ => []
    end.
Proof.
  unfold addToMCPServer.
  destruct (if needManualStart c then Start client b else (None, b))
    as [[se|] b1]; [intros [= <- <- <-]; by rewrite app_nil_r|].
  destruct (Initialize client clientInfo b1) as [[ie|] b2];
    [intros [= <- <- <-]; by rewrite app_nil_r|].
  destruct (addToolsToServer ToLower client fuel c b2 _)
    as [[[te b3] w3]|] eqn:Ht; [|done].
  apply (addToolsToServer_invariant _ _ (λ w0, pingTasks w0 = pingTasks w))
    in Ht; [|done..].
  destruct te as [te|]; [intros [= <- <- <-]; by rewrite Ht, app_nil_r|].
  destruct (addPromptsToServer client fuel c b3 w3) as [[[pe b4] w4]|] eqn:Hp;
    [|done].
  apply (pagingLoop_invariant _ _ _ (λ w0, pingTasks w0 = pingTasks w))
    in Hp; [|done..].
  destruct (addResourcesToServer client fuel c b4 w4) as [[[re b5] w5]|] eqn:Hr;
    [|done].
  apply (pagingLoop_invariant _ _ _ (λ w0, pingTasks w0 = pingTasks w))
    in Hr; [|done..].
  destruct (addResourceTemplatesToServer client fuel c b5 w5)
    as [[[rte b6] w6]|] eqn:Hrt; [|done].
  apply (pagingLoop_invariant _ _ _ (λ w0, pingTasks w0 = pingTasks w))
    in Hrt; [|done..].
  intros [= <- <- <-].
  destruct (needPing c); simpl; by rewrite Hrt, ?app_nil_r.
Qed.


End Initialization2.

(** The library's list call against a script that fails after the pages
    [before], each with a next cursor: the call fails, and what the
    pages held is not returned. *)
Lemma followCursors_error {A : Type} (before : list (Page A)) (e : error)
    (rest : list (result (Page A))) (cursor : string) (reqs : list string)
    (items : list A) :
  Forall (λ page, NextCursor page ≠ "") before →
  followCursors ((Ok <$> before) ++ Err e :: rest) cursor reqs items =
    (Err e, {| pending := rest; requested := reqs ++ cursorChain cursor before |}).
Proof.
  intros Hbefore. revert cursor reqs items.
  induction Hbefore as [|page before Hnext _ IH]; intros cursor reqs items; simpl;
    [done|].
  rewrite bool_decide_eq_false_2 by done. rewrite IH.
  unfold cursorChain. simpl. by rewrite <- !app_assoc.
Qed.

(** X17.  A list call fails as a whole: against a backend whose listing
    of a family returns the pages [before], each with a next cursor, and
    then an error, the registrar of the family returns that error after
    one list call and has registered nothing, the items of [before]
    included; for the tools registrar, whatever the tool filter. *)
Theorem list_error_drops_earlier_pages (ToLower : string → string)
    (c : Client) (e : error) (reqs : list string) (fuel : nat)
    (b : Backend) (w : World) :
  0 < fuel →
  (∀ (before : list (Page Tool)) rest,
     Forall (λ page, NextCursor page ≠ "") before →
     toolPages b = {| pending := (Ok <$> before) ++ Err e :: rest;
                      requested := reqs |} →
     ∃ w', addToolsToServer ToLower scriptedClient fuel c b w =
             Some (Some e,
                   setToolPages {| pending := rest;
                                   requested := reqs ++ cursorChain "" before |} b,
                   w') ∧
           mcpServer w' = mcpServer w) ∧
  (∀ (before : list (Page Prompt)) rest,
     Forall (λ page, NextCursor page ≠ "") before →
     promptPages b = {| pending := (Ok <$> before) ++ Err e :: rest;
                        requested := reqs |} →
     addPromptsToServer scriptedClient fuel c b w =
       Some (Some e,
             setPromptPages {| pending := rest;
                               requested := reqs ++ cursorChain "" before |} b,
             w)) ∧
  (∀ (before : list (Page Resource)) rest,
     Forall (λ page, NextCursor page ≠ "") before →
     resourcePages b = {| pending := (Ok <$> before) ++ Err e :: rest;
                          requested := reqs |} →
     addResourcesToServer scriptedClient fuel c b w =
       Some (Some e,
             setResourcePages {| pending := rest;
                                 requested := reqs ++ cursorChain "" before |} b,
             w)) ∧
  (∀ (before : list (Page ResourceTemplate)) rest,
     Forall (λ page, NextCursor page ≠ "") before →
     templatePages b = {| pending := (Ok <$> before) ++ Err e :: rest;
                          requested := reqs |} →
     addResourceTemplatesToServer scriptedClient fuel c b w =
       Some (Some e,
             setTemplatePages {| pending := rest;
                                 requested := reqs ++ cursorChain "" before |} b,
             w)).
Proof.
  intros Hfuel. destruct fuel as [|fuel]; [lia|].
  split; [|split; [|split]]; intros before rest Hbefore Hpages.
  - unfold addToolsToServer.
    pose proof (proj1 (toolFilterFunc_logs_only ToLower c w)
                  (λ w0, mcpServer w0 = mcpServer w) ltac:(done) eq_refl) as Hsrv.
    destruct (toolFilterFunc ToLower c w) as [f w0]. simpl in Hsrv.
    exists w0. split; [|exact Hsrv]. apply pagingLoop_error.
    cbn [ListTools scriptedClient]. unfold scriptedList. rewrite Hpages.
    cbn [pending requested].
    by rewrite (followCursors_error before e rest "" reqs [] Hbefore).
  - unfold addPromptsToServer. apply pagingLoop_error.
    cbn [ListPrompts scriptedClient]. unfold scriptedList. rewrite Hpages.
    cbn [pending requested].
    by rewrite (followCursors_error before e rest "" reqs [] Hbefore).
  - unfold addResourcesToServer. apply pagingLoop_error.
    cbn [ListResources scriptedClient]. unfold scriptedList. rewrite Hpages.
    cbn [pending requested].
    by rewrite (followCursors_error before e rest "" reqs [] Hbefore).
  - unfold addResourceTemplatesToServer. apply pagingLoop_error.
    cbn [ListResourceTemplates scriptedClient]. unfold scriptedList.
    rewrite Hpages. cbn [pending requested].
    by rewrite (followCursors_error before e rest "" reqs [] Hbefore).
Qed.

(* ===================================================================== *)
(** * The adapter: LoadNewConfig *)
(* ===================================================================== *)

(** The options of the proxy once [LoadNewConfig] has set its default. *)
Lemma adapter_LoadNewConfig_inv (file : Adapter.ConfigFile)
    (config' : Adapter.NewConfig) :
  Adapter.LoadNewConfig file = Returns (Ok config') →
  ∃ config proxy,
    file = Adapter.Unmarshals config ∧
    Adapter.AdapterProxy config = Some proxy ∧
    Adapter.BaseURL proxy ≠ "" ∧ Adapter.Addr proxy ≠ "" ∧
    map_Forall (λ (_ : string) (c : option Adapter.AdapterServerConfig), is_Some c)
      (Adapter.AdapterServers config) ∧
    let proxyOptions := match Adapter.proxy_Options proxy with
                        | None => Adapter.defaultOptions
                        | Some o => o
                        end in
    Adapter.AdapterProxy config' = Some (Adapter.setProxyOptions proxy proxyOptions) ∧
    Adapter.AdapterServers config' =
      (λ c : option Adapter.AdapterServerConfig,
         Adapter.inheritOptions proxyOptions <$> c)
        <$> Adapter.AdapterServers config.
Proof.
  unfold Adapter.LoadNewConfig. destruct file as [e|e|config]; try discriminate.
  destruct (Adapter.AdapterProxy config) as [proxy|] eqn:Hp; [|discriminate].
  case_bool_decide as Hb; [discriminate|].
  case_bool_decide as Ha; [discriminate|].
  case_bool_decide as Hall; [|discriminate].
  intros [= <-]. exists config, proxy. by repeat split.
Qed.

(** X18.  [LoadNewConfig] returns an error in five cases only, each with
    its message: the file cannot be read, the data cannot be unmarshalled
    (both wrap the error they got), the proxy section is missing, its
    base URL is empty, and, with a base URL, its address is empty. *)
Theorem adapter_LoadNewConfig_errors (file : Adapter.ConfigFile) (e : error) :
  Adapter.LoadNewConfig file = Returns (Err e) ↔
    (∃ err, file = Adapter.ReadFails err ∧
            e = Errorf_w "failed to read config file: " err) ∨
    (∃ err, file = Adapter.UnmarshalFails err ∧
            e = Errorf_w "failed to unmarshal config: " err) ∨
    (∃ config, file = Adapter.Unmarshals config ∧
       match Adapter.AdapterProxy config with
       | None => e = errors_New "adapter_proxy is required"
       | Some proxy =>
           (Adapter.BaseURL proxy = "" ∧
            e = errors_New "adapter_proxy.base_url is required") ∨
           (Adapter.BaseURL proxy ≠ "" ∧ Adapter.Addr proxy = "" ∧
            e = errors_New "adapter_proxy.addr is required")
       end).
Proof.
  unfold Adapter.LoadNewConfig. destruct file as [err|err|config].
  - split.
    + intros [= <-]. left. by exists err.
    + intros [(? & [= <-] & ->)|[(? & ? & _)|(? & ? & _)]]; done.
  - split.
    + intros [= <-]. right. left. by exists err.
    + intros [(? & ? & _)|[(? & [= <-] & ->)|(? & ? & _)]]; done.
  - split.
    + intros Hload. right. right. exists config. split; [done|].
      destruct (Adapter.AdapterProxy config) as [proxy|]; [|by injection Hload].
      case_bool_decide as Hb; [left; split; [done|by injection Hload]|].
      case_bool_decide as Ha; [right; repeat split; [done..|by injection Hload]|].
      by case_bool_decide.
    + intros [(? & ? & _)|[(? & ? & _)|(c & [= <-] & Hcase)]]; try done.
      destruct (Adapter.AdapterProxy config) as [proxy|]; [|by subst].
      destruct Hcase as [[Hb ->]|(Hb & Ha & ->)].
      * by rewrite bool_decide_eq_true_2.
      * rewrite bool_decide_eq_false_2 by done. by rewrite bool_decide_eq_true_2.
Qed.

Lemma len_zero_elems {A} (s : option (list A)) : len s = 0 → elems s = [].
Proof. destruct s as [[|x l]|]; simpl; done. Qed.

Lemma adapter_inheritOptions_options (proxyOptions : Adapter.Options)
    (serverConfig : Adapter.AdapterServerConfig) :
  ∃ o',
    Adapter.server_Options (Adapter.inheritOptions proxyOptions serverConfig)
      = Some o' ∧
    let ownTokens := match Adapter.server_Options serverConfig with
                     | Some o => elems (Adapter.AuthTokens o)
                     | None => []
                     end in
    elems (Adapter.AuthTokens o') =
      (if decide (ownTokens = []) then elems (Adapter.AuthTokens proxyOptions)
       else ownTokens) ∧
    (∀ o, Adapter.server_Options serverConfig = Some o →
       Adapter.PanicIfInvalid o' = Adapter.PanicIfInvalid o ∧
       Adapter.LogEnabled o' = Adapter.LogEnabled o ∧
       ∀ tf, Adapter.ToolFilter o = Some tf → Adapter.ToolFilter o' = Some tf) ∧
    (Adapter.server_Options serverConfig = None →
       Adapter.PanicIfInvalid o' = Adapter.PanicIfInvalid proxyOptions ∧
       Adapter.LogEnabled o' = Adapter.LogEnabled proxyOptions) ∧
    (match Adapter.server_Options serverConfig with
     | Some o => Adapter.ToolFilter o = None
     | None => True
     end →
     Adapter.ToolFilter o' =
       Adapter.copyToolFilter <$> Adapter.ToolFilter proxyOptions).
Proof.
  unfold Adapter.inheritOptions.
  destruct proxyOptions as [pp pl [[|y ys]|] [ptf|]];
    (destruct (Adapter.server_Options serverConfig)
       as [[p l [[|x xs]|] [tf|]]|]);
    simpl; (eexists; split; [reflexivity|]); simpl;
    repeat split; intros; simplify_eq/=; try done.
Qed.

(** X19.  What a server inherits in [LoadNewConfig].  After it returned,
    every server has options.  Its tokens are its own when it has any,
    and the tokens of the proxy otherwise, also when its own list is
    present and empty.  Its two flags are those of the proxy only when it
    had no options at all: a server with options keeps its flags as they
    were parsed.  Its tool filter is its own, or a copy of the proxy's
    when it has none. *)
Theorem adapter_LoadNewConfig_inherits (file : Adapter.ConfigFile)
    (config' : Adapter.NewConfig) :
  Adapter.LoadNewConfig file = Returns (Ok config') →
  ∃ config proxy,
    file = Adapter.Unmarshals config ∧
    Adapter.AdapterProxy config = Some proxy ∧
    let proxyOptions := match Adapter.proxy_Options proxy with
                        | None => Adapter.defaultOptions
                        | Some o => o
                        end in
    ∀ name serverConfig,
      Adapter.AdapterServers config !! name = Some (Some serverConfig) →
      ∃ serverConfig' o',
        Adapter.AdapterServers config' !! name = Some (Some serverConfig') ∧
        Adapter.server_Options serverConfig' = Some o' ∧
        let ownTokens := match Adapter.server_Options serverConfig with
                         | Some o => elems (Adapter.AuthTokens o)
                         | None => []
                         end in
        elems (Adapter.AuthTokens o') =
          (if decide (ownTokens = [])
           then elems (Adapter.AuthTokens proxyOptions) else ownTokens) ∧
        (∀ o, Adapter.server_Options serverConfig = Some o →
           Adapter.PanicIfInvalid o' = Adapter.PanicIfInvalid o ∧
           Adapter.LogEnabled o' = Adapter.LogEnabled o ∧
           ∀ tf, Adapter.ToolFilter o = Some tf →
                 Adapter.ToolFilter o' = Some tf) ∧
        (Adapter.server_Options serverConfig = None →
           Adapter.PanicIfInvalid o' = Adapter.PanicIfInvalid proxyOptions ∧
           Adapter.LogEnabled o' = Adapter.LogEnabled proxyOptions) ∧
        (match Adapter.server_Options serverConfig with
         | Some o => Adapter.ToolFilter o = None
         | None => True
         end →
         Adapter.ToolFilter o' =
           Adapter.copyToolFilter <$> Adapter.ToolFilter proxyOptions).
Proof.
  intros Hload.
  destruct (adapter_LoadNewConfig_inv _ _ Hload)
    as (config & proxy & -> & Hp & _ & _ & _ & _ & Hs).
  exists config, proxy. split; [done|]. split; [done|].
  intros proxyOptions name sc Hlook.
  destruct (adapter_inheritOptions_options proxyOptions sc) as (o' & Ho' & Hrest).
  exists (Adapter.inheritOptions proxyOptions sc), o'.
  split; [by rewrite Hs, lookup_fmap, Hlook|]. by split.
Qed.

(* ===================================================================== *)
(** * The adapter: the tool filter and the registration *)
(* ===================================================================== *)

Lemma adapter_NewMultiAdapter_inv (file : Adapter.ConfigFile)
    (ma : Adapter.MultiAdapter) :
  Adapter.NewMultiAdapter file = Returns (Ok ma) →
  Adapter.LoadNewConfig file = Returns (Ok (Adapter.config ma)) ∧
  Adapter.adapters ma =
    map_imap (λ name (c : option Adapter.AdapterServerConfig),
                Adapter.NewAdapterFromServerConfig name <$> c)
      (Adapter.AdapterServers (Adapter.config ma)).
Proof.
  unfold Adapter.NewMultiAdapter.
  destruct (Adapter.LoadNewConfig file) as [[config'|e]|v]; try discriminate.
  case_bool_decide; [|discriminate]. by intros [= <-].
Qed.




Section AdapterRegistration.
Context {Schema : Type}.
Variable convertSchema : gmap string JValue → Adapter.SchemaResult Schema.

Lemma unfilteredTools_nil_filter (tools : list Adapter.ToolConfig) :
  unfilteredTools None tools = tools.
Proof.
  unfold unfilteredTools. simpl.
  induction tools as [|t l IH]; [done|].
  rewrite filter_cons. simpl. f_equal. exact IH.
Qed.

Lemma adapter_addTools_converted (adapter : string)
    (shouldFilterFunc : option (string → bool))
    (tools : list Adapter.ToolConfig) (w : Adapter.Registry Schema) :
  (∀ t, t ∈ unfilteredTools shouldFilterFunc tools →
        ∃ s, convertSchema (Adapter.InputSchema t) = Adapter.Converted s) →
  ∃ w',
    Adapter.addTools Schema convertSchema adapter shouldFilterFunc tools w
    = (None, w') ∧
    Adapter.mcp_Name <$> Adapter.reg_Tools w' =
      (Adapter.mcp_Name <$> Adapter.reg_Tools w)
      ++ (Adapter.tool_Name <$> unfilteredTools shouldFilterFunc tools) ∧
    Adapter.reg_Prompts w' = Adapter.reg_Prompts w ∧
    Adapter.reg_Resources w' = Adapter.reg_Resources w.
Proof.
  revert w. induction tools as [|t tools IH]; intros w Hconv; simpl.
  - exists w. by rewrite app_nil_r.
  - unfold unfilteredTools in *. rewrite filter_cons in Hconv |- *.
    destruct (Adapter.isFiltered shouldFilterFunc (Adapter.tool_Name t)); simpl in *.
    + by apply IH.
    + destruct (Hconv t) as [s ->]; [by left|].
      edestruct IH as (w' & -> & Hnames & Hp & Hr).
      { intros t' Ht'. apply Hconv. by right. }
      exists w'. split; [done|]. rewrite Hnames. simpl.
      by rewrite fmap_app, <- app_assoc.
Qed.

Lemma adapter_fold_prompts (adapter : string) (ps : list Adapter.PromptConfig)
    (w : Adapter.Registry Schema) :
  let w' := foldl (λ w p, Adapter.registerPrompt Schema adapter p w) w ps in
  Adapter.reg_Tools w' = Adapter.reg_Tools w ∧
  Adapter.reg_Prompts w' =
    Adapter.reg_Prompts w
    ++ ((λ p, (Adapter.prompt_Name p, Adapter.prompt_Description p)) <$> ps) ∧
  Adapter.reg_Resources w' = Adapter.reg_Resources w.
Proof.
  revert w. induction ps as [|p ps IH]; intros w; simpl.
  - by rewrite app_nil_r.
  - destruct (IH (Adapter.registerPrompt Schema adapter p w)) as (-> & -> & ->).
    simpl. by rewrite <- app_assoc.
Qed.

Lemma adapter_fold_resources (adapter : string) (rs : list Adapter.ResourceConfig)
    (w : Adapter.Registry Schema) :
  let w' := foldl (λ w r, Adapter.registerResource Schema adapter r w) w rs in
  Adapter.reg_Tools w' = Adapter.reg_Tools w ∧
  Adapter.reg_Prompts w' = Adapter.reg_Prompts w ∧
  Adapter.reg_Resources w' =
    Adapter.reg_Resources w
    ++ ((λ r, (Adapter.resource_Name r, Adapter.resource_Description r)) <$> rs).
Proof.
  revert w. induction rs as [|r rs IH]; intros w; simpl.
  - by rewrite app_nil_r.
  - destruct (IH (Adapter.registerResource Schema adapter r w)) as (-> & -> & ->).
    simpl. by rewrite <- app_assoc.
Qed.

(** X21.  [AddToMCPServerWithFilter] when the schema of every tool it
    does not skip converts: it returns no error, and it has registered,
    in the order of the configuration, the tools the filter function does
    not filter, every prompt and every resource; a filter function that
    is nil filters nothing. *)
Theorem adapter_AddToMCPServerWithFilter_registers (ai : Adapter.AdapterInstance)
    (shouldFilterFunc : option (string → bool)) (w : Adapter.Registry Schema) :
  (∀ t, t ∈ unfilteredTools shouldFilterFunc (Adapter.inst_Tools ai) →
        ∃ s, convertSchema (Adapter.InputSchema t) = Adapter.Converted s) →
  ∃ w',
    Adapter.AddToMCPServerWithFilter Schema convertSchema ai shouldFilterFunc w
    = (None, w') ∧
    Adapter.mcp_Name <$> Adapter.reg_Tools w' =
      (Adapter.mcp_Name <$> Adapter.reg_Tools w)
      ++ (Adapter.tool_Name
            <$> unfilteredTools shouldFilterFunc (Adapter.inst_Tools ai)) ∧
    Adapter.reg_Prompts w' =
      Adapter.reg_Prompts w
      ++ ((λ p, (Adapter.prompt_Name p, Adapter.prompt_Description p))
            <$> Adapter.inst_Prompts ai) ∧
    Adapter.reg_Resources w' =
      Adapter.reg_Resources w
      ++ ((λ r, (Adapter.resource_Name r, Adapter.resource_Description r))
            <$> Adapter.inst_Resources ai) ∧
    (shouldFilterFunc = None →
       unfilteredTools shouldFilterFunc (Adapter.inst_Tools ai)
       = Adapter.inst_Tools ai).
Proof.
  intros Hconv. unfold Adapter.AddToMCPServerWithFilter.
  destruct (adapter_addTools_converted (Adapter.inst_Name ai) shouldFilterFunc
              (Adapter.inst_Tools ai) w Hconv) as (w1 & -> & Hnames & Hp & Hr).
  eexists. split; [reflexivity|].
  destruct (adapter_fold_resources (Adapter.inst_Name ai) (Adapter.inst_Resources ai)
              (foldl (λ w p, Adapter.registerPrompt Schema (Adapter.inst_Name ai) p w)
                 w1 (Adapter.inst_Prompts ai))) as (Ht2 & Hp2 & Hr2).
  destruct (adapter_fold_prompts (Adapter.inst_Name ai) (Adapter.inst_Prompts ai) w1)
    as (Ht1 & Hp1 & Hr1).
  simpl in *. rewrite Ht2, Ht1, Hp2, Hp1, Hr2, Hr1, Hnames, Hp, Hr.
  repeat split; try done.
  intros ->. apply unfilteredTools_nil_filter.
Qed.

(** X22.  A tool whose schema does not convert ends the registration:
    when the tools of an adapter are [before], the schemas of which
    convert as far as they are not filtered, then a tool that is not
    filtered and whose schema fails, the call returns an error that
    names this tool, has registered the tools of [before] that are not
    filtered, and has registered no prompt and no resource. *)
Theorem adapter_schema_error_stops_registration (ai : Adapter.AdapterInstance)
    (shouldFilterFunc : option (string → bool)) (w : Adapter.Registry Schema)
    (before after : list Adapter.ToolConfig) (bad : Adapter.ToolConfig) :
  Adapter.inst_Tools ai = before ++ bad :: after →
  (∀ t, t ∈ unfilteredTools shouldFilterFunc before →
        ∃ s, convertSchema (Adapter.InputSchema t) = Adapter.Converted s) →
  Adapter.isFiltered shouldFilterFunc (Adapter.tool_Name bad) = false →
  (∀ s, convertSchema (Adapter.InputSchema bad) ≠ Adapter.Converted s) →
  ∃ prefix err w',
    Adapter.AddToMCPServerWithFilter Schema convertSchema ai shouldFilterFunc w
    = (Some (Errorf_w (prefix +:+ Adapter.tool_Name bad +:+ ": ") err), w') ∧
    Adapter.mcp_Name <$> Adapter.reg_Tools w' =
      (Adapter.mcp_Name <$> Adapter.reg_Tools w)
      ++ (Adapter.tool_Name <$> unfilteredTools shouldFilterFunc before) ∧
    Adapter.reg_Prompts w' = Adapter.reg_Prompts w ∧
    Adapter.reg_Resources w' = Adapter.reg_Resources w.
Proof.
  intros Htools Hconv Hbad Hfail. unfold Adapter.AddToMCPServerWithFilter.
  rewrite Htools. clear Htools. revert w Hconv.
  induction before as [|t before IH]; intros w Hconv; simpl.
  - rewrite Hbad.
    destruct (convertSchema (Adapter.InputSchema bad)) as [e|e|s] eqn:Hc.
    + eexists _, e, w. by rewrite app_nil_r.
    + eexists _, e, w. by rewrite app_nil_r.
    + by destruct (Hfail s).
  - unfold unfilteredTools in *. rewrite filter_cons in Hconv |- *.
    destruct (Adapter.isFiltered shouldFilterFunc (Adapter.tool_Name t)); simpl in *.
    + by apply IH.
    + destruct (Hconv t) as [s ->]; [by left|].
      edestruct IH as (prefix & err & w' & Hrun & Hnames & Hp & Hr).
      { intros t' Ht'. apply Hconv. by right. }
      exists prefix, err, w'. split; [exact Hrun|].
      rewrite Hnames. simpl. by rewrite fmap_app, <- app_assoc.
Qed.

(** X23.  The adapter's HTTP server does not apply the tool filter: the
    adapter [NewMultiAdapter] creates for a server of the loaded config
    carries the tools, prompts and resources of that server, and the
    call the server makes on it, [AddToMCPServer], registers every one of
    these tools when their schemas convert, whatever tool filter the
    server or the proxy is configured with. *)
Theorem adapter_server_registers_every_tool (config : Adapter.NewConfig)
    (ma : Adapter.MultiAdapter) (name : string)
    (serverConfig : Adapter.AdapterServerConfig) (w : Adapter.Registry Schema) :
  Adapter.NewMultiAdapter (Adapter.Unmarshals config) = Returns (Ok ma) →
  Adapter.AdapterServers config !! name = Some (Some serverConfig) →
  (∀ t, t ∈ Adapter.Tools serverConfig →
        ∃ s, convertSchema (Adapter.InputSchema t) = Adapter.Converted s) →
  ∃ adapter w',
    Adapter.adapters ma !! name = Some adapter ∧
    Adapter.AddToMCPServer Schema convertSchema adapter w = (None, w') ∧
    Adapter.mcp_Name <$> Adapter.reg_Tools w' =
      (Adapter.mcp_Name <$> Adapter.reg_Tools w)
      ++ (Adapter.tool_Name <$> Adapter.Tools serverConfig) ∧
    Adapter.reg_Prompts w' =
      Adapter.reg_Prompts w
      ++ ((λ p, (Adapter.prompt_Name p, Adapter.prompt_Description p))
            <$> Adapter.Prompts serverConfig) ∧
    Adapter.reg_Resources w' =
      Adapter.reg_Resources w
      ++ ((λ r, (Adapter.resource_Name r, Adapter.resource_Description r))
            <$> Adapter.Resources serverConfig).
Proof.
  intros Hnew Hlook Hconv.
  destruct (adapter_NewMultiAdapter_inv _ _ Hnew) as [Hload Had].
  destruct (adapter_LoadNewConfig_inv _ _ Hload)
    as (config0 & proxy & [= <-] & _ & _ & _ & _ & _ & Hs).
  set (adapter := Adapter.NewAdapterFromServerConfig name
                    (Adapter.inheritOptions
                       match Adapter.proxy_Options proxy with
                       | Some o => o
                       | None => Adapter.defaultOptions
                       end serverConfig)).
  assert (Htools : Adapter.inst_Tools adapter = Adapter.Tools serverConfig).
  { subst adapter. unfold Adapter.inheritOptions.
    by destruct (Adapter.server_Options serverConfig). }
  assert (Hprompts : Adapter.inst_Prompts adapter = Adapter.Prompts serverConfig).
  { subst adapter. unfold Adapter.inheritOptions.
    by destruct (Adapter.server_Options serverConfig). }
  assert (Hres : Adapter.inst_Resources adapter = Adapter.Resources serverConfig).
  { subst adapter. unfold Adapter.inheritOptions.
    by destruct (Adapter.server_Options serverConfig). }
  assert (Hall : unfilteredTools None (Adapter.inst_Tools adapter)
                 = Adapter.inst_Tools adapter).
  { apply unfilteredTools_nil_filter. }
  destruct (adapter_addTools_converted (Adapter.inst_Name adapter) None
              (Adapter.inst_Tools adapter) w) as (w1 & Hrun & Hnames & Hp & Hr).
  { rewrite Hall, Htools. exact Hconv. }
  exists adapter. eexists. split; [|split].
  - rewrite Had, map_lookup_imap, Hs, lookup_fmap, Hlook. done.
  - unfold Adapter.AddToMCPServer, Adapter.AddToMCPServerWithFilter.
    rewrite Hrun. reflexivity.
  - destruct (adapter_fold_resources (Adapter.inst_Name adapter)
                (Adapter.inst_Resources adapter)
                (foldl (λ w p, Adapter.registerPrompt Schema
                                 (Adapter.inst_Name adapter) p w)
                   w1 (Adapter.inst_Prompts adapter))) as (Ht2 & Hp2 & Hr2).
    destruct (adapter_fold_prompts (Adapter.inst_Name adapter)
                (Adapter.inst_Prompts adapter) w1) as (Ht1 & Hp1 & Hr1).
    simpl in *. rewrite Ht2, Ht1, Hp2, Hp1, Hr2, Hr1, Hnames, Hp, Hr.
    by rewrite Hall, Htools, Hprompts, Hres.
Qed.
End AdapterRegistration.

(* ===================================================================== *)
(** * The adapter: the tool handler *)
(* ===================================================================== *)

Lemma isNil_spec (v : JValue) : isNil v = true ↔ v = JNull.
Proof. by destruct v. Qed.

(** X24.  [validateParams] accepts the arguments of a call exactly when
    every required parameter mapping has its source among the arguments
    or has a default; and an error it returns names the source of the
    first required mapping, in the order of the configuration, that has
    neither. *)
Theorem adapter_validateParams_cases (h : Adapter.ToolHandler)
    (params : gmap string JValue) :
  let mappings :=
    Adapter.ParameterMappings
      (Adapter.tool_HTTPMapping (Adapter.handler_ToolConfig h)) in
  let satisfied p :=
    Adapter.Required p = true →
    is_Some (params !! Adapter.Source p) ∨ Adapter.Default p ≠ JNull in
  (Adapter.validateParams h params = None ↔ Forall satisfied mappings) ∧
  (∀ e, Adapter.validateParams h params = Some e →
     ∃ before p after,
       mappings = before ++ p :: after ∧
       Forall satisfied before ∧ ¬ satisfied p ∧
       e = errors_New ("required parameter '" +:+ Adapter.Source p
                       +:+ "' is missing")).
Proof.
  intros mappings satisfied. unfold Adapter.validateParams. fold mappings.
  assert (Hdec : ∀ p,
            (Adapter.Required p
             && negb (bool_decide (is_Some (params !! Adapter.Source p)))
             && isNil (Adapter.Default p) = true) ↔ ¬ satisfied p).
  { intros p. unfold satisfied.
    rewrite !andb_true_iff, negb_true_iff, bool_decide_eq_false, isNil_spec.
    split.
    - intros [[Hr Hs] Hd] Hsat. destruct (Hsat Hr) as [?|?]; done.
    - intros Hn. destruct (Adapter.Required p); [|by destruct Hn].
      split; [split; [done|]|].
      + intros Hs. apply Hn. by left.
      + destruct (Adapter.Default p) eqn:Hd; try done;
          destruct Hn; intros _; by right. }
  induction mappings as [|p rest [IHnone IHerr]]; simpl.
  - split; [done|]. intros e [=].
  - destruct (Adapter.Required p
              && negb (bool_decide (is_Some (params !! Adapter.Source p)))
              && isNil (Adapter.Default p)) eqn:Hbad.
    + apply Hdec in Hbad. split.
      * split; [done|]. intros Hall. by apply Forall_cons in Hall as [? _].
      * intros e [= <-]. by exists [], p, rest.
    + assert (Hsat : satisfied p).
      { destruct (decide (Adapter.Required p = true)) as [Hr|Hr]; [|by intros ?].
        intros _.
        destruct (decide (is_Some (params !! Adapter.Source p))) as [?|Hs];
          [by left|].
        right. intros Hd. apply not_true_iff_false in Hbad. apply Hbad, Hdec.
        intros Hsat. destruct (Hsat Hr); done. }
      split.
      * rewrite IHnone. split; [by constructor|].
        intros Hall. by apply Forall_cons in Hall as [_ ?].
      * intros e He. destruct (IHerr e He) as (before & q & after & -> & Hb & Hq & ->).
        exists (p :: before), q, after. repeat split; try done. by constructor.
Qed.

Lemma JValue_size_array (l : list JValue) (v : JValue) :
  v ∈ l → JValue_size v < JValue_size (JArray l).
Proof.
  simpl. induction 1 as [v l|v w l _ IH]; simpl; lia.
Qed.

Lemma JValue_size_object (m : gmap string JValue) (k : string) (v : JValue) :
  m !! k = Some v → JValue_size v < JValue_size (JObject m).
Proof.
  intros Hk. simpl.
  rewrite (map_fold_delete_L _ _ k v m); [lia| |done].
  intros. lia.
Qed.

(** Induction over values: a slice with all its elements, a map with all
    its values. *)
Lemma JValue_induction (P : JValue → Prop) :
  P JNull → (∀ b, P (JBool b)) → (∀ bits, P (JNumber bits)) →
  (∀ s, P (JString s)) →
  (∀ l, Forall P l → P (JArray l)) →
  (∀ m, map_Forall (λ _, P) m → P (JObject m)) →
  ∀ v, P v.
Proof.
  intros Hnull Hbool Hnum Hstr Harr Hobj v.
  remember (JValue_size v) as n eqn:Hn. revert v Hn.
  induction (lt_wf n) as [n _ IH]. intros v ->.
  destruct v as [|b|bits|s|l|m]; auto.
  - apply Harr, Forall_forall. intros x Hx.
    by apply (IH _ (JValue_size_array l x Hx)).
  - apply Hobj. intros k x Hx.
    by apply (IH _ (JValue_size_object m k x Hx)).
Qed.

(** X25.  Without arguments, [substitute] returns the body template as
    it is, placeholders included. *)
Theorem adapter_substitute_no_params (template : JValue) :
  Adapter.substitute template ∅ = template.
Proof.
  induction template as [|b|bits|s|l IH|m IH] using JValue_induction;
    cbn [Adapter.substitute]; try done.
  - rewrite lookup_empty.
    match goal with |- (if ?b then _ else _) = _ => by destruct b end.
  - f_equal. rewrite <- (list_fmap_id l) at 2. by apply Forall_fmap_ext_1.
  - f_equal. rewrite <- (map_fmap_id m) at 2. apply map_fmap_ext.
    intros k x Hk. by apply (IH k x Hk).
Qed.

Lemma TrimSuffix_cat (s suffix : string) : TrimSuffix (s +:+ suffix) suffix = s.
Proof.
  unfold TrimSuffix. by rewrite rev_cat, TrimPrefix_cat, rev_involutive_s.
Qed.

(** X26.  What [substitute] replaces.  A string that is "{{." then a key
    then "}}" becomes the argument of that key, with the type it has
    (not a string of it, and not looked through for placeholders), and
    stays as it is when there is no such argument; a string without that
    prefix or without that suffix is kept; a map keeps its keys and a
    slice its length. *)
Theorem adapter_substitute_placeholder (params : gmap string JValue) :
  (∀ key,
     Adapter.substitute (JString ("{{." +:+ key +:+ "}}")) params =
       match params !! key with
       | Some val => val
       | None => JString ("{{." +:+ key +:+ "}}")
       end) ∧
  (∀ s, HasPrefix s "{{." = false ∨ HasSuffix s "}}" = false →
        Adapter.substitute (JString s) params = JString s) ∧
  (∀ m, ∃ m', Adapter.substitute (JObject m) params = JObject m' ∧
              dom m' = dom m) ∧
  (∀ l, ∃ l', Adapter.substitute (JArray l) params = JArray l' ∧
              length l' = length l).
Proof.
  split; [|split; [|split]].
  - intros key. cbn [Adapter.substitute].
    rewrite (HasPrefix_cat "{{." (key +:+ "}}")).
    rewrite <- (app_assoc_s "{{." key "}}"), (HasSuffix_cat ("{{." +:+ key) "}}").
    rewrite (app_assoc_s "{{." key "}}"), TrimPrefix_cat, TrimSuffix_cat.
    done.
  - intros s [Hp|Hs]; cbn [Adapter.substitute]; [by rewrite Hp|].
    by rewrite Hs, andb_false_r.
  - intros m. eexists. split; [reflexivity|]. apply dom_fmap_L.
  - intros l. eexists. split; [reflexivity|]. apply length_fmap.
Qed.

(* ===================================================================== *)
(** * More runs of the model *)
(* ===================================================================== *)

(** [load] on a file that cannot be read, on a file without proxy
    section, and on a file with a [null] backend. *)
Lemma load_error_cases_run :
  load (Err (errors_New "open config.json: no such file or directory"))
    = Returns (Err (errors_New "open config.json: no such file or directory")) ∧
  load (Ok noProxyConfig) = Returns (Err (errors_New "mcpProxy is required")) ∧
  load (Ok nilBackendConfig) = Panics nil_dereference.
Proof.
  split; [|split].
  - apply (proj1 (load_error_cases _)). by left.
  - apply (proj1 (load_error_cases _)). right. split; [done|].
    by exists noProxyConfig.
  - apply (proj2 (load_error_cases _)). split; [done|].
    by eexists nilBackendConfig, _, "github".
Defined.

(** Loading the loaded example configuration returns it as it is. *)
Lemma load_idempotent_run :
  ∃ conf', load (Ok exampleConfig) = Returns (Ok conf') ∧
           load (Ok conf') = Returns (Ok conf').
Proof.
  eexists. split; [vm_compute; reflexivity|].
  apply (load_idempotent (Ok exampleConfig)). vm_compute; reflexivity.
Defined.

(** The loaded example configuration has the three backends, and "amap"
    is the sse variant before and after. *)
Lemma load_keeps_transport_run :
  ∃ conf',
    load (Ok exampleConfig) = Returns (Ok conf') ∧
    dom (McpServers conf') = dom (McpServers exampleConfig) ∧
    ∃ clientConfig',
      McpServers conf' !! "amap" = Some (Some clientConfig') ∧
      parseMCPClientConfig clientConfig' = parseMCPClientConfig amapConfig.
Proof.
  eexists. split; [vm_compute; reflexivity|].
  destruct (load_keeps_transport (Ok exampleConfig) _
              ltac:(vm_compute; reflexivity)) as (conf & Hconf & Hdom & Hall).
  injection Hconf as <-. split; [exact Hdom|].
  eexists. split; [vm_compute; reflexivity|].
  destruct (Hall "amap" _ ltac:(vm_compute; reflexivity))
    as (clientConfig & Hlook & Hparse).
  change (McpServers exampleConfig !! "amap") with (Some (Some amapConfig)) in Hlook.
  injection Hlook as <-. exact Hparse.
Defined.

(** The proxy blocks the tool [a]; the backend "github", which has no
    options, is loaded without tool filter. *)
Lemma load_never_inherits_toolFilter_run :
  ∃ conf' clientConfig' o',
    load (Ok filteredProxyConfig) = Returns (Ok conf') ∧
    McpServers conf' !! "github" = Some (Some clientConfig') ∧
    client_Options clientConfig' = Some o' ∧
    ToolFilter o' = None.
Proof.
  eexists _, _.
  destruct (load_never_inherits_toolFilter (Ok filteredProxyConfig) _ "github" _
              ltac:(vm_compute; reflexivity) ltac:(vm_compute; reflexivity))
    as (conf & clientConfig & o' & Hconf & Hlook & Ho & Hfilter).
  injection Hconf as <-.
  change (McpServers filteredProxyConfig !! "github")
    with (Some (Some githubConfig)) in Hlook.
  injection Hlook as <-.
  exists o'. split; [vm_compute; reflexivity|]. split; [vm_compute; reflexivity|].
  split; [exact Ho|exact Hfilter].
Defined.

(** The route of "amap", which has no tokens, over an SSE handler that
    panics: the mounted handler returns. *)
Lemma mounted_handler_never_panics_run :
  ∃ mount log',
    startHTTPServer_backend "" "amap" amapConfig panickingHandler None []
    = Returns (None, Some mount, log') ∧
    (panickingHandler plainRequest noExchange).1 = Panicked "runtime error" ∧
    (mount_Handler mount plainRequest noExchange).1 = Normal.
Proof.
  eexists _, _. split; [reflexivity|]. split; [reflexivity|].
  apply (mounted_handler_never_panics "" "amap" amapConfig panickingHandler
           None [] _ None _ eq_refl).
Defined.

(** A route with the token "SECRET" and logging on: a request without
    header gets a 401 and no log line; a request with the bearer token is
    logged and handed on, and so is one whose token is followed by a
    no-break space, which [TrimSpace] trims. *)
Lemma mounted_handler_with_tokens_run :
  ∃ mount log',
    startHTTPServer_backend "" "fetch" tokenConfig okHandler None []
    = Returns (None, Some mount, log') ∧
    mount_Handler mount plainRequest noExchange
    = (Normal, {| written := [(401, "Unauthorized" +:+ LF)]; logged := [] |}) ∧
    mount_Handler mount bearerRequest noExchange
    = recoverMiddleware "fetch" okHandler bearerRequest
        (logPrintf (LogRequest "fetch" "GET" "/fetch/") noExchange) ∧
    mount_Handler mount noBreakSpaceRequest noExchange
    = recoverMiddleware "fetch" okHandler noBreakSpaceRequest
        (logPrintf (LogRequest "fetch" "GET" "/fetch/") noExchange).
Proof.
  destruct (mounted_handler_with_tokens "" "fetch" tokenConfig fetchOptions
              okHandler [] plainRequest noExchange eq_refl ltac:(cbn; lia))
    as (mount & log' & Hstart & H401 & _).
  destruct (mounted_handler_with_tokens "" "fetch" tokenConfig fetchOptions
              okHandler [] bearerRequest noExchange eq_refl ltac:(cbn; lia))
    as (mount2 & log2 & Hstart2 & _ & Hok).
  rewrite Hstart in Hstart2. injection Hstart2 as <- <-.
  destruct (mounted_handler_with_tokens "" "fetch" tokenConfig fetchOptions
              okHandler [] noBreakSpaceRequest noExchange eq_refl
              ltac:(cbn; lia))
    as (mount3 & log3 & Hstart3 & _ & Hok3).
  rewrite Hstart in Hstart3. injection Hstart3 as <- <-.
  exists mount, log'. split; [exact Hstart|]. split; [|split].
  - apply H401. by left.
  - apply Hok; [discriminate|]. vm_compute. constructor.
  - apply Hok3; [vm_compute; discriminate|]. vm_compute. constructor.
Defined.

(** The route of "github". *)
Lemma mcpRoute_simple_name_run :
  simpleName "github" ∧
  mcpRoute "" "github" = "/github/" ∧
  mcpRoute "/" "github" = "/github/".
Proof.
  assert (H : simpleName "github").
  { unfold simpleName. split; [discriminate|]. split; [reflexivity|].
    split; discriminate. }
  split; [exact H|].
  destruct (mcpRoute_simple_name "github" H) as (H1 & H2 & _).
  split; [exact H1|exact H2].
Defined.

(** The adapter's middleware with the token "SECRET": the bearer request
    is handed on, the request whose header is the token alone gets a 401;
    without tokens the request without header is handed on. *)
Lemma adapter_newAuthMiddleware_cases_run :
  adapter_newAuthMiddleware (Some ["SECRET"]) okHandler bearerRequest noExchange
  = okHandler bearerRequest noExchange ∧
  (∃ msg, adapter_newAuthMiddleware (Some ["SECRET"]) okHandler
            bareTokenRequest noExchange
          = (Normal, {| written := [(401, msg)]; logged := [] |})) ∧
  adapter_newAuthMiddleware None okHandler plainRequest noExchange
  = okHandler plainRequest noExchange.
Proof.
  split; [|split].
  - pose proof (adapter_newAuthMiddleware_cases (Some ["SECRET"]) okHandler
                  bearerRequest noExchange) as H.
    cbv zeta in H. destruct H as (_ & Hok & _).
    apply Hok; [discriminate|]. exists "SECRET". split; [constructor|].
    vm_compute. reflexivity.
  - pose proof (adapter_newAuthMiddleware_cases (Some ["SECRET"]) okHandler
                  bareTokenRequest noExchange) as H.
    cbv zeta in H. destruct H as (_ & _ & Hbad).
    apply Hbad; [discriminate|]. intros (token & _ & Heq).
    vm_compute in Heq. discriminate Heq.
  - pose proof (adapter_newAuthMiddleware_cases None okHandler
                  plainRequest noExchange) as H.
    cbv zeta in H. destruct H as (Hnone & _). by apply Hnone.
Defined.

(** "github" is a stdio client: no manual start, no pings; a config
    without command and URL gives no client. *)
Lemma newMCPClient_flags_run :
  (∃ c b, newMCPClient (readyLibrary ()) "github" githubConfig = Ok (c, b) ∧
          name c = "github" ∧ needManualStart c = false ∧ needPing c = false) ∧
  ∃ e, parseMCPClientConfig (urlBackend "sse" "" None) = Err e ∧
       newMCPClient (readyLibrary ()) "none" (urlBackend "sse" "" None) = Err e.
Proof.
  split.
  - eexists _, _. split; [vm_compute; reflexivity|].
    destruct (proj2 (newMCPClient_flags (readyLibrary ()) "github" githubConfig)
                _ _ ltac:(vm_compute; reflexivity))
      as (Hname & _ & Hstart & Hping).
    assert (Hp := proj2 Hping ltac:(discriminate)).
    split; [exact Hname|]. split; [by rewrite Hstart|exact Hp].
  - eexists. split; [vm_compute; reflexivity|].
    apply (proj1 (newMCPClient_flags (readyLibrary ()) "none"
                    (urlBackend "sse" "" None))).
    vm_compute. reflexivity.
Defined.

(** The resource templates of the example backend are registered as
    listed, for a client with a tool filter, and no tool is added. *)
Lemma registrars_add_their_family_run :
  listingEndsWithin (ListResourceTemplates scriptedClient) 3 "" exampleBackend
  = true ∧
  ∃ err b' w',
    addResourceTemplatesToServer scriptedClient 3
      (filteringClient "allow" ["a"; "c"]) exampleBackend freshWorld
    = Some (err, b', w') ∧
    srv_ResourceTemplates (mcpServer w') = Items templatePage ∧
    srv_Tools (mcpServer w') = [].
Proof.
  split; [reflexivity|].
  destruct (registrars_add_their_family asciiToLower scriptedClient 3
              (filteringClient "allow" ["a"; "c"]) exampleBackend freshWorld)
    as (_ & _ & H & _).
  destruct (H eq_refl) as (err & b' & w' & Hrun & Htemplates & Htools & _).
  exists err, b', w'. split; [exact Hrun|].
  split; [exact Htemplates|exact Htools].
Defined.

(** A client without options registers the three tools the example
    backend advertised. *)
Lemma no_tool_filter_registers_all_run :
  listingEndsWithin (ListTools scriptedClient) 3 "" exampleBackend = true ∧
  ∃ err b' w',
    addToolsToServer asciiToLower scriptedClient 3 (plainClient "github" true)
      exampleBackend freshWorld = Some (err, b', w') ∧
    srv_Tools (mcpServer w') = [toolA; toolB; toolC] ∧
    unknownModeLines (logs w') = 0.
Proof.
  split; [reflexivity|].
  exact (no_tool_filter_registers_all asciiToLower scriptedClient 3
           (plainClient "github" true) exampleBackend freshWorld
           (or_introl eq_refl) eq_refl).
Defined.

(** The SSE client "github": its initialization against the example
    backend succeeds and forks its ping task; against a backend whose
    tools listing fails it returns the error and forks none. *)
Lemma addToMCPServer_forks_ping_on_success_run :
  (∃ b' w',
     addToMCPServer asciiToLower scriptedClient 3
       (filteringClient "allow" ["a"; "c"]) proxyInfo exampleBackend freshWorld
     = Some (None, b', w') ∧
     pingTasks w' = ["github"]) ∧
  (∃ e b' w',
     addToMCPServer asciiToLower scriptedClient 3
       (filteringClient "allow" ["a"; "c"]) proxyInfo failingBackend freshWorld
     = Some (Some e, b', w') ∧
     pingTasks w' = []).
Proof.
  split.
  - eexists _, _. split; [vm_compute; reflexivity|].
    exact (addToMCPServer_forks_ping_on_success asciiToLower scriptedClient 3
             (filteringClient "allow" ["a"; "c"]) proxyInfo exampleBackend
             freshWorld None _ _ ltac:(vm_compute; reflexivity)).
  - eexists _, _, _. split; [vm_compute; reflexivity|].
    exact (addToMCPServer_forks_ping_on_success asciiToLower scriptedClient 3
             (filteringClient "allow" ["a"; "c"]) proxyInfo failingBackend
             freshWorld (Some _) _ _ ltac:(vm_compute; reflexivity)).
Defined.


(** [LoadNewConfig] on a file without proxy section. *)
Lemma adapter_LoadNewConfig_errors_run :
  Adapter.LoadNewConfig
    (Adapter.Unmarshals {| Adapter.AdapterProxy := None;
                           Adapter.AdapterServers := ∅ |})
  = Returns (Err (errors_New "adapter_proxy is required")).
Proof.
  apply (proj2 (adapter_LoadNewConfig_errors _ _)).
  right. right. eexists. split; reflexivity.
Defined.

(** Loading the adapter configuration: "users", without options, gets
    the token and the flags of the proxy; "orders", whose token list is
    empty, gets the token of the proxy and keeps its flags. *)
Lemma adapter_LoadNewConfig_inherits_run :
  ∃ config',
    Adapter.LoadNewConfig (Adapter.Unmarshals adapterConfig)
    = Returns (Ok config') ∧
    (∃ serverConfig' o',
       Adapter.AdapterServers config' !! "users" = Some (Some serverConfig') ∧
       Adapter.server_Options serverConfig' = Some o' ∧
       elems (Adapter.AuthTokens o') = ["ProxyToken"] ∧
       Adapter.PanicIfInvalid o' = true ∧ Adapter.LogEnabled o' = false) ∧
    (∃ serverConfig' o',
       Adapter.AdapterServers config' !! "orders" = Some (Some serverConfig') ∧
       Adapter.server_Options serverConfig' = Some o' ∧
       elems (Adapter.AuthTokens o') = ["ProxyToken"] ∧
       Adapter.PanicIfInvalid o' = false ∧ Adapter.LogEnabled o' = true).
Proof.
  eexists. split; [vm_compute; reflexivity|].
  destruct (adapter_LoadNewConfig_inherits (Adapter.Unmarshals adapterConfig) _
              ltac:(vm_compute; reflexivity))
    as (config & proxy & Hfile & Hproxy & Hall).
  injection Hfile as <-. injection Hproxy as <-. cbv zeta in Hall.
  split.
  - destruct (Hall "users" _ eq_refl)
      as (sc' & o' & Hlook & Ho & Htokens & _ & Hflags & _).
    exists sc', o'. split; [exact Hlook|]. split; [exact Ho|].
    split; [exact Htokens|exact (Hflags eq_refl)].
  - destruct (Hall "orders" _ eq_refl)
      as (sc' & o' & Hlook & Ho & Htokens & Hflags & _).
    exists sc', o'. split; [exact Hlook|]. split; [exact Ho|].
    split; [exact Htokens|].
    destruct (Hflags _ eq_refl) as (Hp & Hl & _). split; [exact Hp|exact Hl].
Defined.


(** With a filter function for "delete_user" and "broken", the adapter
    registers "get_user" and its prompt. *)
Lemma adapter_AddToMCPServerWithFilter_registers_run :
  ∃ w',
    Adapter.AddToMCPServerWithFilter _ typedSchema
      (Adapter.NewAdapterFromServerConfig "users"
         (usersServer [brokenTool; getUser; deleteUser] None))
      (Some (λ toolName, bool_decide (toolName ≠ "get_user"))) emptyRegistry
    = (None, w') ∧
    Adapter.mcp_Name <$> Adapter.reg_Tools w' = ["get_user"] ∧
    Adapter.reg_Prompts w' = [("greet", "A greeting")].
Proof.
  destruct (adapter_AddToMCPServerWithFilter_registers typedSchema
              (Adapter.NewAdapterFromServerConfig "users"
                 (usersServer [brokenTool; getUser; deleteUser] None))
              (Some (λ toolName, bool_decide (toolName ≠ "get_user")))
              emptyRegistry)
    as (w' & Hadd & Htools & Hprompts & _).
  { intros t Ht.
    change (t ∈ [getUser]) in Ht. apply list_elem_of_singleton in Ht as ->.
    by eexists. }
  exists w'. split; [exact Hadd|]. split; [exact Htools|exact Hprompts].
Defined.

(** Without filter function, the schema of "broken" ends the
    registration after "get_user": no prompt is registered. *)
Lemma adapter_schema_error_stops_registration_run :
  ∃ prefix err w',
    Adapter.AddToMCPServerWithFilter _ typedSchema
      (Adapter.NewAdapterFromServerConfig "users"
         (usersServer [getUser; brokenTool; deleteUser] None))
      None emptyRegistry
    = (Some (Errorf_w (prefix +:+ "broken" +:+ ": ") err), w') ∧
    Adapter.mcp_Name <$> Adapter.reg_Tools w' = ["get_user"] ∧
    Adapter.reg_Prompts w' = [].
Proof.
  destruct (adapter_schema_error_stops_registration typedSchema
              (Adapter.NewAdapterFromServerConfig "users"
                 (usersServer [getUser; brokenTool; deleteUser] None))
              None emptyRegistry [getUser] [deleteUser] brokenTool)
    as (prefix & err & w' & Hadd & Htools & Hprompts & _).
  - reflexivity.
  - intros t Ht.
    change (t ∈ [getUser]) in Ht. apply list_elem_of_singleton in Ht as ->.
    by eexists.
  - reflexivity.
  - intros s. vm_compute. discriminate.
  - exists prefix, err, w'. split; [exact Hadd|].
    split; [exact Htools|exact Hprompts].
Defined.

(** The adapter of "users" registers "delete_user" although the filter
    of the proxy blocks it. *)
Lemma adapter_server_registers_every_tool_run :
  ∃ ma adapter w',
    Adapter.NewMultiAdapter (Adapter.Unmarshals adapterConfig) = Returns (Ok ma) ∧
    Adapter.shouldFilterTool ma "users" "delete_user" = Returns true ∧
    Adapter.adapters ma !! "users" = Some adapter ∧
    Adapter.AddToMCPServer _ typedSchema adapter emptyRegistry = (None, w') ∧
    Adapter.mcp_Name <$> Adapter.reg_Tools w' = ["get_user"; "delete_user"].
Proof.
  eexists.
  destruct (adapter_server_registers_every_tool typedSchema adapterConfig _
              "users" _ emptyRegistry ltac:(vm_compute; reflexivity) eq_refl)
    as (adapter & w' & Hlook & Hadd & Htools & _).
  { intros t Ht. apply elem_of_cons in Ht as [->|Ht]; [by eexists|].
    apply list_elem_of_singleton in Ht as ->. by eexists. }
  exists adapter, w'. split; [vm_compute; reflexivity|].
  split; [vm_compute; reflexivity|]. split; [exact Hlook|].
  split; [exact Hadd|exact Htools].
Defined.

(** The tool "get_user" needs "limit", which has a default, and "id",
    which has none: a call with an "id" is accepted, a call without
    arguments is not. *)
Lemma adapter_validateParams_cases_run :
  Adapter.validateParams
    {| Adapter.handler_ToolConfig := getUser;
       Adapter.handler_TargetAPIConfig := usersTarget |}
    {[ "id" := JString "42" ]} = None ∧
  Adapter.validateParams
    {| Adapter.handler_ToolConfig := getUser;
       Adapter.handler_TargetAPIConfig := usersTarget |} ∅ ≠ None.
Proof.
  split.
  - pose proof (adapter_validateParams_cases
                  {| Adapter.handler_ToolConfig := getUser;
                     Adapter.handler_TargetAPIConfig := usersTarget |}
                  {[ "id" := JString "42" ]}) as H.
    cbv beta zeta in H. apply (proj1 H).
    constructor; [intros _; by right|].
    constructor; [intros _; left; by eexists|constructor].
  - pose proof (adapter_validateParams_cases
                  {| Adapter.handler_ToolConfig := getUser;
                     Adapter.handler_TargetAPIConfig := usersTarget |} ∅) as H.
    cbv beta zeta in H. intros Hnone. apply (proj1 H) in Hnone.
    apply Forall_cons in Hnone as [_ Hid].
    apply Forall_cons in Hid as [Hid _].
    destruct (Hid eq_refl) as [[v Hv]|Hd]; [discriminate Hv|by apply Hd].
Defined.

(** A placeholder becomes the number it names; a string without the dot
    is kept. *)
Lemma adapter_substitute_placeholder_run :
  Adapter.substitute (JString "{{.id}}") {[ "id" := JNumber 7 ]} = JNumber 7 ∧
  Adapter.substitute (JString "{{id}}") {[ "id" := JNumber 7 ]} = JString "{{id}}".
Proof.
  destruct (adapter_substitute_placeholder {[ "id" := JNumber 7 ]})
    as (Hkey & Hplain & _).
  split; [exact (Hkey "id")|]. apply Hplain. by left.
Defined.

(** The prompt listing fails on its second page: the registrar returns
    the error, the two requests were for the empty cursor and for "p2",
    and the prompt of the first page is not registered. *)
Lemma list_error_drops_earlier_pages_run :
  Forall (λ page : Page Prompt, NextCursor page ≠ "") [promptPage1] ∧
  Items promptPage1 ≠ [] ∧
  addPromptsToServer scriptedClient 5 (plainClient "github" true)
    failingBackend freshWorld
  = Some (Some (errors_New "connection reset"),
          setPromptPages {| pending := []; requested := [""; "p2"] |}
            failingBackend,
          freshWorld) ∧
  srv_Prompts (mcpServer freshWorld) = [].
Proof.
  assert (H : Forall (λ page : Page Prompt, NextCursor page ≠ "") [promptPage1]).
  { constructor; [discriminate|constructor]. }
  split; [exact H|]. split; [discriminate|]. split; [|reflexivity].
  destruct (list_error_drops_earlier_pages asciiToLower
              (plainClient "github" true) (errors_New "connection reset") []
              5 failingBackend freshWorld ltac:(lia)) as (_ & Hprompts & _).
  exact (Hprompts [promptPage1] [] H eq_refl).
Defined.
